(** * Cobbler sync: a shallow embedding of [cobbler/action_sync.py] and
      [cobbler/item_system.py]

    The development follows the Python sources function by function.
    Python [str] values are [string]s, dictionaries whose iteration order
    matters are association lists, the file store and the DHCP buckets are
    [gmap]s, and exceptions are an explicit [result] type.  What the code
    prints is left out. *)

From Stdlib Require Import Strings.String Strings.Ascii.
From stdpp Require Import base option list strings gmap sorting pretty.

Local Open Scope string_scope.

(** ** Python string primitives *)

Module PyStr.

(** The characters the sources write as ["\n"] and ["\t"]. *)
Definition nl_char : ascii := ascii_of_nat 10.
Definition nl : string := String nl_char "".
Definition tab : string := String (ascii_of_nat 9) "".
Definition dquote : string := String (ascii_of_nat 34) "".

(** [s.startswith(p)] *)
Definition startswith (p s : string) : bool := String.prefix p s.

(** [s.endswith(p)] *)
Definition endswith (p s : string) : bool :=
  String.prefix (String.rev p) (String.rev s).

(** [s.find(sub) != -1] *)
Fixpoint contains (sub s : string) : bool :=
  match s with
  | "" => String.prefix sub ""
  | String _ s' => String.prefix sub s || contains sub s'
  end.

(** [s[n:]] *)
Fixpoint drop_str (n : nat) (s : string) : string :=
  match n, s with
  | O, _ => s
  | S _, "" => ""
  | S k, String _ s' => drop_str k s'
  end.

(** [s.replace(old, new)] for a non-empty [old]: occurrences are found
    left to right and do not overlap.  [skip] counts the characters of
    an occurrence that are still to be passed over. *)
Fixpoint replace_go (old new : string) (skip : nat) (s : string) : string :=
  match s with
  | "" => ""
  | String c s' =>
      match skip with
      | S k => replace_go old new k s'
      | O =>
          if String.prefix old s
          then new +:+ replace_go old new (String.length old - 1) s'
          else String c (replace_go old new 0 s')
      end
  end.

(** With an empty [old] Python puts [new] before every character and at
    the end. *)
Fixpoint intersperse_str (new s : string) : string :=
  match s with
  | "" => new
  | String c s' => new +:+ String c (intersperse_str new s')
  end.

Definition replace (old new s : string) : string :=
  match old with
  | "" => intersperse_str new s
  | _ => replace_go old new 0 s
  end.

(** [s.split(sep)] for a one-character separator. *)
Fixpoint split (sep : ascii) (s : string) : list string :=
  match s with
  | "" => [""]
  | String c s' =>
      if Ascii.eqb c sep then "" :: split sep s'
      else match split sep s' with
           | h :: t => String c h :: t
           | [] => [String c ""]
           end
  end.

(** [s.split(sep, maxsplit)] for a one-character separator. *)
Fixpoint splitn (sep : ascii) (maxsplit : nat) (s : string) {struct s}
  : list string :=
  match maxsplit with
  | O => [s]
  | S k =>
      match s with
      | "" => [""]
      | String c s' =>
          if Ascii.eqb c sep then "" :: splitn sep k s'
          else match splitn sep maxsplit s' with
               | h :: t => String c h :: t
               | [] => [String c ""]
               end
      end
  end.

(** [sep.join(parts)] *)
Definition join (sep : string) (parts : list string) : string :=
  String.concat sep parts.

(** Plain concatenation of a list of strings. *)
Definition concat_str (parts : list string) : string :=
  foldr String.append "" parts.

Definition map_ascii (f : ascii → ascii) : string → string :=
  fix go s := match s with
              | "" => ""
              | String c s' => String (f c) (go s')
              end.

Definition upper_char (c : ascii) : ascii :=
  let n := nat_of_ascii c in
  if (97 <=? n)%nat && (n <=? 122)%nat then ascii_of_nat (n - 32) else c.

Definition lower_char (c : ascii) : ascii :=
  let n := nat_of_ascii c in
  if (65 <=? n)%nat && (n <=? 90)%nat then ascii_of_nat (n + 32) else c.

(** [s.upper()] and [s.lower()] on byte strings. *)
Definition upper : string → string := map_ascii upper_char.
Definition lower : string → string := map_ascii lower_char.

(** [s.rfind("/") + 1]: the length of the part up to and including the
    last slash. *)
Fixpoint after_last_slash (s : string) : string :=
  match s with
  | "" => ""
  | String c s' =>
      if contains "/" s' then after_last_slash s'
      else if Ascii.eqb c "/" then s' else s
  end.

(** [os.path.basename(p)] *)
Definition basename (p : string) : string := after_last_slash p.

Fixpoint strip_leading (c : ascii) (s : string) : string :=
  match s with
  | String a s' => if Ascii.eqb a c then strip_leading c s' else s
  | "" => ""
  end.

(** [s.rstrip("/")] *)
Definition rstrip_slash (s : string) : string :=
  String.rev (strip_leading "/" (String.rev s)).

(** [os.path.dirname(p)] of posixpath. *)
Definition dirname (p : string) : string :=
  let head :=
    String.substring 0 (String.length p - String.length (basename p)) p in
  if String.eqb (rstrip_slash head) "" then head else rstrip_slash head.

(** [os.path.join(a, b)] of posixpath, and its three-argument form. *)
Definition path_join (a b : string) : string :=
  if startswith "/" b then b
  else if String.eqb a "" || endswith "/" a then a +:+ b
  else a +:+ "/" +:+ b.

Definition path_join3 (a b c : string) : string :=
  path_join (path_join a b) c.

(** [s.find(sub)], with [None] for [-1]. *)
Fixpoint find (sub s : string) : option nat :=
  if String.prefix sub s then Some 0%nat
  else match s with
       | "" => None
       | String _ s' => option_map S (find sub s')
       end.

End PyStr.

(** ** Python values, exceptions and the file store *)

(** The values a metadata mapping or an object field can hold.  The
    renderer only ever asks whether a value is a [str]. *)
Inductive pyval :=
  | PNone
  | PStr (s : string)
  | PBool (b : bool)
  | PList (items : list string)
  | PDict (items : list (string * string)).

(** A [dict] whose iteration order is observable: keys are unique and the
    list order is the order in which [for x in d] yields them. *)
Abbreviation pydict := (list (string * pyval)).

Fixpoint dict_get {V} (k : string) (d : list (string * V)) : option V :=
  match d with
  | [] => None
  | (k', v) :: d' => if String.eqb k k' then Some v else dict_get k d'
  end.

Inductive exn :=
  | CX (msg : string)                (* cexceptions.CX *)
  | CobblerException (msg : string)  (* cexceptions.CobblerException *)
  | AttributeError                   (* attribute access on None or a non-str *)
  | IOError (path : string)          (* open() of a missing file *)
  | KeyError (key : string)
  | UnboundLocalError                (* a local read before any assignment *)
  | IndexError                       (* a list index out of range *)
  | EngineError.                     (* whatever Cheetah raised *)

Inductive result (A : Type) :=
  | OK (a : A)
  | Raise (e : exn).
Arguments OK {A} a.
Arguments Raise {A} e.

(** The part of the file system the writers touch: regular files by path
    and the directories asked for through [self.mkdir]. *)
Record world := World {
  files : gmap string string;
  made_dirs : list string
}.

(** Stateful, fallible code: effects done before an exception stay. *)
Definition M (A : Type) : Type := world → result A * world.

Definition ret {A} (a : A) : M A := λ w, (OK a, w).
Definition throw {A} (e : exn) : M A := λ w, (Raise e, w).
Definition bind {A B} (m : M A) (k : A → M B) : M B :=
  λ w, match m w with
       | (OK a, w') => k a w'
       | (Raise e, w') => (Raise e, w')
       end.
Definition lift {A} (r : result A) : M A := λ w, (r, w).

Declare Scope py_scope.
Delimit Scope py_scope with py.
Notation "x <- m ;; k" := (bind m (λ x, k))
  (at level 100, m at next level, right associativity) : py_scope.
Notation "m ;;; k" := (bind m (λ _, k))
  (at level 100, right associativity) : py_scope.
Local Open Scope py_scope.

(** [for x in xs: body] *)
Fixpoint for_each {X} (xs : list X) (body : X → M unit) : M unit :=
  match xs with
  | [] => ret tt
  | x :: xs' => body x ;;; for_each xs' body
  end.

(** [open(path).read()] *)
Definition read_file (path : string) : M string :=
  λ w, match files w !! path with
       | Some data => (OK data, w)
       | None => (Raise (IOError path), w)
       end.

(** [fd = open(path, "w+"); fd.write(data); fd.close()] *)
Definition write_file (path data : string) : M unit :=
  λ w, (OK tt, World (<[path := data]> (files w)) (made_dirs w)).

(** [self.mkdir(path)]: an existing directory is not an error. *)
Definition mkdir (path : string) : M unit :=
  λ w, (OK tt, World (files w) (made_dirs w ++ [path])).

(** [self.rmfile(path)]: a missing file is not an error. *)
Definition rmfile (path : string) : M unit :=
  λ w, (OK tt, World (delete path (files w)) (made_dirs w)).

(** ** [BootSync.apply_template] *)

Section Renderer.

(** [str(Template(source=data, searchList=[metadata]))]; [None] when
    Cheetah raises. *)
Variable Template : string → pydict → option string.

(** [self.snippet_cache], in the iteration order of the dictionary. *)
Variable snippet_cache : list (string * string).

(** [data.replace("TEMPLATE::","$")] *)
Definition legacy_rewrite (data : string) : string :=
  PyStr.replace "TEMPLATE::" "$" data.

(** The inner loop [for x in self.snippet_cache] on one line. *)
Definition inline_line (cache : list (string * string)) (line : string)
  : string :=
  foldl (λ line '(x, body),
           if negb (PyStr.startswith "#" line)
           then PyStr.replace ("SNIPPET::" +:+ x) body line
           else line)
        line cache.

(** The outer loop: [newdata = "\n".join((newdata, line))]. *)
Definition inline_snippets (cache : list (string * string)) (data : string)
  : string :=
  foldl (λ newdata line,
           PyStr.join PyStr.nl [newdata; inline_line cache line])
        "" (PyStr.split PyStr.nl_char data).

Definition is_url_line (line : string) : bool :=
  PyStr.contains "--url" line && PyStr.contains "url " line.

(** The body of the loop of the NFS hack for one line; the result is the
    new value of [newdata]. *)
Definition nfs_line (tree newdata line : string) : result string :=
  if is_url_line line then
    let rest := PyStr.drop_str 6 tree in
    match PyStr.splitn ":" 2 rest with
    | [server; dir] =>
        let line := "nfs --server " +:+ server +:+ " --dir " +:+ dir in
        let line := line +:+ PyStr.nl +:+ "#url --url=" +:+ tree in
        OK (newdata +:+ line +:+ PyStr.nl)
    | _ =>
        Raise (CX ("Invalid syntax for NFS path given during import: "
                   +:+ tree))
    end
  else OK (newdata +:+ line +:+ PyStr.nl).

Fixpoint nfs_loop (tree newdata : string) (lines : list string)
  : result string :=
  match lines with
  | [] => OK newdata
  | line :: lines' =>
      match nfs_line tree newdata line with
      | OK newdata' => nfs_loop tree newdata' lines'
      | Raise e => Raise e
      end
  end.

(** [if metadata.has_key("tree") and metadata["tree"].startswith("nfs://")] *)
Definition transport_rewrite (metadata : pydict) (data : string)
  : result string :=
  match dict_get "tree" metadata with
  | None => OK data
  | Some (PStr tree) =>
      if PyStr.startswith "nfs://" tree
      then nfs_loop tree "" (PyStr.split PyStr.nl_char data)
      else OK data
  | Some _ => Raise AttributeError
  end.

Definition engine_header : string := "#errorCatcher Echo" +:+ PyStr.nl.

(** [for x in metadata: if type(metadata[x]) == str: ...] *)
Definition literal_subst (metadata : pydict) (data_out : string) : string :=
  foldl (λ data_out '(x, v),
           match v with
           | PStr s => PyStr.replace ("@@" +:+ x +:+ "@@") s data_out
           | _ => data_out
           end)
        data_out metadata.

Definition apply_template (data : string) (metadata : pydict)
    (out_path : option string) : M string :=
  let data := legacy_rewrite data in
  let data := inline_snippets snippet_cache data in
  data <- lift (transport_rewrite metadata data) ;;
  let data := engine_header +:+ data in
  match Template data metadata with
  | None => throw EngineError
  | Some data_out =>
      let data_out := literal_subst metadata data_out in
      match out_path with
      | Some path =>
          mkdir (PyStr.dirname path) ;;;
          write_file path data_out ;;;
          ret data_out
      | None => ret data_out
      end
  end.

End Renderer.

(** The two lines that replace a URL directive: the mount-style
    directive, then the original URL as a comment. *)
Definition nfs_directive (server dir tree : string) : string :=
  "nfs --server " +:+ server +:+ " --dir " +:+ dir
  +:+ PyStr.nl +:+ "#url --url=" +:+ tree.

(** A stand-in for the engine, used in the examples only: it drops the
    [#errorCatcher] directive and expands [$key] for string-valued keys. *)
Definition toy_engine (source : string) (scope : pydict) : option string :=
  let body := PyStr.drop_str (String.length engine_header) source in
  Some (foldl (λ text '(k, v),
                 match v with
                 | PStr s => PyStr.replace ("$" +:+ k) s text
                 | _ => text
                 end) body scope).

(** ** The objects [action_sync.py] reads

    [BootSync] reads its objects through a handful of attributes.  The
    records below hold exactly those. *)

Module Distro.
Record t := Make {
  name : string;
  arch : string;
  breed : option string;
  kernel : string;
  initrd : string
}.
End Distro.

Module Profile.
Record t := Make {
  name : string;
  distro : string   (* a name, not a reference *)
}.
End Profile.

Module Interface.
(** One value of [system.interfaces]: a mapping with these four keys;
    the first three may be [None]. *)
Record t := Make {
  mac_address : option string;
  ip_address : option string;
  hostname : option string;
  dhcp_tag : string
}.
End Interface.

Module System.
Record t := Make {
  name : string;
  profile : string;  (* a name, not a reference *)
  interfaces : list (string * Interface.t);  (* in [iteritems()] order *)
  netboot_enabled : bool
}.
End System.

Module Settings.
Record t := Make {
  tftpboot : string;
  webdir : string;
  dhcpd_conf : string;
  dnsmasq_conf : string;
  manage_dhcp : bool;
  manage_dhcp_mode : string;
  bootloaders : list (string * string);
  server : string;
  next_server : string
}.
End Settings.

(** [x is not None and x != ""] *)
Definition populated (x : option string) : bool :=
  match x with
  | Some s => negb (String.eqb s "")
  | None => false
  end.

(** Modelled from the spec: the collections' lookup by name ("Object
    store: ... supports lookup-by-name"), which [collection.find] and
    [get_conceptual_parent] of [item.py] and [collection.py] provide;
    [None] when no object has the name. *)
Definition find_distro (distros : list Distro.t) (n : string)
  : option Distro.t :=
  List.find (λ d, String.eqb (Distro.name d) n) distros.

(** Modelled from the spec: lookup by name in the profiles, as above. *)
Definition find_profile (profiles : list Profile.t) (n : string)
  : option Profile.t :=
  List.find (λ p, String.eqb (Profile.name p) n) profiles.

(** Modelled from the spec: lookup by name in the systems, as above. *)
Definition find_system (systems : list System.t) (n : string)
  : option System.t :=
  List.find (λ s, String.eqb (System.name s) n) systems.

(** ** DHCP and host-database generation *)

Section Dhcp.

Variable Template : string → pydict → option string.
Variable snippet_cache : list (string * string).
Variable distros : list Distro.t.
Variable profiles : list Profile.t.
Variable systems : list System.t.
Variable settings : Settings.t.
(** [time.asctime(time.gmtime())] *)
Variable asctime : string.

(** [distro.arch], where [distro] may be [None]. *)
Definition arch_of (distro : option Distro.t) : result string :=
  match distro with
  | Some d => OK (Distro.arch d)
  | None => Raise AttributeError
  end.

(** The text [systxt] built for an interface that has a MAC address;
    [counter] is the value after the increment. *)
Definition reservation_text (mode elilo : string)
    (distro : option Distro.t) (counter : nat) (mac : string)
    (interface : Interface.t) : result string :=
  let ip := Interface.ip_address interface in
  let host := Interface.hostname interface in
  if String.eqb mode "isc" then
    let systxt :=
      if populated host
      then PyStr.nl +:+ "host " +:+ default "" host +:+ " {" +:+ PyStr.nl
      else PyStr.nl +:+ "host generic" +:+ pretty counter +:+ " {"
           +:+ PyStr.nl in
    match arch_of distro with
    | Raise e => Raise e
    | OK arch =>
        let systxt :=
          if String.eqb arch "ia64"
          then systxt +:+ "    filename " +:+ PyStr.dquote +:+ "/" +:+ elilo
               +:+ PyStr.dquote +:+ ";" +:+ PyStr.nl
          else systxt in
        let systxt :=
          systxt +:+ "    hardware ethernet " +:+ mac +:+ ";" +:+ PyStr.nl in
        let systxt :=
          if populated ip
          then systxt +:+ "    fixed-address " +:+ default "" ip +:+ ";"
               +:+ PyStr.nl
          else systxt in
        OK (systxt +:+ "}" +:+ PyStr.nl)
    end
  else
    if populated ip then
      match arch_of distro with
      | Raise e => Raise e
      | OK arch =>
          if String.eqb (PyStr.lower arch) "ia64"
          then OK ("dhcp-host=net:ia64," +:+ default "" ip +:+ PyStr.nl)
          else OK ""
      end
    else OK "".

(** The body of the inner loop of [write_dhcp_file].  The state is
    [counter] and [system_definitions]. *)
Definition dhcp_interface_step (mode elilo : string)
    (distro : option Distro.t) (st : nat * gmap string string)
    (interface : Interface.t) : result (nat * gmap string string) :=
  let '(counter, system_definitions) := st in
  if negb (populated (Interface.mac_address interface)) then
    (* can't write a DHCP entry for this system *)
    OK (counter, system_definitions)
  else
    let mac := default "" (Interface.mac_address interface) in
    let counter := counter + 1 in
    match reservation_text mode elilo distro counter mac interface with
    | Raise e => Raise e
    | OK systxt =>
        let dhcp_tag :=
          if String.eqb (Interface.dhcp_tag interface) "" then "default"
          else Interface.dhcp_tag interface in
        let system_definitions :=
          match system_definitions !! dhcp_tag with
          | Some _ => system_definitions
          | None => <[dhcp_tag := ""]> system_definitions
          end in
        OK (counter,
            <[dhcp_tag := default "" (system_definitions !! dhcp_tag)
                          +:+ systxt]> system_definitions)
    end.

Fixpoint dhcp_interfaces (mode elilo : string) (distro : option Distro.t)
    (st : nat * gmap string string) (interfaces : list Interface.t)
  : result (nat * gmap string string) :=
  match interfaces with
  | [] => OK st
  | interface :: rest =>
      match dhcp_interface_step mode elilo distro st interface with
      | OK st' => dhcp_interfaces mode elilo distro st' rest
      | Raise e => Raise e
      end
  end.

(** The outer loop: [profile] and [distro] are looked up before the
    interfaces of the system are visited. *)
Fixpoint dhcp_systems (mode elilo : string)
    (st : nat * gmap string string) (todo : list System.t)
  : result (nat * gmap string string) :=
  match todo with
  | [] => OK st
  | system :: rest =>
      match find_profile profiles (System.profile system) with
      | None => Raise AttributeError
      | Some profile =>
          let distro := find_distro distros (Profile.distro profile) in
          match dhcp_interfaces mode elilo distro st
                  (map snd (System.interfaces system)) with
          | OK st' => dhcp_systems mode elilo st' rest
          | Raise e => Raise e
          end
      end
  end.

Definition write_dhcp_file : M string :=
  let settings_file := Settings.dhcpd_conf settings in
  let template_file := "/etc/cobbler/dhcp.template" in
  let mode := PyStr.lower (Settings.manage_dhcp_mode settings) in
  let '(settings_file, template_file) :=
    if String.eqb mode "dnsmasq"
    then (Settings.dnsmasq_conf settings, "/etc/cobbler/dnsmasq.template")
    else (settings_file, template_file) in
  template_data <-
    (λ w, match read_file template_file w with
          | (Raise _, w') =>
              (Raise (CX ("error writing template to file: "
                          +:+ template_file)), w')
          | r => r
          end) ;;
  loader <- lift (match dict_get "ia64" (Settings.bootloaders settings) with
                  | Some path => OK path
                  | None => Raise (KeyError "ia64")
                  end) ;;
  let elilo := PyStr.basename loader in
  st <- lift (dhcp_systems mode elilo (0, ∅) systems) ;;
  let system_definitions := st.2 in
  let metadata : pydict :=
    [ ("insert_cobbler_system_definitions",
       PStr (default "" (system_definitions !! "default")));
      ("date", PStr asctime);
      ("cobbler_server", PStr (Settings.server settings));
      ("next_server", PStr (Settings.next_server settings));
      ("elilo", PStr elilo) ] in
  let metadata :=
    foldl (λ (metadata : pydict) '(x, text),
             if String.eqb x "default" then metadata
             else (metadata
                   ++ [("insert_cobbler_system_definitions_" +:+ x,
                        PStr text)])%list)
          metadata (map_to_list system_definitions) in
  apply_template Template snippet_cache template_data metadata
    (Some settings_file).

(** The lines [regen_ethers] hands to [fh.write], one call each. *)
Definition ethers_writes : list string :=
  foldl (λ written sys,
    foldl (λ written '(name, interface),
      let mac := Interface.mac_address interface in
      let ip := Interface.ip_address interface in
      if negb (populated mac) then written
      else if populated ip
           then (written ++ [PyStr.upper (default "" mac) +:+ PyStr.tab
                             +:+ default "" ip +:+ PyStr.nl])%list
           else written)
      written (System.interfaces sys))
    [] systems.

Definition regen_ethers : M unit :=
  write_file "/etc/ethers" (PyStr.concat_str ethers_writes).

(** The lines [regen_hosts] hands to [fh.write], one call each. *)
Definition hosts_writes : list string :=
  foldl (λ written sys,
    foldl (λ written '(name, interface),
      let mac := Interface.mac_address interface in
      let host := Interface.hostname interface in
      let ip := Interface.ip_address interface in
      if negb (populated mac) then written
      else if populated host && populated ip
           then (written ++ [default "" ip +:+ PyStr.tab
                             +:+ default "" host +:+ PyStr.nl])%list
           else written)
      written (System.interfaces sys))
    [] systems.

Definition regen_hosts : M unit :=
  write_file "/var/lib/cobbler/cobbler_hosts" (PyStr.concat_str hosts_writes).

End Dhcp.

(** ** Boot-loader configuration files and the boot menu *)

(** What [write_pxe_file] and [write_system_file] read from the mapping
    [utils.blender] returns. *)
Module Blended.
Record t := Make {
  kickstart : option string;
  kernel_options : list (string * string);
  server : string
}.
End Blended.

(** The objects [utils.blender] is called on. *)
Inductive blend_obj :=
  | BDistro (d : Distro.t)
  | BProfile (p : Profile.t)
  | BSystem (s : System.t).

(** [cmp(a.name, b.name) <= 0] on byte strings. *)
Definition name_leb (a b : Profile.t) : bool :=
  String.leb (Profile.name a) (Profile.name b).

(** [profile_list.sort(sort_name)]: the sort of Python lists is stable;
    so is insertion from the right, each element going before the first
    one that is not smaller. *)
Fixpoint insert_by_name (p : Profile.t) (l : list Profile.t)
  : list Profile.t :=
  match l with
  | [] => [p]
  | q :: l' => if name_leb p q then p :: l else q :: insert_by_name p l'
  end.

Definition sort_by_name (l : list Profile.t) : list Profile.t :=
  foldr insert_by_name [] l.

Section Pxe.

Variable Template : string → pydict → option string.
Variable snippet_cache : list (string * string).
Variable distros : list Distro.t.
Variable profiles : list Profile.t.
Variable systems : list System.t.
Variable settings : Settings.t.

(** [utils.blender(self.api, flag, obj, self.blend_cache)] and the other
    helpers of [utils.py] the code below calls; [utils.py] is not among
    the files described here, so they are parameters. *)
Variable blender : bool → blend_obj → result Blended.t.
Variable hash_to_string : list (string * string) → string.
Variable get_config_filename : System.t → string → string.
Variable is_pxe_supported : System.t → bool.
Variable yaml_dump : Blended.t → string.

Definition write_pxe_file (filename : option string)
    (system : option System.t) (profile : Profile.t)
    (distro : option Distro.t) (is_ia64 : bool) : M (option string) :=
  if match system with
     | Some s => negb (System.netboot_enabled s)
     | None => false
     end
  then ret None
  else
    (* find kernel and initrd *)
    d <- lift (match distro with
               | Some d => OK d
               | None => Raise AttributeError
               end) ;;
    let kernel_path :=
      PyStr.path_join3 "/images" (Distro.name d)
        (PyStr.basename (Distro.kernel d)) in
    let initrd_path :=
      PyStr.path_join3 "/images" (Distro.name d)
        (PyStr.basename (Distro.initrd d)) in
    (* find the kickstart if we inherit from another profile *)
    for_profile <- lift (blender true (BProfile profile)) ;;
    let kickstart_path := Blended.kickstart for_profile in
    (* choose a template *)
    let template :=
      match system with
      | None => "/etc/cobbler/pxeprofile.template"
      | Some _ =>
          if negb is_ia64 then "/etc/cobbler/pxesystem.template"
          else "/etc/cobbler/pxesystem_ia64.template"
      end in
    (* now build the kernel command line *)
    blended <- lift (blender true match system with
                                  | Some s => BSystem s
                                  | None => BProfile profile
                                  end) ;;
    let kopts := Blended.kernel_options blended in
    let append_line := "append " +:+ hash_to_string kopts in
    let append_line :=
      if negb is_ia64 then append_line +:+ " initrd=" +:+ initrd_path
      else append_line in
    (* kickstart path rewriting (get URLs for local files) *)
    let append_line :=
      if populated kickstart_path then
        let path := default "" kickstart_path in
        let path :=
          match system with
          | Some s =>
              if PyStr.startswith "/" path
              then "http://" +:+ Blended.server blended
                   +:+ "/cblr/kickstarts_sys/" +:+ System.name s
                   +:+ "/ks.cfg"
              else if PyStr.startswith "/" path
                      || PyStr.contains "/cobbler/kickstarts/" path
              then "http://" +:+ Blended.server blended
                   +:+ "/cblr/kickstarts/" +:+ Profile.name profile
                   +:+ "/ks.cfg"
              else path
          | None =>
              if PyStr.startswith "/" path
                 || PyStr.contains "/cobbler/kickstarts/" path
              then "http://" +:+ Blended.server blended
                   +:+ "/cblr/kickstarts/" +:+ Profile.name profile
                   +:+ "/ks.cfg"
              else path
          end in
        match Distro.breed d with
        | None => append_line +:+ " ks=" +:+ path
        | Some breed =>
            if String.eqb breed "redhat"
            then append_line +:+ " ks=" +:+ path
            else if String.eqb breed "suse"
            then append_line +:+ " autoyast=" +:+ path
            else if String.eqb breed "debian"
            then PyStr.replace "ksdevice" "interface"
                   (append_line +:+ " auto=true url=" +:+ path)
            else append_line
        end
      else append_line in
    (* store variables for templating *)
    let menu_label :=
      if negb is_ia64 && match system with None => true | Some _ => false end
      then "MENU LABEL " +:+ Profile.name profile
      else "" in
    let metadata : pydict :=
      [ ("menu_label", PStr menu_label);
        ("profile_name", PStr (Profile.name profile));
        ("kernel_path", PStr kernel_path);
        ("initrd_path", PStr initrd_path);
        ("append_line", PStr append_line) ] in
    (* get the template *)
    template_data <- read_file template ;;
    (* save file and/or return results, depending on how called *)
    buffer <- apply_template Template snippet_cache template_data metadata
                None ;;
    match filename with
    | Some path => write_file path buffer
    | None => ret tt
    end ;;;
    ret (Some buffer).

(** The loop [for profile in profile_list] of [make_pxe_menu]; the state
    is [pxe_menu_items]. *)
Fixpoint menu_entries (pxe_menu_items : string)
    (profile_list : list Profile.t) : M string :=
  match profile_list with
  | [] => ret pxe_menu_items
  | profile :: rest =>
      let distro := find_distro distros (Profile.distro profile) in
      contents <- write_pxe_file None None profile distro false ;;
      menu_entries
        match contents with
        | Some contents => pxe_menu_items +:+ contents +:+ PyStr.nl
        | None => pxe_menu_items
        end
        rest
  end.

Definition make_pxe_menu : M unit :=
  (* only do this if there is NOT a system named default. *)
  match find_system systems "default" with
  | Some _ => ret tt
  | None =>
      (* read the default template file *)
      template_data <- read_file "/etc/cobbler/pxedefault.template" ;;
      (* sort the profiles *)
      let profile_list := sort_by_name profiles in
      (* build out the menu entries *)
      pxe_menu_items <- menu_entries "" profile_list ;;
      (* save the template. *)
      let metadata : pydict := [("pxe_menu_items", PStr pxe_menu_items)] in
      let outfile :=
        PyStr.path_join3 (Settings.tftpboot settings) "pxelinux.cfg"
          "default" in
      apply_template Template snippet_cache template_data metadata
        (Some outfile) ;;;
      ret tt
  end.

Definition write_system_file (filename : string) (system : System.t)
  : M unit :=
  blended <- lift (blender true (BSystem system)) ;;
  let filename :=
    PyStr.path_join3 (Settings.webdir settings) "systems"
      (System.name system) in
  write_file filename (yaml_dump blended).

Definition pxelinux_arch (arch : string) : bool :=
  String.eqb arch "x86" || String.eqb arch "x86_64"
  || String.eqb arch "standard".

Definition write_all_system_files (system : System.t) : M unit :=
  match find_profile profiles (System.profile system) with
  | None =>
      throw (CX ("system " +:+ System.name system
                 +:+ " references a missing profile "
                 +:+ System.profile system))
  | Some profile =>
      match find_distro distros (Profile.distro profile) with
      | None =>
          throw (CX ("profile " +:+ System.profile system
                     +:+ " references a missing distro "
                     +:+ Profile.distro profile))
      | Some distro =>
          for_each (System.interfaces system) (λ '(name, interface),
            let f1 := get_config_filename system name in
            (* for tftp only ... *)
            let f2 :=
              if pxelinux_arch (Distro.arch distro)
              then Some (PyStr.path_join3 (Settings.tftpboot settings)
                           "pxelinux.cfg" f1)
              else None in
            let f2 :=
              if String.eqb (Distro.arch distro) "ia64"
              then Some (PyStr.path_join (Settings.tftpboot settings)
                           (get_config_filename system name +:+ ".conf"))
              else f2 in
            let f3 :=
              PyStr.path_join3 (Settings.webdir settings) "systems" f1 in
            (if System.netboot_enabled system && is_pxe_supported system
             then
               (if pxelinux_arch (Distro.arch distro)
                then write_pxe_file f2 (Some system) profile (Some distro)
                       false ;;; ret tt
                else ret tt) ;;;
               (if String.eqb (Distro.arch distro) "ia64"
                then write_pxe_file f2 (Some system) profile (Some distro)
                       true ;;; ret tt
                else ret tt)
             else
               (* ensure the file doesn't exist *)
               match f2 with
               | Some path => rmfile path
               | None => throw UnboundLocalError
               end) ;;;
            write_system_file f3 system)
      end
  end.

(** *** Kickstart validation per system *)

(** Lines 538 to 561 of [validate_kickstart_for_specific_system]: the
    blending of the system and the rendering of its kickstart file.  They
    run only once the profile has been found, and are kept as a
    parameter. *)
Variable render_system_kickstart : System.t → Profile.t → M unit.

Definition validate_kickstart_for_specific_system (s : System.t) : M unit :=
  match find_profile profiles (System.profile s) with
  | None =>
      throw (CX ("system " +:+ System.name s
                 +:+ " references missing profile " +:+ System.profile s))
  | Some profile => render_system_kickstart s profile
  end.

Definition validate_kickstarts_per_system : M unit :=
  for_each systems validate_kickstart_for_specific_system.

(** *** The run *)

(** The steps of [run] that are not described here. *)
Variable tftpboot_exists : bool.
Variable run_triggers : string → M unit.
Variable clean_trees_step : M unit.
Variable copy_bootloaders : M unit.
Variable copy_distros : M unit.
Variable retemplate_all_yum_repos : M unit.
Variable validate_kickstarts_per_profile : M unit.
Variable write_listings : M unit.
Variable write_distro_file : Distro.t → M unit.
Variable write_profile_file : Profile.t → M unit.
Variable asctime : string.

Definition validate_kickstarts : M unit :=
  validate_kickstarts_per_profile ;;;
  validate_kickstarts_per_system.

Definition build_trees : M unit :=
  write_listings ;;;
  for_each distros write_distro_file ;;;
  for_each profiles write_profile_file ;;;
  for_each systems write_all_system_files.

(** [run], on the collections as they are after [self.api.deserialize()]. *)
Definition run : M bool :=
  if negb tftpboot_exists
  then throw (CX ("cannot find directory: " +:+ Settings.tftpboot settings))
  else
    (* run pre-triggers... *)
    run_triggers "/var/lib/cobbler/triggers/sync/pre/*" ;;;
    (* execute the core of the sync operation *)
    clean_trees_step ;;;
    copy_bootloaders ;;;
    copy_distros ;;;
    retemplate_all_yum_repos ;;;
    validate_kickstarts ;;;
    build_trees ;;;
    (if Settings.manage_dhcp settings
     then
       write_dhcp_file Template snippet_cache distros profiles systems
         settings asctime ;;;
       regen_ethers systems ;;;
       regen_hosts systems
     else ret tt) ;;;
    make_pxe_menu ;;;
    (* run post-triggers *)
    run_triggers "/var/lib/cobbler/triggers/sync/post/*" ;;;
    ret true.

End Pxe.

(** *** Reference descriptions for the boot menu *)

Definition name_le (a b : Profile.t) : Prop := name_leb a b = true.

(** The first error of a list of results, or all their values. *)
Fixpoint collect {A} (rs : list (result A)) : result (list A) :=
  match rs with
  | [] => OK []
  | OK a :: rs' =>
      match collect rs' with
      | OK l => OK (a :: l)
      | Raise e => Raise e
      end
  | Raise e :: _ => Raise e
  end.

(** ** [BootSync.clean_trees]

    The tree reconciler looks at directory listings, so it gets a file
    system of its own: the content of the web root and of the boot-tree
    root, each a finite map from entry names to nodes.  The two roots are
    taken to be different directories, neither inside the other, there are
    no symbolic links to files or directories, and deletions succeed. *)

Module CleanTrees.

#[warnings="-register-all"] Inductive node :=
  | File (data : string)
  | Dir (entries : gmap string node)
  | Other.   (* neither [isfile] nor [isdir]: a socket, a dangling link *)

Abbreviation dir := (gmap string node).

Record fs := Fs {
  web : dir;    (* the content of [self.settings.webdir] *)
  boot : dir    (* the content of [self.settings.tftpboot] *)
}.

Definition allowed_dirs : list string :=
  ["webui"; "localmirror"; "repo_mirror"; "ks_mirror"; "kickstarts";
   "kickstarts_sys"; "distros"; "images"; "systems"; "profiles"; "links";
   "repo_profile"; "repo_system"].

Definition purged_dirs : list string :=
  ["kickstarts"; "kickstarts_sys"; "images"; "systems"; "distros";
   "profiles"; "repo_profile"; "repo_system"].

(** [os.path.isfile(join(d, x))] and [os.path.isdir(join(d, x))] *)
Definition isfile (d : dir) (x : string) : bool :=
  match d !! x with Some (File _) => true | _ => false end.

Definition isdir (d : dir) (x : string) : bool :=
  match d !! x with Some (Dir _) => true | _ => false end.

(** [os.listdir(d)] *)
Definition listdir (d : dir) : list string := (map_to_list d).*1.

(** [glob.glob("%s/*" % d)]: the pattern [*] does not match names that
    start with a dot. *)
Definition glob_star (d : dir) : list string :=
  List.filter (λ x, negb (PyStr.startswith "." x)) (listdir d).

(** [self.rmfile(join(d, x))] *)
Definition rmfile (d : dir) (x : string) : dir := delete x d.

(** [self.rmtree(join(d, x))]: [shutil.rmtree] with [ignore_errors]
    removes a directory with all it holds and does nothing to a node
    that is not one. *)
Definition rmtree (d : dir) (x : string) : dir :=
  if isfile d x then rmfile d x
  else if isdir d x then delete x d
  else d.

(** [self.rmtree_contents(join(d, x))] *)
Definition rmtree_contents (d : dir) (x : string) : dir :=
  match d !! x with
  | Some (Dir entries) =>
      <[x := Dir (foldl rmtree entries (glob_star entries))]> d
  | _ => d
  end.

(** The body of the loop over the listing of the web root. *)
Definition clean_web_entry (web : dir) (x : string) : dir :=
  let web :=
    if isfile web x
    then if negb (PyStr.endswith ".py" x) then rmfile web x else web
    else web in
  if isdir web x then
    let web :=
      if negb (bool_decide (x ∈ allowed_dirs))
      then rmtree web x   (* delete directories that shouldn't exist *)
      else web in
    if bool_decide (x ∈ purged_dirs)
    then rmtree_contents web x   (* clean out directory contents *)
    else web
  else web.

Definition clean_trees (t : fs) : fs :=
  let web := foldl clean_web_entry (web t) (listdir (web t)) in
  let boot := rmtree_contents (boot t) "pxelinux.cfg" in
  let boot := rmtree_contents boot "images" in
  Fs web boot.

(** What [rmtree_contents] leaves in a directory: the entries [*] does
    not match and the nodes [rmtree] cannot remove. *)
Definition survives_purge (entry : string * node) : bool :=
  PyStr.startswith "." entry.1
  || match entry.2 with Other => true | _ => false end.

Definition purged (entries : dir) : dir :=
  filter (λ entry, survives_purge entry = true) entries.

(** What becomes of one entry of the web root. *)
Definition cleaned_web_entry (x : string) (o : option node) : option node :=
  match o with
  | Some (File data) =>
      if PyStr.endswith ".py" x then Some (File data) else None
  | Some (Dir entries) =>
      if bool_decide (x ∈ allowed_dirs)
      then Some (Dir (if bool_decide (x ∈ purged_dirs)
                      then purged entries else entries))
      else None
  | Some Other => Some Other
  | None => None
  end.

(** A web root with a stale kickstart directory that also holds a
    dot-file, a stray file and a stray directory. *)
Definition sample_fs : fs :=
  Fs (<["kickstarts" :=
          Dir (<[".cache" := File "stale"]>
                 (<["web" := Dir (<["ks.cfg" := File "install"]> ∅)]> ∅))]>
        (<["webui" := Dir (<["index.html" := File "<html>"]> ∅)]>
           (<["notes.txt" := File "todo"]>
              (<["watcher.py" := File "import os"]>
                 (<["scratch" := Dir ∅]> ∅)))))
     (<["pxelinux.cfg" := Dir (<["default" := File "menu"]> ∅)]>
        (<["pxelinux.0" := File "loader"]> ∅)).

End CleanTrees.

(** Trees left by an earlier run in which an editor and a web server have
    put files whose names start with a dot: one in a generated-artifact
    directory of the web root, one directly under the web root, one in a
    directory the web root should not have, and one in the boot-menu
    directory of the boot tree. *)
Definition dotted_fs : CleanTrees.fs :=
  CleanTrees.Fs
    (<["kickstarts" :=
         CleanTrees.Dir
           (<[".ks.cfg.swp" := CleanTrees.File "stale"]>
              (<["web" :=
                   CleanTrees.Dir (<["ks.cfg" := CleanTrees.File "install"]> ∅)]>
                 ∅))]>
       (<[".htaccess" := CleanTrees.File "deny from all"]>
          (<["scratch" :=
               CleanTrees.Dir (<[".keep" := CleanTrees.File ""]> ∅)]> ∅)))
    (<["pxelinux.cfg" :=
         CleanTrees.Dir
           (<[".default.swp" := CleanTrees.File "stale"]>
              (<["default" := CleanTrees.File "menu"]> ∅))]> ∅).

(** ** [cobbler/item_system.py] *)

Module ItemSystem.

(** The attributes of a [System] object; [from_datastruct] stores what
    it is given, so every one of them can hold any value. *)
Record System := Make {
  name : pyval;
  profile : pyval;   (* a name, not a reference *)
  kernel_options : pyval;
  ks_meta : pyval
}.

Definition clear (self : System) : System :=
  Make PNone PNone (PStr "") (PStr "").

(** [seed_data[key]] *)
Definition item (seed_data : pydict) (key : string) : result pyval :=
  match dict_get key seed_data with
  | Some v => OK v
  | None => Raise (KeyError key)
  end.

Definition from_datastruct (self : System) (seed_data : pydict)
  : result System :=
  match item seed_data "name" with
  | Raise e => Raise e
  | OK n =>
      match item seed_data "profile" with
      | Raise e => Raise e
      | OK p =>
          match item seed_data "kernel_options" with
          | Raise e => Raise e
          | OK k =>
              match item seed_data "ks_meta" with
              | Raise e => Raise e
              | OK m => OK (Make n p k m)
              end
          end
      end
  end.

Definition to_datastruct (self : System) : pydict :=
  [ ("name", name self);
    ("profile", profile self);
    ("kernel_options", kernel_options self);
    ("ks_meta", ks_meta self) ].

Definition is_valid (self : System) : bool :=
  match name self, profile self with
  | PNone, _ => false
  | _, PNone => false
  | _, _ => true
  end.

Section Setters.

(** [utils.find_system_identifier]: the identifier the name stands
    for, or [None]; a parameter, like the other helpers of [utils.py]. *)
Variable find_system_identifier : string → option string.

(** [not new_name]: [None] and the empty string are false. *)
Definition falsy (new_name : option string) : bool :=
  match new_name with
  | None => true
  | Some v => String.eqb v ""
  end.

(** The object after the call, or the exception; a successful call
    returns [True]. *)
Definition set_name (self : System) (new : string) : result System :=
  if String.eqb new "default"
  then OK (Make (PStr "default") (profile self) (kernel_options self)
             (ks_meta self))
  else
    let new_name := find_system_identifier new in
    if falsy new_name
    then Raise (CobblerException "bad_sys_name")
    else
      (* we check it add time, but store the original value. *)
      OK (Make (PStr new) (profile self) (kernel_options self)
            (ks_meta self)).

(** [self.config.profiles().find(profile_name)] is given as the list
    of loaded profile names. *)
Definition set_profile (loaded : list string) (self : System)
    (profile_name : string) : result System :=
  if bool_decide (profile_name ∈ loaded)
  then OK (Make (name self) (PStr profile_name) (kernel_options self)
             (ks_meta self))
  else Raise (CobblerException "exc_profile").

End Setters.

(** Is the value a mapping? *)
Definition is_mapping (v : pyval) : bool :=
  match v with PDict _ => true | _ => false end.

(** A world in which one host name resolves, and an IPv4 literal and a
    MAC literal are recognised. *)
Definition sample_identifier (n : string) : option string :=
  dict_get n [ ("web1.example.org", "10.0.0.5");
               ("10.0.0.5", "10.0.0.5");
               ("aa:bb:cc:dd:ee:0f", "AA:BB:CC:DD:EE:0F") ].

Definition blank : System := Make PNone PNone PNone PNone.

End ItemSystem.

(** Modelled from the spec: the merge the blender (of [utils.py], which is
    not among the sources) applies to mapping-valued fields, "merged
    key-by-key with the more specific level winning per key". *)
Definition blend_mapping (general specific : gmap string string)
  : gmap string string :=
  specific ∪ general.

(** *** Reference descriptions of the generated records *)

Definition has_mac (interface : Interface.t) : bool :=
  populated (Interface.mac_address interface).


(** The ISC [host] block of one interface. *)
Definition isc_host_block (elilo arch : string) (counter : nat)
    (mac : string) (interface : Interface.t) : string :=
  PyStr.nl +:+ "host "
  +:+ (if populated (Interface.hostname interface)
       then default "" (Interface.hostname interface)
       else "generic" +:+ pretty counter)
  +:+ " {" +:+ PyStr.nl
  +:+ (if String.eqb arch "ia64"
       then "    filename " +:+ PyStr.dquote +:+ "/" +:+ elilo
            +:+ PyStr.dquote +:+ ";" +:+ PyStr.nl
       else "")
  +:+ "    hardware ethernet " +:+ mac +:+ ";" +:+ PyStr.nl
  +:+ (if populated (Interface.ip_address interface)
       then "    fixed-address " +:+ default "" (Interface.ip_address interface)
            +:+ ";" +:+ PyStr.nl
       else "")
  +:+ "}" +:+ PyStr.nl.







(** All interfaces of all systems, in iteration order. *)
Definition all_interfaces (systems : list System.t) : list Interface.t :=
  flat_map (λ sys, map snd (System.interfaces sys)) systems.

Definition ether_line (interface : Interface.t) : string :=
  PyStr.upper (default "" (Interface.mac_address interface)) +:+ PyStr.tab
  +:+ default "" (Interface.ip_address interface) +:+ PyStr.nl.

Definition host_line (interface : Interface.t) : string :=
  default "" (Interface.ip_address interface) +:+ PyStr.tab
  +:+ default "" (Interface.hostname interface) +:+ PyStr.nl.

Definition in_ethers (interface : Interface.t) : bool :=
  has_mac interface && populated (Interface.ip_address interface).

Definition in_hosts (interface : Interface.t) : bool :=
  has_mac interface && populated (Interface.hostname interface)
  && populated (Interface.ip_address interface).

(** *** Sample objects for the examples *)

Definition sample_distro : Distro.t :=
  Distro.Make "f8-x86_64" "x86_64" (Some "redhat")
    "/var/www/cobbler/ks_mirror/f8/images/pxeboot/vmlinuz"
    "/var/www/cobbler/ks_mirror/f8/images/pxeboot/initrd.img".

Definition sample_profile : Profile.t := Profile.Make "webserver" "f8-x86_64".

(** An interface with a MAC address and an IP address. *)
Definition sample_nic : Interface.t :=
  Interface.Make (Some "aa:bb:cc:dd:ee:0f") (Some "10.0.0.5")
    (Some "web1.example.org") "".

(** An interface with an IP address and a hostname but no MAC address. *)
Definition macless_nic : Interface.t :=
  Interface.Make None (Some "10.0.0.6") (Some "web2.example.org") "".

Definition sample_system : System.t :=
  System.Make "web1" "webserver" [("intf0", sample_nic)] true.

Definition macless_system : System.t :=
  System.Make "web2" "webserver" [("intf0", macless_nic)] true.

(** *** A small installation for the examples *)

Definition web_profile : Profile.t := Profile.Make "web" "f8-x86_64".
Definition db_profile : Profile.t := Profile.Make "db" "f8-x86_64".
Definition app_profile : Profile.t := Profile.Make "app" "f8-x86_64".

Definition sample_settings : Settings.t :=
  Settings.Make "/tftpboot" "/var/www/cobbler" "/etc/dhcpd.conf"
    "/etc/dnsmasq.conf" true "isc" [("ia64", "/var/lib/cobbler/elilo-3.6-ia64.efi")]
    "cobbler.example.org" "cobbler.example.org".

Definition sample_blender (flag : bool) (obj : blend_obj) : result Blended.t :=
  OK (Blended.Make (Some "/etc/cobbler/sample.ks") [("lang", "en")]
        "cobbler.example.org").

Definition sample_hash_to_string (kopts : list (string * string)) : string :=
  PyStr.join " " (map (λ '(k, v), k +:+ "=" +:+ v) kopts).

(** A file store holding the two templates the menu needs. *)
Definition menu_world : world :=
  World (<["/etc/cobbler/pxedefault.template" :=
             "DEFAULT menu" +:+ PyStr.nl +:+ "$pxe_menu_items"]>
           (<["/etc/cobbler/pxeprofile.template" :=
                "LABEL $profile_name" +:+ PyStr.nl +:+ "  $append_line"]> ∅))
        [].

(** The menu entry the sample templates give for a profile name. *)
Definition sample_entry (name : string) : string :=
  PyStr.nl +:+ "LABEL " +:+ name +:+ PyStr.nl
  +:+ "  append lang=en initrd=/images/f8-x86_64/initrd.img"
  +:+ " ks=http://cobbler.example.org/cblr/kickstarts/" +:+ name +:+ "/ks.cfg".

Definition sample_menu : string :=
  PyStr.nl +:+ "DEFAULT menu" +:+ PyStr.nl
  +:+ sample_entry "app" +:+ PyStr.nl
  +:+ sample_entry "db" +:+ PyStr.nl
  +:+ sample_entry "web" +:+ PyStr.nl.

(** A computation that ends in an exception from every state. *)
Definition aborts {A} (m : M A) : Prop :=
  ∀ w, ∃ e w', m w = (Raise e, w').

(** A file store holding the two DHCP templates, and settings for the
    dnsmasq mode. *)
Definition dhcp_world : world :=
  World (<["/etc/cobbler/dhcp.template" :=
             "# $date" +:+ PyStr.nl +:+ "next-server $next_server;"
             +:+ PyStr.nl +:+ "$insert_cobbler_system_definitions"]>
           (<["/etc/cobbler/dnsmasq.template" :=
                "# $date" +:+ PyStr.nl
                +:+ "$insert_cobbler_system_definitions"]> ∅))
        [].

Definition dnsmasq_settings : Settings.t :=
  Settings.Make "/tftpboot" "/var/www/cobbler" "/etc/dhcpd.conf"
    "/etc/dnsmasq.conf" true "dnsmasq"
    [("ia64", "/var/lib/cobbler/elilo-3.6-ia64.efi")]
    "cobbler.example.org" "cobbler.example.org".

(** *** More sample objects *)

(** A file store that also holds the template of a system's boot file. *)
Definition pxe_world : world :=
  World (<["/etc/cobbler/pxesystem.template" :=
             "default linux" +:+ PyStr.nl +:+ "  $append_line"]>
           (files menu_world))
        [].

Definition sample_config_filename (system : System.t) (interface : string)
  : string :=
  "01-aa-bb-cc-dd-ee-0f".

Definition sample_yaml_dump (blended : Blended.t) : string :=
  "server: " +:+ Blended.server blended +:+ PyStr.nl.

(** A distro for a machine that boots with neither pxelinux nor elilo, and
    a profile and a system on it; the system is not to be network-booted. *)
Definition ppc_distro : Distro.t :=
  Distro.Make "f8-ppc" "ppc" (Some "redhat") "/mnt/f8/ppc/vmlinuz"
    "/mnt/f8/ppc/ramdisk.image.gz".

Definition ppc_profile : Profile.t := Profile.Make "ppc-node" "f8-ppc".

Definition ppc_system : System.t :=
  System.Make "node7" "ppc-node" [("intf0", sample_nic)] false.

(** A profile whose distro nobody loaded, and a system on it. *)
Definition orphan_profile : Profile.t := Profile.Make "legacy" "rhel3-i386".

Definition orphan_system : System.t :=
  System.Make "old1" "legacy" [("intf0", sample_nic)] true.

(** The mode of [write_dhcp_file], and the configuration file and the
    template that the mode selects. *)
Definition dhcp_mode (settings : Settings.t) : string :=
  PyStr.lower (Settings.manage_dhcp_mode settings).

Definition dhcp_conf_file (settings : Settings.t) : string :=
  if String.eqb (dhcp_mode settings) "dnsmasq"
  then Settings.dnsmasq_conf settings else Settings.dhcpd_conf settings.

Definition dhcp_template_file (settings : Settings.t) : string :=
  if String.eqb (dhcp_mode settings) "dnsmasq"
  then "/etc/cobbler/dnsmasq.template" else "/etc/cobbler/dhcp.template".

(** Where the loop of [write_dhcp_file] reads [distro.arch]: in ISC mode
    for every interface with a MAC address, and in the other modes for
    one that also has an IP address. *)
Definition asks_for_arch (mode : string) (interface : Interface.t) : bool :=
  String.eqb mode "isc" || populated (Interface.ip_address interface).

(** ** Repository files *)

(** [get_repo_segname]: the directory under the web root that holds the
    repository files of profiles, or of systems; [retemplate_yum_repos]
    writes into the same two directories. *)
Definition get_repo_segname (is_profile : bool) : string :=
  if is_profile then "repos_profile" else "repos_system".

(** [analyze_repo_config]: what the scan of a repository file ends in. *)
Module RepoConfig.

(** What a call ends in: the value returned, or the exception. *)
Inductive outcome (A : Type) :=
  | Returned (a : A)
  | RaisedValueError            (* [first, baseurl = line.split("=")] *)
  | RaisedIOError (path : string).
Arguments Returned {A} a.
Arguments RaisedValueError {A}.
Arguments RaisedIOError {A} path.

(** The body of the loop over the lines; the state is [ret] and
    [baseurl], and [None] stands for the failed unpacking. *)
Definition scan_line (st : bool * option string) (line : string)
  : option (bool * option string) :=
  let '(ret, baseurl) := st in
  let ret := if PyStr.contains "ks_mirror" line then true else ret in
  if PyStr.contains "baseurl" line then
    match PyStr.split "=" line with
    | [first; baseurl] => Some (ret, Some baseurl)
    | _ => None
    end
  else Some (ret, baseurl).

Fixpoint scan_lines (st : bool * option string) (lines : list string)
  : option (bool * option string) :=
  match lines with
  | [] => Some st
  | line :: rest =>
      match scan_line st line with
      | Some st' => scan_lines st' rest
      | None => None
      end
  end.

(** The pair returned is [(ret, baseurl)]. *)
Definition analyze_repo_config (filename : string) (w : world)
  : outcome (bool * option string) :=
  match files w !! filename with
  | None => RaisedIOError filename
  | Some data =>
      match scan_lines (false, None) (PyStr.split PyStr.nl_char data) with
      | Some (ret, baseurl) => Returned (ret, baseurl)
      | None => RaisedValueError
      end
  end.

(** [c.split("/")[-1].replace(".repo","")]; a split has a last part. *)
Definition repo_display_name (c : string) : string :=
  PyStr.replace ".repo" "" (default "" (last (PyStr.split "/" c))).

(** ["%s" % baseurl] *)
Definition show_baseurl (baseurl : option string) : string :=
  match baseurl with
  | Some url => url
  | None => "None"
  end.

(** The loop of [generate_repo_stanza] over [configs], the files that
    [get_repo_filenames] found for the object. *)
Fixpoint repo_stanza (buf : string) (configs : list string) (w : world)
  : outcome string :=
  match configs with
  | [] => Returned buf
  | c :: rest =>
      let name := repo_display_name c in
      match analyze_repo_config c w with
      | Returned (is_core, baseurl) =>
          repo_stanza
            (buf +:+ "repo --name=" +:+ name +:+ " --baseurl="
             +:+ show_baseurl baseurl +:+ PyStr.nl)
            rest w
      | RaisedValueError => RaisedValueError
      | RaisedIOError path => RaisedIOError path
      end
  end.

Definition generate_repo_stanza (configs : list string) (w : world)
  : outcome string :=
  repo_stanza "" configs w.

(** The lines the scan unpacks, whether one of them unpacks into two
    parts, and its second part. *)
Definition baseurl_lines (lines : list string) : list string :=
  List.filter (PyStr.contains "baseurl") lines.

Definition two_parts (line : string) : bool :=
  match PyStr.split "=" line with
  | [_; _] => true
  | _ => false
  end.

Definition second_part (line : string) : string :=
  match PyStr.split "=" line with
  | [_; value] => value
  | _ => ""
  end.

End RepoConfig.

(** ** [copy_single_distro_files] *)

Section CopyDistro.

Variable settings : Settings.t.

(** [utils.find_kernel] and [utils.find_initrd]: the full path, or [None]. *)
Variable find_kernel : string → option string.
Variable find_initrd : string → option string.

(** [self.linkfile] and [self.copyfile], on source and destination. *)
Variable linkfile : string → string → M unit.
Variable copyfile : string → string → M unit.

(** [path is None or not os.path.isfile(path)] *)
Definition not_a_file (path : option string) (w : world) : bool :=
  match path with
  | Some p => match files w !! p with Some _ => false | None => true end
  | None => true
  end.

(** The body of the loop over the two roots. *)
Definition copy_distro_into (d : Distro.t) (dirtree : string) : M unit :=
  let distros := PyStr.path_join dirtree "images" in
  let distro_dir := PyStr.path_join distros (Distro.name d) in
  mkdir distro_dir ;;;
  let kernel := find_kernel (Distro.kernel d) in   (* full path *)
  let initrd := find_initrd (Distro.initrd d) in   (* full path *)
  λ w,
    if not_a_file kernel w
    then (Raise (CX ("kernel not found: " +:+ Distro.kernel d
                     +:+ ", distro: " +:+ Distro.name d)), w)
    else if not_a_file initrd w
    then (Raise (CX ("initrd not found: " +:+ Distro.initrd d
                     +:+ ", distro: " +:+ Distro.name d)), w)
    else
      let kernel := default "" kernel in
      let initrd := default "" initrd in
      let b_kernel := PyStr.basename kernel in
      let b_initrd := PyStr.basename initrd in
      ((if PyStr.startswith dirtree kernel
        then linkfile kernel (PyStr.path_join distro_dir b_kernel)
        else copyfile kernel (PyStr.path_join distro_dir b_kernel)) ;;;
       (if PyStr.startswith dirtree initrd
        then linkfile initrd (PyStr.path_join distro_dir b_initrd)
        else copyfile initrd (PyStr.path_join distro_dir b_initrd))) w.

Definition copy_single_distro_files (d : Distro.t) : M unit :=
  for_each [Settings.tftpboot settings; Settings.webdir settings]
    (copy_distro_into d).

(** [copy_distros] *)
Definition copy_distros (distros : list Distro.t) : M unit :=
  for_each distros copy_single_distro_files.

End CopyDistro.

(** ** [retemplate_yum_repos] *)

Module RepoBlended.
(** What [retemplate_yum_repos] reads of the mapping [utils.blender]
    returns for an object: the values of the keys [name], [repos] and
    [source_repos], [None] for a key the mapping does not have, and the
    mapping as a whole, which goes to [apply_template] as the metadata.
    An entry of [source_repos] is a sequence, of which the first
    component is read. *)
Record t := Make {
  name : option string;
  source_repos : option (list (list string));
  repos : option (list string);
  mapping : pydict
}.
End RepoBlended.

Section Retemplate.

Variable Template : string → pydict → option string.
Variable snippet_cache : list (string * string).
Variable profiles : list Profile.t.
Variable systems : list System.t.
Variable settings : Settings.t.

(** [utils.blender(self.api, False, obj, self.blend_cache)] *)
Variable blender : blend_obj → result RepoBlended.t.

(** [blended[key]] *)
Definition blended_item {A} (key : string) (value : option A) : result A :=
  match value with
  | Some v => OK v
  | None => Raise (KeyError key)
  end.

(** The first loop: [r[0]] of every entry of [source_repos]. *)
Fixpoint source_repo_files (entries : list (list string))
  : result (list string) :=
  match entries with
  | [] => OK []
  | r :: rest =>
      match r with
      | [] => Raise IndexError
      | r0 :: _ =>
          let filename :=
            Settings.webdir settings +:+ "/"
            +:+ PyStr.join "/" (drop 4 (PyStr.split "/" r0)) in
          match source_repo_files rest with
          | OK files => OK (filename :: files)
          | Raise e => Raise e
          end
      end
  end.

(** [input_files]: the install source repos, then the mirrored repos. *)
Definition repo_input_files (blended : RepoBlended.t)
  : result (list string) :=
  match blended_item "source_repos" (RepoBlended.source_repos blended) with
  | Raise e => Raise e
  | OK entries =>
      match source_repo_files entries with
      | Raise e => Raise e
      | OK from_sources =>
          match blended_item "repos" (RepoBlended.repos blended) with
          | Raise e => Raise e
          | OK repos =>
              OK (from_sources
                  ++ map (λ repo,
                            PyStr.path_join
                              (PyStr.path_join3 (Settings.webdir settings)
                                 "repo_mirror" repo)
                              "config.repo")
                         repos)%list
          end
      end
  end.

(** [infile.split("/")[-2]], or the last part without [.repo]. *)
Definition repo_dispname (infile : string) : result string :=
  let parts := PyStr.split "/" infile in
  if negb (PyStr.contains "ks_mirror" infile)
  then match rev parts !! 1%nat with
       | Some part => OK part
       | None => Raise IndexError
       end
  else OK (PyStr.replace ".repo" "" (default "" (last parts))).

(** The body of the loop over [input_files]. *)
Definition retemplate_input (blended : RepoBlended.t) (outseg infile : string)
  : M unit :=
  dispname <- lift (repo_dispname infile) ;;
  let confdir := PyStr.path_join (Settings.webdir settings) outseg in
  name <- lift (blended_item "name" (RepoBlended.name blended)) ;;
  let outdir := PyStr.path_join confdir name in
  mkdir outdir ;;;
  λ w,
    match files w !! infile with
    | None => (OK tt, w)   (* WARNING: cobbler reposync needs to be run *)
    | Some infile_data =>
        let outfile := PyStr.path_join outdir (dispname +:+ ".repo") in
        (apply_template Template snippet_cache infile_data
           (RepoBlended.mapping blended) (Some outfile) ;;;
         ret tt) w
    end.

Definition retemplate_yum_repos (obj : blend_obj) (is_profile : bool)
  : M unit :=
  blended <- lift (blender obj) ;;
  let outseg := if is_profile then "repos_profile" else "repos_system" in
  input_files <- lift (repo_input_files blended) ;;
  for_each input_files (retemplate_input blended outseg).

Definition retemplate_all_yum_repos : M unit :=
  for_each profiles (λ p, retemplate_yum_repos (BProfile p) true) ;;;
  for_each systems (λ system, retemplate_yum_repos (BSystem system) false).

End Retemplate.

(** Does a message name the system and the profile it refers to? *)
Definition names_link (s : System.t) (msg : string) : bool :=
  PyStr.contains (System.name s) msg && PyStr.contains (System.profile s) msg.

(** Modelled from the spec: what [utils.blender], which is not among the
    sources, does with an object whose parent is missing, "missing parent
    reference fails with BrokenReferenceError naming the dangling link":
    for the system it raises, with a message that names the system and
    the profile. *)
Definition fails_on_missing_parent
    (blender : blend_obj → result RepoBlended.t) (s : System.t) : Prop :=
  ∃ msg, blender (BSystem s) = Raise (CX msg) ∧ names_link s msg = true.

(** A blender for the examples that fails on a missing parent; every
    other object has the one mirrored repository [updates]. *)
Definition sample_repo_blender (profiles : list Profile.t) (obj : blend_obj)
  : result RepoBlended.t :=
  match obj with
  | BSystem s =>
      match find_profile profiles (System.profile s) with
      | None =>
          Raise (CX ("system " +:+ System.name s +:+ " has no profile "
                     +:+ System.profile s))
      | Some _ =>
          OK (RepoBlended.Make (Some (System.name s)) (Some [])
                (Some ["updates"]) [("server", PStr "cobbler.example.org")])
      end
  | BProfile p =>
      OK (RepoBlended.Make (Some (Profile.name p)) (Some [])
            (Some ["updates"]) [("server", PStr "cobbler.example.org")])
  | BDistro d =>
      OK (RepoBlended.Make (Some (Distro.name d)) (Some []) (Some []) [])
  end.

(** A web root that holds the mirrored repository. *)
Definition repo_world : world :=
  World (<["/var/www/cobbler/repo_mirror/updates/config.repo" :=
             "[updates]" +:+ PyStr.nl
             +:+ "baseurl=http://$server/cobbler/repo_mirror/updates"]> ∅)
        [].

(** A system on a loaded profile and one on a profile nobody loaded. *)
Definition web_system : System.t :=
  System.Make "web1" "web" [("intf0", sample_nic)] true.

Definition retired_system : System.t :=
  System.Make "web9" "retired" [("intf0", sample_nic)] true.

(** * Properties *)

Example split_lines :
  PyStr.split PyStr.nl_char ("a" +:+ PyStr.nl +:+ PyStr.nl +:+ "b") = ["a"; ""; "b"].
Proof. reflexivity. Qed.

Example splitn_two :
  PyStr.splitn ":" 2 "a:b:c:d" = ["a"; "b"; "c:d"].
Proof. reflexivity. Qed.

Example replace_twice : PyStr.replace "ab" "X" "abcabab_a" = "XcXX_a".
Proof. reflexivity. Qed.

Example replace_overlap : PyStr.replace "aa" "b" "aaa" = "ba".
Proof. reflexivity. Qed.

Example dirname_ex :
  PyStr.dirname "/tftpboot/pxelinux.cfg/default" = "/tftpboot/pxelinux.cfg"
  ∧ PyStr.dirname "/x" = "/" ∧ PyStr.dirname "x" = ""
  ∧ PyStr.basename "/a/b/vmlinuz" = "vmlinuz".
Proof. repeat split; reflexivity. Qed.

Example join_ex :
  PyStr.path_join3 "/tftpboot" "pxelinux.cfg" "default"
  = "/tftpboot/pxelinux.cfg/default".
Proof. reflexivity. Qed.

Example upper_ex : PyStr.upper "aa:bb:0c-Zz" = "AA:BB:0C-ZZ" ∧ PyStr.lower "IA64x" = "ia64x".
Proof. split; reflexivity. Qed.

(** ** Facts about the string primitives *)

Section StringFacts.

Lemma str_app_cons c (s t : string) : String c s +:+ t = String c (s +:+ t).
Proof. reflexivity. Qed.

Lemma str_app_nil_l (s : string) : "" +:+ s = s.
Proof. reflexivity. Qed.

Lemma str_app_nil_r (s : string) : s +:+ "" = s.
Proof. induction s as [|c s IH]; [done|]. by rewrite str_app_cons, IH. Qed.

Lemma str_app_assoc (s t u : string) : (s +:+ t) +:+ u = s +:+ (t +:+ u).
Proof.
  induction s as [|c s IH]; [done|]. by rewrite !str_app_cons, IH.
Qed.

Lemma str_app_length (s t : string) :
  String.length (s +:+ t) = String.length s + String.length t.
Proof.
  induction s as [|c s IH]; [done|]. rewrite str_app_cons. simpl. by rewrite IH.
Qed.

Lemma prefix_app (p s : string) : String.prefix p (p +:+ s) = true.
Proof.
  induction p as [|c p IH]; [by destruct s|].
  rewrite str_app_cons. simpl. by destruct (ascii_dec c c).
Qed.

(** Passing over the rest of a matched occurrence. *)
Lemma replace_go_skip old new (r tail : string) :
  PyStr.replace_go old new (String.length r) (r +:+ tail)
  = PyStr.replace_go old new 0 tail.
Proof.
  induction r as [|c r IH]; [done|].
  rewrite str_app_cons. cbn [String.length PyStr.replace_go]. apply IH.
Qed.

(** An occurrence at the very start of the text is replaced, and the
    scan resumes right after it. *)
Lemma replace_at_start c old new tail :
  PyStr.replace (String c old) new (String c old +:+ tail)
  = new +:+ PyStr.replace (String c old) new tail.
Proof.
  unfold PyStr.replace. rewrite str_app_cons.
  cbn [PyStr.replace_go].
  rewrite <- str_app_cons, prefix_app.
  replace (String.length (String c old) - 1) with (String.length old)
    by (cbn [String.length]; lia).
  by rewrite replace_go_skip.
Qed.

End StringFacts.

(** ** The template renderer *)

Section RendererFacts.

Lemma nfs_loop_rewrites tree server dir lines : ∀ newdata,
  PyStr.splitn ":" 2 (PyStr.drop_str 6 tree) = [server; dir] →
  nfs_loop tree newdata lines
  = OK (newdata +:+ PyStr.concat_str
          (map (λ line, (if is_url_line line
                         then nfs_directive server dir tree
                         else line) +:+ PyStr.nl) lines)).
Proof.
  intros newdata Hsplit. revert newdata.
  induction lines as [|line lines IH]; intros newdata.
  - cbn. by rewrite str_app_nil_r.
  - cbn [nfs_loop map PyStr.concat_str foldr]. unfold nfs_line.
    rewrite Hsplit. destruct (is_url_line line).
    + rewrite IH. unfold nfs_directive, PyStr.concat_str.
      by rewrite !str_app_assoc.
    + rewrite IH. unfold PyStr.concat_str. by rewrite !str_app_assoc.
Qed.

Lemma nfs_loop_plain tree lines : ∀ newdata,
  existsb is_url_line lines = false →
  nfs_loop tree newdata lines
  = OK (newdata +:+ PyStr.concat_str (map (λ line, line +:+ PyStr.nl) lines)).
Proof.
  induction lines as [|line lines IH]; intros newdata Hnone.
  - cbn. by rewrite str_app_nil_r.
  - cbn [existsb] in Hnone. apply orb_false_iff in Hnone as [Hline Hrest].
    cbn [nfs_loop map PyStr.concat_str foldr]. unfold nfs_line.
    rewrite Hline, (IH _ Hrest). unfold PyStr.concat_str.
    by rewrite !str_app_assoc.
Qed.

Lemma nfs_loop_invalid tree lines : ∀ newdata,
  (∀ server dir, PyStr.splitn ":" 2 (PyStr.drop_str 6 tree) ≠ [server; dir]) →
  existsb is_url_line lines = true →
  nfs_loop tree newdata lines
  = Raise (CX ("Invalid syntax for NFS path given during import: " +:+ tree)).
Proof.
  induction lines as [|line lines IH]; intros newdata Hbad Hsome; [done|].
  cbn [existsb] in Hsome. cbn [nfs_loop]. unfold nfs_line.
  destruct (is_url_line line) eqn:Hline.
  - destruct (PyStr.splitn ":" 2 (PyStr.drop_str 6 tree))
      as [|a [|b [|c l]]] eqn:Hsplit; try done.
    by destruct (Hbad a b).
  - by apply IH.
Qed.

Lemma inline_snippets_lines cache data :
  inline_snippets cache data
  = PyStr.concat_str
      (map (λ line, PyStr.nl +:+ inline_line cache line)
           (PyStr.split PyStr.nl_char data)).
Proof.
  unfold inline_snippets.
  assert (∀ lines acc,
    foldl (λ newdata line,
             PyStr.join PyStr.nl [newdata; inline_line cache line]) acc lines
    = acc +:+ PyStr.concat_str
                (map (λ line, PyStr.nl +:+ inline_line cache line) lines))
    as Hloop.
  { induction lines as [|line lines IH]; intros acc.
    - cbn. by rewrite str_app_nil_r.
    - cbn [foldl map]. rewrite IH. unfold PyStr.join, PyStr.concat_str.
      cbn [String.concat foldr]. by rewrite !str_app_assoc. }
  by rewrite Hloop.
Qed.

(** The passes of [apply_template], in the order in which they run. *)
Lemma apply_template_passes (Template : string → pydict → option string)
    (cache : list (string * string)) (data : string) (metadata : pydict)
    (out_path : option string) (w : world) :
  apply_template Template cache data metadata out_path w
  = match transport_rewrite metadata
            (inline_snippets cache (legacy_rewrite data)) with
    | Raise e => (Raise e, w)
    | OK text =>
        match Template (engine_header +:+ text) metadata with
        | None => (Raise EngineError, w)
        | Some evaluated =>
            let data_out := literal_subst metadata evaluated in
            (OK data_out,
             match out_path with
             | None => w
             | Some path =>
                 World (<[path := data_out]> (files w))
                       (made_dirs w ++ [PyStr.dirname path])
             end)
        end
    end.
Proof.
  unfold apply_template, bind, lift, throw, ret.
  destruct (transport_rewrite _ _) as [text|e]; [|done].
  destruct (Template _ _) as [evaluated|]; [|done].
  by destruct out_path.
Qed.

(** A marker at the start of a line is replaced by the text of its
    snippet, and the remaining snippets then see that text. *)
Lemma inline_line_marker x body tail rest :
  inline_line ((x, body) :: rest) ("SNIPPET::" +:+ x +:+ tail)
  = inline_line rest (body +:+ PyStr.replace ("SNIPPET::" +:+ x) body tail).
Proof.
  cbn [inline_line foldl].
  change ("SNIPPET::" +:+ x +:+ tail)
    with (String "S" ("NIPPET::" +:+ x +:+ tail)).
  cbn [PyStr.startswith String.prefix negb].
  change (String "S" ("NIPPET::" +:+ x +:+ tail))
    with (String "S" ("NIPPET::" +:+ x) +:+ tail).
  change ("SNIPPET::" +:+ x) with (String "S" ("NIPPET::" +:+ x)).
  destruct (ascii_dec "#" "S") as [E|_]; [discriminate E|].
  cbn [negb]. by rewrite replace_at_start.
Qed.

End RendererFacts.

(** A host document with a marker and a literal token; the snippet holds a
    variable and a literal token of its own.  Both are resolved from the
    metadata of the one call. *)
Example apply_template_snippet_tokens :
  fst (apply_template toy_engine
         [("partitions", "part / --size=$size # for @@ip@@")]
         ("network --ip=@@ip@@" +:+ PyStr.nl +:+ "SNIPPET::partitions")
         [("ip", PStr "10.0.0.7"); ("size", PStr "4096")]
         None (World ∅ []))
  = OK (PyStr.nl +:+ "network --ip=10.0.0.7" +:+ PyStr.nl
        +:+ "part / --size=4096 # for 10.0.0.7").
Proof. vm_compute. reflexivity. Qed.

(** A marker on a comment line is left alone. *)
Example apply_template_comment_line :
  inline_snippets [("partitions", "part /")] "#SNIPPET::partitions"
  = PyStr.nl +:+ "#SNIPPET::partitions".
Proof. reflexivity. Qed.

(** C7 (amended).  The transport rewrite leaves the text alone when the
    metadata has no [tree] or a [tree] string that does not start with
    [nfs://].  When [tree] is [nfs://] followed by a text with exactly one
    colon, [server:dir], every line is written back followed by a newline,
    a line holding both [--url] and [url ] being replaced by the directive
    [nfs --server server --dir dir] and, on the next line, the comment
    [#url --url=] with the [tree] value.  When the text after [nfs://]
    does not split into two parts at [:], a matching line makes the
    renderer raise [CX], and without a matching line the lines are written
    back unchanged. *)
Theorem transport_rewrite_cases (metadata : pydict) (data : string) :
  let lines := PyStr.split PyStr.nl_char data in
  transport_rewrite metadata data
  = match dict_get "tree" metadata with
    | None => OK data
    | Some (PStr tree) =>
        if PyStr.startswith "nfs://" tree then
          match PyStr.splitn ":" 2 (PyStr.drop_str 6 tree) with
          | [server; dir] =>
              OK (PyStr.concat_str
                    (map (λ line, (if is_url_line line
                                   then nfs_directive server dir tree
                                   else line) +:+ PyStr.nl) lines))
          | _ =>
              if existsb is_url_line lines
              then Raise (CX ("Invalid syntax for NFS path given during import: "
                              +:+ tree))
              else OK (PyStr.concat_str
                         (map (λ line, line +:+ PyStr.nl) lines))
          end
        else OK data
    | Some _ => Raise AttributeError
    end.
Proof.
  intros lines. unfold transport_rewrite.
  destruct (dict_get "tree" metadata) as [[|tree| | |]|]; try done.
  destruct (PyStr.startswith "nfs://" tree); [|done]. fold lines.
  destruct (PyStr.splitn ":" 2 (PyStr.drop_str 6 tree))
    as [|a [|b [|c l]]] eqn:Hsplit;
    try (destruct (existsb is_url_line lines) eqn:Hany;
         [ apply nfs_loop_invalid; [by rewrite Hsplit | done]
         | by rewrite nfs_loop_plain ]).
  by rewrite (nfs_loop_rewrites tree a b).
Qed.

(** C7, as stated, fails: a [tree] that starts with [nfs://] but has no
    colon after it makes the pass raise instead of rewriting the line. *)
Lemma transport_rewrite_rejects_tree_without_colon :
  PyStr.startswith "nfs://" "nfs://filer" = true
  ∧ is_url_line "url --url=$tree" = true
  ∧ transport_rewrite [("tree", PStr "nfs://filer")] "url --url=$tree"
    = Raise (CX "Invalid syntax for NFS path given during import: nfs://filer").
Proof. repeat split; reflexivity. Qed.

Example transport_rewrite_nfs :
  transport_rewrite [("tree", PStr "nfs://filer:/export/f8")]
    ("install" +:+ PyStr.nl +:+ "url --url=$tree")
  = OK ("install" +:+ PyStr.nl +:+ "nfs --server filer --dir /export/f8"
        +:+ PyStr.nl +:+ "#url --url=nfs://filer:/export/f8" +:+ PyStr.nl).
Proof. reflexivity. Qed.

(** ** DHCP reservations *)

Section DhcpFacts.

Variable distros : list Distro.t.
Variable profiles : list Profile.t.

Lemma dhcp_interface_step_macless mode elilo distro st interface :
  has_mac interface = false →
  dhcp_interface_step mode elilo distro st interface = OK st.
Proof.
  intros Hmac. destruct st as [counter defs]. unfold dhcp_interface_step.
  unfold has_mac in Hmac. by rewrite Hmac.
Qed.




Lemma bucket_append (defs : gmap string string) (tag systxt : string) :
  let defs' := match defs !! tag with
               | Some _ => defs
               | None => <[tag := ""]> defs
               end in
  <[tag := default "" (defs' !! tag) +:+ systxt]> defs'
  = <[tag := default "" (defs !! tag) +:+ systxt]> defs.
Proof.
  destruct (defs !! tag) eqn:Hget; cbn zeta.
  - by rewrite Hget.
  - by rewrite lookup_insert_eq, insert_insert_eq.
Qed.







End DhcpFacts.



Example isc_host_block_text :
  isc_host_block "elilo.efi" "x86_64" 1 "aa:bb:cc:dd:ee:0f" sample_nic
  = PyStr.nl +:+ "host web1.example.org {" +:+ PyStr.nl
    +:+ "    hardware ethernet aa:bb:cc:dd:ee:0f;" +:+ PyStr.nl
    +:+ "    fixed-address 10.0.0.5;" +:+ PyStr.nl
    +:+ "}" +:+ PyStr.nl.
Proof. reflexivity. Qed.


(** The two modes on the same systems: the ISC file gets the [host] block
    of the interface that has a MAC address, the dnsmasq file gets
    nothing for it. *)
Example write_dhcp_file_isc :
  files (write_dhcp_file toy_engine [] [sample_distro] [sample_profile]
           [sample_system; macless_system] sample_settings
           "Thu Nov  1 12:00:00 2007" dhcp_world).2 !! "/etc/dhcpd.conf"
  = Some (PyStr.nl +:+ "# Thu Nov  1 12:00:00 2007" +:+ PyStr.nl
          +:+ "next-server cobbler.example.org;" +:+ PyStr.nl
          +:+ isc_host_block "elilo-3.6-ia64.efi" "x86_64" 1
                "aa:bb:cc:dd:ee:0f" sample_nic).
Proof. vm_compute. reflexivity. Qed.

Example write_dhcp_file_dnsmasq :
  files (write_dhcp_file toy_engine [] [sample_distro] [sample_profile]
           [sample_system; macless_system] dnsmasq_settings
           "Thu Nov  1 12:00:00 2007" dhcp_world).2 !! "/etc/dnsmasq.conf"
  = Some (PyStr.nl +:+ "# Thu Nov  1 12:00:00 2007" +:+ PyStr.nl).
Proof. vm_compute. reflexivity. Qed.

(** ** The host-database files *)

Section HostFiles.

(** Both writers are the same nested loop, with their own test and
    their own line. *)
Lemma nested_writes
    (body : list string → string * Interface.t → list string)
    (keep : Interface.t → bool) (line : Interface.t → string) :
  (∀ written name nic,
     body written (name, nic)
     = if keep nic then (written ++ [line nic])%list else written) →
  ∀ systems written,
    foldl (λ written sys, foldl body written (System.interfaces sys))
          written systems
    = (written ++ map line (List.filter keep (all_interfaces systems)))%list.
Proof.
  intros Hbody.
  assert (∀ nics written,
            foldl body written nics
            = (written ++ map line (List.filter keep (map snd nics)))%list)
    as Hinner.
  { induction nics as [|[name nic] nics IH]; intros written.
    - cbn. by rewrite app_nil_r.
    - cbn [foldl map List.filter snd]. rewrite IH, Hbody.
      destruct (keep nic); [|done]. cbn [map]. by rewrite <- app_assoc. }
  induction systems as [|sys rest IH]; intros written.
  - cbn. by rewrite app_nil_r.
  - cbn [foldl all_interfaces flat_map]. rewrite IH, Hinner.
    fold (all_interfaces rest).
    by rewrite List.filter_app, map_app, app_assoc.
Qed.

Lemma ethers_writes_spec systems :
  ethers_writes systems
  = map ether_line (List.filter in_ethers (all_interfaces systems)).
Proof.
  unfold ethers_writes.
  rewrite (nested_writes _ in_ethers ether_line); [done|].
  intros written name nic. unfold in_ethers, has_mac, ether_line.
  destruct (populated (Interface.mac_address nic)); [|done].
  by destruct (populated (Interface.ip_address nic)).
Qed.

Lemma hosts_writes_spec systems :
  hosts_writes systems
  = map host_line (List.filter in_hosts (all_interfaces systems)).
Proof.
  unfold hosts_writes.
  rewrite (nested_writes _ in_hosts host_line); [done|].
  intros written name nic. unfold in_hosts, has_mac, host_line.
  destruct (populated (Interface.mac_address nic)); [|done].
  destruct (populated (Interface.hostname nic)); [|done].
  by destruct (populated (Interface.ip_address nic)).
Qed.

End HostFiles.

(** C6 (amended).  [regen_ethers] rewrites [/etc/ethers] with one line,
    [MAC<tab>IP], for every interface that has a MAC address and an IP
    address; [regen_hosts] rewrites [/var/lib/cobbler/cobbler_hosts] with
    one line, [IP<tab>hostname], for every interface that has a MAC
    address, an IP address and a hostname.  Lines come in the order in
    which systems and interfaces are iterated, and nothing else is
    written. *)
Theorem host_database_lines (systems : list System.t) (w : world) :
  regen_ethers systems w
  = (OK tt,
     World (<["/etc/ethers" :=
               PyStr.concat_str
                 (map ether_line
                    (List.filter in_ethers (all_interfaces systems)))]>
              (files w))
           (made_dirs w))
  ∧ regen_hosts systems w
    = (OK tt,
       World (<["/var/lib/cobbler/cobbler_hosts" :=
                 PyStr.concat_str
                   (map host_line
                      (List.filter in_hosts (all_interfaces systems)))]>
                (files w))
             (made_dirs w))
  ∧ ethers_writes systems
    = map ether_line (List.filter in_ethers (all_interfaces systems))
  ∧ hosts_writes systems
    = map host_line (List.filter in_hosts (all_interfaces systems)).
Proof.
  unfold regen_ethers, regen_hosts, write_file.
  by rewrite ethers_writes_spec, hosts_writes_spec.
Qed.

(** C6, as stated, fails for [regen_hosts]: an interface with an IP address
    and a hostname but no MAC address gets no line. *)
Lemma regen_hosts_skips_macless :
  populated (Interface.ip_address macless_nic) = true
  ∧ populated (Interface.hostname macless_nic) = true
  ∧ hosts_writes [macless_system] = []
  ∧ files (regen_hosts [macless_system] (World ∅ [])).2
      !! "/var/lib/cobbler/cobbler_hosts" = Some "".
Proof. repeat split; vm_compute; reflexivity. Qed.

Example regen_files_sample :
  ethers_writes [sample_system; macless_system]
  = ["AA:BB:CC:DD:EE:0F" +:+ PyStr.tab +:+ "10.0.0.5" +:+ PyStr.nl]
  ∧ hosts_writes [sample_system; macless_system]
    = ["10.0.0.5" +:+ PyStr.tab +:+ "web1.example.org" +:+ PyStr.nl].
Proof. split; reflexivity. Qed.

(** ** Sorting profiles by name *)

Section SortFacts.

Lemma name_le_trans a b c : name_le a b → name_le b c → name_le a c.
Proof.
  unfold name_le, name_leb. intros Hab Hbc.
  apply Is_true_true. apply Is_true_true in Hab, Hbc.
  exact (transitivity (R := String.le) Hab Hbc).
Qed.

Lemma name_le_total a b : name_leb a b = false → name_le b a.
Proof.
  unfold name_le, name_leb. intros Hab.
  destruct (String.leb_total (Profile.name a) (Profile.name b)); congruence.
Qed.

Lemma insert_by_name_perm p l : insert_by_name p l ≡ₚ p :: l.
Proof.
  induction l as [|q l IH]; [done|]. cbn [insert_by_name].
  destruct (name_leb p q); [done|]. rewrite IH. apply Permutation_swap.
Qed.

Lemma sort_by_name_perm l : sort_by_name l ≡ₚ l.
Proof.
  induction l as [|p l IH]; [done|]. cbn [sort_by_name foldr].
  rewrite insert_by_name_perm. by f_equiv.
Qed.

Lemma insert_by_name_sorted p l :
  StronglySorted name_le l → StronglySorted name_le (insert_by_name p l).
Proof.
  induction 1 as [|q l Hl IH Hq]; cbn [insert_by_name].
  - repeat constructor.
  - destruct (name_leb p q) eqn:Hpq.
    + constructor; [by constructor|]. constructor; [done|].
      eapply Forall_impl; [exact Hq|]. intros r Hqr.
      by apply (name_le_trans p q r).
    + constructor; [done|]. rewrite insert_by_name_perm.
      constructor; [by apply name_le_total | done].
Qed.

Lemma sort_by_name_sorted l : StronglySorted name_le (sort_by_name l).
Proof.
  induction l as [|p l IH]; [constructor|].
  by apply insert_by_name_sorted.
Qed.

Lemma same_name_same_profile (l : list Profile.t) a b :
  NoDup (map Profile.name l) → a ∈ l → b ∈ l →
  Profile.name a = Profile.name b → a = b.
Proof.
  induction l as [|q l IH]; intros Hnd Ha Hb Hname; [by inv Ha|].
  cbn [map] in Hnd. apply NoDup_cons in Hnd as [Hq Hnd].
  assert (∀ x, x ∈ l → Profile.name x ≠ Profile.name q) as Hfresh.
  { intros x Hx Heq. apply Hq. rewrite <- Heq.
    apply list_elem_of_fmap. by exists x. }
  inv Ha; inv Hb; try done.
  - by destruct (Hfresh b).
  - by destruct (Hfresh a).
  - by apply IH.
Qed.

(** With distinct names the sorted list does not depend on the order in
    which the store yields the profiles. *)
Lemma sort_by_name_order_free l1 l2 :
  l1 ≡ₚ l2 → NoDup (map Profile.name l2) →
  sort_by_name l1 = sort_by_name l2.
Proof.
  intros Hperm Hnd.
  apply (StronglySorted_unique_strong name_le);
    [|apply sort_by_name_sorted..|by rewrite !sort_by_name_perm].
  intros a b Ha Hb Hab Hba.
  rewrite sort_by_name_perm in Ha, Hb. rewrite Hperm in Ha.
  apply (same_name_same_profile l2); [done..|].
  by apply String.leb_antisym.
Qed.

End SortFacts.

(** ** The boot menu *)

Section MenuFacts.

Variable Template : string → pydict → option string.
Variable snippet_cache : list (string * string).
Variable distros : list Distro.t.
Variable systems : list System.t.
Variable settings : Settings.t.
Variable blender : bool → blend_obj → result Blended.t.
Variable hash_to_string : list (string * string) → string.

Lemma apply_template_keeps_world data metadata w :
  (apply_template Template snippet_cache data metadata None w).2 = w.
Proof.
  unfold apply_template, bind, lift, throw, ret.
  destruct (transport_rewrite _ _); [|done].
  by destruct (Template _ _).
Qed.

(** One step through a sequence of monadic calls: expose the first call
    so that its outcome can be split into cases. *)
Ltac bind_step :=
  unfold bind at 1; try unfold lift at 1; try unfold read_file at 1.

(** Asked for the text only, [write_pxe_file] writes nothing. *)
Lemma write_pxe_file_keeps_world system profile distro is_ia64 w :
  (write_pxe_file Template snippet_cache blender hash_to_string
     None system profile distro is_ia64 w).2 = w.
Proof.
  unfold write_pxe_file.
  destruct (match system with
            | Some s => negb (System.netboot_enabled s)
            | None => false
            end); [done|].
  bind_step. destruct distro as [d|]; [|done].
  bind_step.
  destruct (blender true (BProfile profile)) as [for_profile|]; [|done].
  bind_step. destruct (blender true _) as [blended|]; [|done].
  bind_step. destruct (files w !! _) as [template_data|]; [|done].
  bind_step.
  match goal with
  | |- context [apply_template _ _ ?data ?md None w] =>
      pose proof (apply_template_keeps_world data md w) as Hw;
      destruct (apply_template Template snippet_cache data md None w)
        as [[buffer|e] w']
  end; cbn [snd] in Hw; by subst w'.
Qed.

(** Called for a profile, [write_pxe_file] never answers [None]: it
    gives the text of the entry or raises. *)
Lemma write_pxe_file_profile_entry filename profile distro is_ia64 w :
  (write_pxe_file Template snippet_cache blender hash_to_string
     filename None profile distro is_ia64 w).1 ≠ OK None.
Proof.
  unfold write_pxe_file.
  bind_step. destruct distro as [d|]; [|done].
  bind_step.
  destruct (blender true (BProfile profile)) as [blended|]; [|done].
  do 2 bind_step. destruct (files w !! _) as [template_data|]; [|done].
  bind_step.
  destruct (apply_template _ _ _ _ _ _) as [[buffer|e] w']; [|done].
  unfold bind, ret. by destruct filename.
Qed.

Lemma menu_entries_spec entries : ∀ profile_list pxe_menu_items w,
  Forall2 (λ profile contents,
             (write_pxe_file Template snippet_cache blender hash_to_string
                None None profile
                (find_distro distros (Profile.distro profile)) false w).1
             = OK (Some contents))
          profile_list entries →
  menu_entries Template snippet_cache distros blender hash_to_string
    pxe_menu_items profile_list w
  = (OK (pxe_menu_items
         +:+ PyStr.concat_str (map (λ c, c +:+ PyStr.nl) entries)), w).
Proof.
  induction entries as [|c entries IH];
    intros profile_list items w Hall; inv Hall.
  - cbn. by rewrite str_app_nil_r.
  - cbn [menu_entries]. unfold bind at 1.
    match goal with
    | H : (write_pxe_file _ _ _ _ _ _ ?p ?d _ w).1 = _ |- _ =>
        pose proof (write_pxe_file_keeps_world None p d false w) as Hw;
        destruct (write_pxe_file Template snippet_cache blender
                    hash_to_string None None p d false w) as [r w'];
        cbn [fst snd] in H, Hw; subst r w'
    end.
    rewrite IH by done. cbn [map PyStr.concat_str foldr].
    by rewrite !str_app_assoc.
Qed.

Lemma find_system_default s :
  s ∈ systems → System.name s = "default" →
  is_Some (find_system systems "default").
Proof.
  intros Hin Hname. unfold find_system.
  destruct (List.find _ systems) as [s'|] eqn:Hfind; [by eexists|].
  apply list_elem_of_In in Hin.
  pose proof (List.find_none _ _ Hfind s Hin) as Hno. cbn in Hno.
  rewrite Hname in Hno. by rewrite String.eqb_refl in Hno.
Qed.

End MenuFacts.

Section MenuClaims.

Variable Template : string → pydict → option string.
Variable snippet_cache : list (string * string).
Variable distros : list Distro.t.
Variable systems : list System.t.
Variable settings : Settings.t.
Variable blender : bool → blend_obj → result Blended.t.
Variable hash_to_string : list (string * string) → string.

(** C5.  Without a system named [default], and when the menu template
    can be read and every profile's entry and the menu itself render,
    [make_pxe_menu] writes the file [default] under [pxelinux.cfg] of
    the boot tree from the menu template, with [pxe_menu_items] holding
    the entries of the profiles, one per profile and each followed by a
    newline, in ascending order of profile name; no profile is passed
    over, as its entry is a text or an exception.  The sorted list is a
    permutation of the profiles, and with distinct names the result is
    the same for every order in which the store yields them; profiles
    named web, db and app come out as app, db, web. *)
Theorem make_pxe_menu_sorted_by_name
    (profiles : list Profile.t) (w : world) (template_data : string)
    (entries : list string) (evaluated : string) :
  let outfile :=
    PyStr.path_join3 (Settings.tftpboot settings) "pxelinux.cfg" "default" in
  let metadata : pydict :=
    [("pxe_menu_items",
      PStr (PyStr.concat_str (map (λ c, c +:+ PyStr.nl) entries)))] in
  find_system systems "default" = None →
  files w !! "/etc/cobbler/pxedefault.template" = Some template_data →
  Forall2 (λ profile contents,
             (write_pxe_file Template snippet_cache blender hash_to_string
                None None profile
                (find_distro distros (Profile.distro profile)) false w).1
             = OK (Some contents))
          (sort_by_name profiles) entries →
  Template (engine_header
            +:+ inline_snippets snippet_cache (legacy_rewrite template_data))
           metadata = Some evaluated →
  make_pxe_menu Template snippet_cache distros profiles systems settings
    blender hash_to_string w
  = (OK tt,
     World (<[outfile := literal_subst metadata evaluated]> (files w))
           (made_dirs w ++ [PyStr.dirname outfile]))
  ∧ (∀ profile distro,
       (write_pxe_file Template snippet_cache blender hash_to_string
          None None profile distro false w).1 ≠ OK None)
  ∧ StronglySorted name_le (sort_by_name profiles)
  ∧ sort_by_name profiles ≡ₚ profiles
  ∧ (∀ profiles',
       profiles' ≡ₚ profiles → NoDup (map Profile.name profiles) →
       make_pxe_menu Template snippet_cache distros profiles' systems
         settings blender hash_to_string w
       = make_pxe_menu Template snippet_cache distros profiles systems
           settings blender hash_to_string w)
  ∧ (∀ web db app,
       Profile.name web = "web" → Profile.name db = "db" →
       Profile.name app = "app" → profiles ≡ₚ [web; db; app] →
       sort_by_name profiles = [app; db; web]).
Proof.
  intros outfile metadata Hdefault Htemplate Hentries Hengine.
  split; [|split; [|split; [|split; [|split]]]].
  - unfold make_pxe_menu. rewrite Hdefault.
    unfold bind at 1. unfold read_file. rewrite Htemplate.
    unfold bind at 1. rewrite (menu_entries_spec _ _ _ _ _ entries) by done.
    rewrite str_app_nil_l. unfold bind at 1. fold metadata. fold outfile.
    rewrite apply_template_passes.
    change (transport_rewrite metadata ?d) with (OK d).
    cbv iota. by rewrite Hengine.
  - intros profile distro. apply write_pxe_file_profile_entry.
  - apply sort_by_name_sorted.
  - apply sort_by_name_perm.
  - intros profiles' Hperm Hnodup. unfold make_pxe_menu.
    by rewrite (sort_by_name_order_free profiles' profiles).
  - intros web db app Hweb Hdb Happ Hperm.
    rewrite (sort_by_name_order_free profiles [web; db; app]); [|done|].
    + assert (name_leb db app = false) as Hda
        by (unfold name_leb; by rewrite Hdb, Happ).
      assert (name_leb web app = false) as Hwa
        by (unfold name_leb; by rewrite Hweb, Happ).
      assert (name_leb web db = false) as Hwd
        by (unfold name_leb; by rewrite Hweb, Hdb).
      cbn [sort_by_name foldr insert_by_name]. rewrite Hda.
      cbn [insert_by_name]. by rewrite Hwa, Hwd.
    + cbn [map]. rewrite Hweb, Hdb, Happ.
      apply (bool_decide_unpack _). by vm_compute.
Qed.

(** C10.  When the systems hold one named [default], [make_pxe_menu]
    returns at once: the file store is left as it was, whether or not
    the menu template exists in it, and whatever the profiles are. *)
Theorem make_pxe_menu_skipped_for_default_system
    (profiles : list Profile.t) (s : System.t) (w : world) :
  s ∈ systems → System.name s = "default" →
  make_pxe_menu Template snippet_cache distros profiles systems settings
    blender hash_to_string w
  = (OK tt, w).
Proof.
  intros Hin Hname. unfold make_pxe_menu.
  by destruct (find_system_default systems s Hin Hname) as [s' ->].
Qed.

End MenuClaims.

Lemma make_pxe_menu_sorted_by_name_witness :
  make_pxe_menu toy_engine [] [sample_distro]
    [web_profile; db_profile; app_profile] [sample_system] sample_settings
    sample_blender sample_hash_to_string menu_world
  = (OK tt,
     World (<["/tftpboot/pxelinux.cfg/default" := sample_menu]>
              (files menu_world))
           ["/tftpboot/pxelinux.cfg"]).
Proof.
  etrans.
  - refine (proj1 (make_pxe_menu_sorted_by_name toy_engine [] [sample_distro]
                     [sample_system] sample_settings sample_blender
                     sample_hash_to_string
                     [web_profile; db_profile; app_profile] menu_world
                     ("DEFAULT menu" +:+ PyStr.nl +:+ "$pxe_menu_items")
                     [sample_entry "app"; sample_entry "db"; sample_entry "web"]
                     sample_menu _ _ _ _)).
    + reflexivity.
    + vm_compute. reflexivity.
    + repeat constructor; vm_compute; reflexivity.
    + vm_compute. reflexivity.
  - vm_compute. reflexivity.
Defined.

Lemma make_pxe_menu_skipped_for_default_system_witness :
  let default_system := System.Make "default" "web" [] true in
  make_pxe_menu toy_engine [] [sample_distro]
    [web_profile; db_profile; app_profile] [sample_system; default_system]
    sample_settings sample_blender sample_hash_to_string (World ∅ [])
  = (OK tt, World ∅ []).
Proof.
  intros default_system.
  apply (make_pxe_menu_skipped_for_default_system toy_engine [] [sample_distro]
           [sample_system; default_system] sample_settings sample_blender
           sample_hash_to_string [web_profile; db_profile; app_profile]
           default_system (World ∅ [])).
  - set_solver.
  - reflexivity.
Defined.

(** Without the [default] system the same call fails on the empty file
    store: the menu template is what it reads first. *)
Example make_pxe_menu_reads_template :
  make_pxe_menu toy_engine [] [sample_distro]
    [web_profile; db_profile; app_profile] [sample_system]
    sample_settings sample_blender sample_hash_to_string (World ∅ [])
  = (Raise (IOError "/etc/cobbler/pxedefault.template"), World ∅ []).
Proof. reflexivity. Qed.

(** ** Broken references *)

Section AbortFacts.

Lemma aborts_throw {A} e : aborts (@throw A e).
Proof. intros w. by exists e, w. Qed.

Lemma aborts_bind_l {A B} (m : M A) (k : A → M B) :
  aborts m → aborts (bind m k).
Proof.
  intros Hm w. destruct (Hm w) as (e & w' & Hw).
  exists e, w'. unfold bind. by rewrite Hw.
Qed.

Lemma aborts_bind_r {A B} (m : M A) (k : A → M B) :
  (∀ a, aborts (k a)) → aborts (bind m k).
Proof.
  intros Hk w. unfold bind. destruct (m w) as [[a|e] w'].
  - apply Hk.
  - by exists e, w'.
Qed.

Lemma aborts_for_each {X} (xs : list X) (body : X → M unit) x :
  x ∈ xs → aborts (body x) → aborts (for_each xs body).
Proof.
  intros Hin Hx. induction xs as [|y xs IH]; [by inv Hin|].
  cbn [for_each]. inv Hin.
  - by apply aborts_bind_l.
  - apply aborts_bind_r. intros _. by apply IH.
Qed.

(** A loop that finishes the elements before [x] and fails on [x]
    stops there, in the state the earlier elements left. *)
Lemma for_each_stops {X} (before after : list X) (body : X → M unit)
    x e w w1 :
  for_each before body w = (OK tt, w1) →
  (∀ w, body x w = (Raise e, w)) →
  for_each (before ++ x :: after) body w = (Raise e, w1).
Proof.
  revert w. induction before as [|y before IH]; intros w Hbefore Hx.
  - cbn in Hbefore. inv Hbefore. cbn [app for_each]. unfold bind.
    by rewrite Hx.
  - cbn [app for_each] in *. unfold bind in *.
    destruct (body y w) as [[[]|e'] w']; [|done]. by apply IH.
Qed.

Lemma prefix_contains sub s :
  String.prefix sub s = true → PyStr.contains sub s = true.
Proof. destruct s; cbn [PyStr.contains]; [done|]. by intros ->. Qed.

Lemma contains_middle a pre post :
  PyStr.contains a (pre +:+ a +:+ post) = true.
Proof.
  induction pre as [|c pre IH].
  - rewrite str_app_nil_l. apply prefix_contains, prefix_app.
  - rewrite str_app_cons. cbn [PyStr.contains]. by rewrite IH, orb_true_r.
Qed.

(** The two messages of [action_sync.py] for a system on a missing
    profile name both. *)
Lemma reference_messages_name_link s :
  names_link s ("system " +:+ System.name s
                +:+ " references missing profile " +:+ System.profile s)
  = true
  ∧ names_link s ("system " +:+ System.name s
                  +:+ " references a missing profile " +:+ System.profile s)
    = true.
Proof.
  unfold names_link. split; apply andb_true_iff; split.
  - apply contains_middle.
  - rewrite <- (str_app_nil_r (System.profile s)) at 2.
    rewrite <- !str_app_assoc. rewrite (str_app_assoc _ (System.profile s)).
    apply contains_middle.
  - apply contains_middle.
  - rewrite <- (str_app_nil_r (System.profile s)) at 2.
    rewrite <- !str_app_assoc. rewrite (str_app_assoc _ (System.profile s)).
    apply contains_middle.
Qed.

End AbortFacts.

Section BrokenReference.

Variable Template : string → pydict → option string.
Variable snippet_cache : list (string * string).
Variable distros : list Distro.t.
Variable profiles : list Profile.t.
Variable settings : Settings.t.
Variable blender : bool → blend_obj → result Blended.t.
Variable repo_blender : blend_obj → result RepoBlended.t.
Variable hash_to_string : list (string * string) → string.
Variable get_config_filename : System.t → string → string.
Variable is_pxe_supported : System.t → bool.
Variable yaml_dump : Blended.t → string.
Variable render_system_kickstart : System.t → Profile.t → M unit.
Variable tftpboot_exists : bool.
Variable run_triggers : string → M unit.
Variable clean_trees_step copy_bootloaders copy_distros : M unit.
Variable retemplate_step validate_kickstarts_per_profile : M unit.
Variable write_listings : M unit.
Variable write_distro_file : Distro.t → M unit.
Variable write_profile_file : Profile.t → M unit.
Variable asctime : string.

(** [retemplate_yum_repos] starts with the blender: when that fails for
    an object, nothing has been asked for or written. *)
Lemma retemplate_yum_repos_blender_error obj is_profile e w :
  repo_blender obj = Raise e →
  retemplate_yum_repos Template snippet_cache settings repo_blender obj
    is_profile w
  = (Raise e, w).
Proof.
  intros Hblender. unfold retemplate_yum_repos, bind, lift.
  by rewrite Hblender.
Qed.

(** C4.  For a system whose profile name matches no loaded profile,
    [validate_kickstart_for_specific_system] and [write_all_system_files]
    raise [CX] with a message that names the system and the missing
    profile, and leave the file store as it was; the validation loop
    stops at such a system in the state the systems before it left, and
    a run over systems that include one never returns normally.  For the
    run as a whole: when the steps up to the validation of that system
    return normally, the run raises that [CX], in the state those steps
    left.  With a blender that fails on the missing parent, the run does
    not get that far: it stops in [retemplate_yum_repos] for that system,
    the first step that handles it and one that starts with the blender,
    before it asks for a directory or writes; the run raises the error of
    the blender, in the state left by the steps before, none of which is
    a step for that system. *)
Theorem dangling_profile_aborts (s : System.t) :
  find_profile profiles (System.profile s) = None →
  (∀ w,
     validate_kickstart_for_specific_system profiles render_system_kickstart
       s w
     = (Raise (CX ("system " +:+ System.name s
                   +:+ " references missing profile " +:+ System.profile s)),
        w))
  ∧ (∀ w,
       write_all_system_files Template snippet_cache distros profiles
         settings blender hash_to_string get_config_filename
         is_pxe_supported yaml_dump s w
       = (Raise (CX ("system " +:+ System.name s
                     +:+ " references a missing profile "
                     +:+ System.profile s)),
          w))
  ∧ (∀ before after w w1,
       validate_kickstarts_per_system profiles before
         render_system_kickstart w = (OK tt, w1) →
       validate_kickstarts_per_system profiles (before ++ s :: after)
         render_system_kickstart w
       = (Raise (CX ("system " +:+ System.name s
                     +:+ " references missing profile "
                     +:+ System.profile s)),
          w1))
  ∧ (∀ systems,
       s ∈ systems →
       aborts (run Template snippet_cache distros profiles systems settings
                 blender hash_to_string get_config_filename
                 is_pxe_supported yaml_dump render_system_kickstart
                 tftpboot_exists run_triggers clean_trees_step
                 copy_bootloaders copy_distros retemplate_step
                 validate_kickstarts_per_profile write_listings
                 write_distro_file write_profile_file asctime))
  ∧ (∀ before after w w1,
       tftpboot_exists = true →
       (run_triggers "/var/lib/cobbler/triggers/sync/pre/*" ;;;
        clean_trees_step ;;; copy_bootloaders ;;; copy_distros ;;;
        retemplate_step ;;;
        validate_kickstarts_per_profile ;;;
        validate_kickstarts_per_system profiles before
          render_system_kickstart) w
       = (OK tt, w1) →
       ∃ msg,
         run Template snippet_cache distros profiles (before ++ s :: after)
           settings blender hash_to_string get_config_filename
           is_pxe_supported yaml_dump render_system_kickstart
           tftpboot_exists run_triggers clean_trees_step
           copy_bootloaders copy_distros retemplate_step
           validate_kickstarts_per_profile write_listings
           write_distro_file write_profile_file asctime w
         = (Raise (CX msg), w1)
         ∧ msg = "system " +:+ System.name s
                 +:+ " references missing profile " +:+ System.profile s
         ∧ names_link s msg = true)
  ∧ (∀ before after w w1,
       tftpboot_exists = true →
       fails_on_missing_parent repo_blender s →
       (run_triggers "/var/lib/cobbler/triggers/sync/pre/*" ;;;
        clean_trees_step ;;; copy_bootloaders ;;; copy_distros ;;;
        for_each profiles
          (λ p, retemplate_yum_repos Template snippet_cache settings
                  repo_blender (BProfile p) true) ;;;
        for_each before
          (λ system, retemplate_yum_repos Template snippet_cache settings
                       repo_blender (BSystem system) false)) w
       = (OK tt, w1) →
       ∃ msg,
         run Template snippet_cache distros profiles (before ++ s :: after)
           settings blender hash_to_string get_config_filename
           is_pxe_supported yaml_dump render_system_kickstart
           tftpboot_exists run_triggers clean_trees_step
           copy_bootloaders copy_distros
           (retemplate_all_yum_repos Template snippet_cache
              profiles (before ++ s :: after) settings repo_blender)
           validate_kickstarts_per_profile write_listings
           write_distro_file write_profile_file asctime w
         = (Raise (CX msg), w1)
         ∧ repo_blender (BSystem s) = Raise (CX msg)
         ∧ names_link s msg = true)
  ∧ (∀ e w,
       repo_blender (BSystem s) = Raise e →
       retemplate_yum_repos Template snippet_cache settings repo_blender
         (BSystem s) false w
       = (Raise e, w)).
Proof.
  intros Hmissing.
  assert (∀ w,
    validate_kickstart_for_specific_system profiles render_system_kickstart
      s w
    = (Raise (CX ("system " +:+ System.name s
                  +:+ " references missing profile " +:+ System.profile s)),
       w)) as Hvalidate.
  { intros w. unfold validate_kickstart_for_specific_system.
    by rewrite Hmissing. }
  split; [done|]. split; [|split; [|split; [|split; [|split]]]].
  - intros w. unfold write_all_system_files. by rewrite Hmissing.
  - intros before after w w1 Hbefore.
    unfold validate_kickstarts_per_system in *.
    by apply for_each_stops.
  - intros systems Hin. unfold run.
    destruct tftpboot_exists; cbn [negb]; [|apply aborts_throw].
    do 5 (apply aborts_bind_r; intros _).
    apply aborts_bind_l. unfold validate_kickstarts.
    apply aborts_bind_r; intros _.
    apply (aborts_for_each systems _ s); [done|].
    intros w. rewrite Hvalidate. by eexists _, _.
  - intros before after w w1 -> Hsteps. eexists. split; [|split; [done|]].
    + unfold run, validate_kickstarts. cbn [negb].
      unfold bind in Hsteps |- *.
      destruct (run_triggers _ w) as [[[]|?] w2]; [|done].
      destruct (clean_trees_step w2) as [[[]|?] w3]; [|done].
      destruct (copy_bootloaders w3) as [[[]|?] w4]; [|done].
      destruct (copy_distros w4) as [[[]|?] w5]; [|done].
      destruct (retemplate_step w5) as [[[]|?] w6]; [|done].
      destruct (validate_kickstarts_per_profile w6) as [[[]|?] w7]; [|done].
      unfold validate_kickstarts_per_system in *.
      by rewrite (for_each_stops before after _ s _ w7 w1 Hsteps Hvalidate).
    + apply reference_messages_name_link.
  - intros before after w w1 -> (msg & Hblender & Hnames) Hsteps.
    exists msg. split; [|done].
    unfold run, retemplate_all_yum_repos. cbn [negb].
    unfold bind in Hsteps |- *.
    destruct (run_triggers _ w) as [[[]|?] w2]; [|done].
    destruct (clean_trees_step w2) as [[[]|?] w3]; [|done].
    destruct (copy_bootloaders w3) as [[[]|?] w4]; [|done].
    destruct (copy_distros w4) as [[[]|?] w5]; [|done].
    destruct (for_each profiles _ w5) as [[[]|?] w6]; [|done].
    by rewrite (for_each_stops before after _ s (CX msg) w6 w1 Hsteps
                  (λ w, retemplate_yum_repos_blender_error (BSystem s) false
                          (CX msg) w Hblender)).
  - intros e w. apply retemplate_yum_repos_blender_error.
Qed.

End BrokenReference.

(** A run over a system on a loaded profile and, behind it, one on a
    profile nobody loaded.  With a blender that fails on the missing
    parent, the repository files of the profiles and of the first system
    are written, then the run stops with the error that names the second
    system and its profile, and no file of that system exists.  With a
    step for the repository files that does nothing, the run gets to the
    validation and stops there. *)
Lemma dangling_profile_aborts_witness :
  (∃ msg w1,
     run toy_engine [] [sample_distro] [web_profile; db_profile]
       [web_system; retired_system] sample_settings sample_blender
       sample_hash_to_string (λ _ name, name) (λ _, true) (λ _, "")
       (λ _ _, ret tt) true (λ _, ret tt) (ret tt) (ret tt) (ret tt)
       (retemplate_all_yum_repos toy_engine [] [web_profile; db_profile]
          [web_system; retired_system] sample_settings
          (sample_repo_blender [web_profile; db_profile]))
       (ret tt) (ret tt) (λ _, ret tt) (λ _, ret tt) "" repo_world
     = (Raise (CX msg), w1)
     ∧ msg = "system web9 has no profile retired"
     ∧ files w1 !! "/var/www/cobbler/repos_system/web1/updates.repo"
       = Some (PyStr.nl +:+ "[updates]" +:+ PyStr.nl
               +:+ "baseurl=http://cobbler.example.org/cobbler/repo_mirror/updates")
     ∧ files w1 !! "/var/www/cobbler/repos_system/web9/updates.repo" = None)
  ∧ run toy_engine [] [sample_distro] [web_profile; db_profile]
      [web_system; retired_system] sample_settings sample_blender
      sample_hash_to_string (λ _ name, name) (λ _, true) (λ _, "")
      (λ _ _, ret tt) true (λ _, ret tt) (ret tt) (ret tt) (ret tt)
      (ret tt) (ret tt) (ret tt) (λ _, ret tt) (λ _, ret tt) "" repo_world
    = (Raise (CX "system web9 references missing profile retired"),
       repo_world).
Proof.
  pose proof (dangling_profile_aborts toy_engine [] [sample_distro]
                [web_profile; db_profile] sample_settings sample_blender
                (sample_repo_blender [web_profile; db_profile])
                sample_hash_to_string (λ _ name, name) (λ _, true)
                (λ _, "") (λ _ _, ret tt) true (λ _, ret tt) (ret tt)
                (ret tt) (ret tt) (ret tt) (ret tt) (ret tt)
                (λ _, ret tt) (λ _, ret tt) "" retired_system eq_refl)
    as (_ & _ & _ & _ & Hvalidation & Hrun & _).
  split.
  - assert (fails_on_missing_parent
              (sample_repo_blender [web_profile; db_profile]) retired_system)
      as Hfails.
    { eexists. split; [reflexivity|]. vm_compute. reflexivity. }
    pose (w1 :=
      ((for_each [web_profile; db_profile]
          (λ p, retemplate_yum_repos toy_engine [] sample_settings
                  (sample_repo_blender [web_profile; db_profile])
                  (BProfile p) true) ;;;
        for_each [web_system]
          (λ system, retemplate_yum_repos toy_engine [] sample_settings
                       (sample_repo_blender [web_profile; db_profile])
                       (BSystem system) false))%py repo_world).2).
    destruct (Hrun [web_system] [] repo_world w1 eq_refl Hfails)
      as (msg & Hraised & Hblender & _).
    { vm_compute. reflexivity. }
    injection Hblender as Hmsg.
    exists msg, w1. split; [exact Hraised|].
    split; [by rewrite <- Hmsg|]. split; vm_compute; reflexivity.
  - destruct (Hvalidation [web_system] [] repo_world repo_world eq_refl)
      as (msg & Hraised & -> & _); [reflexivity|exact Hraised].
Defined.

(** ** The tree reconciler *)

Section CleanTreesFacts.

Import CleanTrees.

Lemma rmtree_lookup (d : dir) x y :
  rmtree d x !! y
  = if decide (y = x)
    then match d !! x with Some Other => Some Other | _ => None end
    else d !! y.
Proof.
  unfold rmtree, rmfile, isfile, isdir.
  destruct (decide (y = x)) as [->|Hne].
  - destruct (d !! x) as [[| |]|] eqn:Hx;
      rewrite ?lookup_delete_eq, ?Hx; done.
  - destruct (d !! x) as [[| |]|]; by rewrite ?lookup_delete_ne.
Qed.

Lemma foldl_rmtree_lookup xs : ∀ (d : dir) y,
  foldl rmtree d xs !! y
  = if decide (y ∈ xs)
    then match d !! y with Some Other => Some Other | _ => None end
    else d !! y.
Proof.
  induction xs as [|x xs IH]; intros d y; [done|].
  cbn [foldl]. rewrite IH, !rmtree_lookup.
  destruct (decide (y = x)) as [->|Hne].
  - rewrite (decide_True (P := x ∈ x :: xs)) by (by left).
    destruct (decide (x ∈ xs)); by destruct (d !! x) as [[| |]|].
  - destruct (decide (y ∈ xs)).
    + by rewrite (decide_True (P := y ∈ x :: xs)) by (by right).
    + by rewrite (decide_False (P := y ∈ x :: xs))
        by (by apply not_elem_of_cons).
Qed.

Lemma elem_of_listdir (d : dir) x : x ∈ listdir d ↔ is_Some (d !! x).
Proof.
  unfold listdir. rewrite list_elem_of_fmap. split.
  - intros ([x' nd] & -> & Hin). apply elem_of_map_to_list in Hin. by eexists.
  - intros [nd Hnd]. exists (x, nd). split; [done|].
    by apply elem_of_map_to_list.
Qed.

Lemma elem_of_glob_star (d : dir) x :
  x ∈ glob_star d ↔ PyStr.startswith "." x = false ∧ is_Some (d !! x).
Proof.
  unfold glob_star. rewrite list_elem_of_In, List.filter_In.
  rewrite <- list_elem_of_In, elem_of_listdir, negb_true_iff. tauto.
Qed.

(** [rmtree_contents] on the entries of a directory. *)
Lemma purge_lookup (entries : dir) :
  foldl rmtree entries (glob_star entries) = purged entries.
Proof.
  apply map_eq. intros y. unfold purged.
  rewrite foldl_rmtree_lookup, map_lookup_filter. unfold survives_purge.
  destruct (entries !! y) as [nd|] eqn:Hy;
    [|by destruct (decide (y ∈ glob_star entries))].
  cbn [mbind option_bind fst snd].
  destruct (PyStr.startswith "." y) eqn:Hdot; cbn [orb].
  - rewrite decide_False; [by rewrite option_guard_True|].
    rewrite elem_of_glob_star. intros [? _]. congruence.
  - rewrite decide_True by (apply elem_of_glob_star; by rewrite Hy).
    destruct nd;
      by rewrite ?option_guard_False, ?option_guard_True by done.
Qed.

Lemma rmtree_contents_lookup (d : dir) x y :
  rmtree_contents d x !! y
  = match d !! y with
    | Some (Dir entries) =>
        if decide (y = x) then Some (Dir (purged entries))
        else Some (Dir entries)
    | other => other
    end.
Proof.
  unfold rmtree_contents. destruct (decide (y = x)) as [->|Hne].
  - destruct (d !! x) as [[| |]|] eqn:Hx; rewrite ?Hx; try done.
    by rewrite lookup_insert_eq, purge_lookup.
  - destruct (d !! x) as [[| |]|] eqn:Hx;
      rewrite ?lookup_insert_ne by done; by destruct (d !! y) as [[| |]|].
Qed.

Lemma purged_dirs_allowed x : x ∈ purged_dirs → x ∈ allowed_dirs.
Proof.
  assert (Forall (λ y, y ∈ allowed_dirs) purged_dirs) as Hall
    by (apply (bool_decide_unpack _); by vm_compute).
  rewrite Forall_forall in Hall. apply Hall.
Qed.

Lemma clean_web_entry_lookup (web : dir) x y :
  clean_web_entry web x !! y
  = if decide (y = x) then cleaned_web_entry x (web !! x) else web !! y.
Proof.
  unfold clean_web_entry, cleaned_web_entry. cbv zeta.
  destruct (web !! x) as [[data|entries|]|] eqn:Hx.
  - assert (isfile web x = true) as -> by (unfold isfile; by rewrite Hx).
    destruct (PyStr.endswith ".py" x); cbn [negb].
    + assert (isdir web x = false) as -> by (unfold isdir; by rewrite Hx).
      by destruct (decide (y = x)) as [->|].
    + assert (isdir (rmfile web x) x = false) as ->
        by (unfold isdir, rmfile; by rewrite lookup_delete_eq).
      unfold rmfile.
      destruct (decide (y = x)) as [->|];
        by rewrite ?lookup_delete_eq, ?lookup_delete_ne.
  - assert (isfile web x = false) as -> by (unfold isfile; by rewrite Hx).
    assert (isdir web x = true) as -> by (unfold isdir; by rewrite Hx).
    destruct (bool_decide (x ∈ allowed_dirs)) eqn:Hallowed; cbn [negb].
    + destruct (bool_decide (x ∈ purged_dirs)).
      * rewrite rmtree_contents_lookup.
        destruct (decide (y = x)) as [->|]; [by rewrite Hx|].
        by destruct (web !! y) as [[| |]|].
      * by destruct (decide (y = x)) as [->|].
    + assert (bool_decide (x ∈ purged_dirs) = false) as ->.
      { apply bool_decide_eq_false. intros Hp.
        apply purged_dirs_allowed in Hp.
        by apply bool_decide_eq_false in Hallowed. }
      rewrite rmtree_lookup, Hx. by destruct (decide (y = x)).
  - assert (isfile web x = false) as -> by (unfold isfile; by rewrite Hx).
    assert (isdir web x = false) as -> by (unfold isdir; by rewrite Hx).
    by destruct (decide (y = x)) as [->|].
  - assert (isfile web x = false) as -> by (unfold isfile; by rewrite Hx).
    assert (isdir web x = false) as -> by (unfold isdir; by rewrite Hx).
    by destruct (decide (y = x)) as [->|].
Qed.

Lemma clean_web_lookup xs : ∀ (web : dir) y,
  NoDup xs →
  foldl clean_web_entry web xs !! y
  = if decide (y ∈ xs) then cleaned_web_entry y (web !! y) else web !! y.
Proof.
  induction xs as [|x xs IH]; intros web y Hnd; [done|].
  apply NoDup_cons in Hnd as [Hx Hnd].
  cbn [foldl]. rewrite IH by done. rewrite !clean_web_entry_lookup.
  destruct (decide (y = x)) as [->|Hne].
  - rewrite (decide_False (P := x ∈ xs)) by done.
    by rewrite (decide_True (P := x ∈ x :: xs)) by (by left).
  - destruct (decide (y ∈ xs)).
    + by rewrite (decide_True (P := y ∈ x :: xs)) by (by right).
    + by rewrite (decide_False (P := y ∈ x :: xs))
        by (by apply not_elem_of_cons).
Qed.

End CleanTreesFacts.

(** What [clean_trees] does, entry by entry.  It looks at every entry of
    the web root once.  A regular file is deleted unless its name ends in [.py]; a
    directory is deleted with all it holds unless its name is in the
    allow-list; a directory named in the list of generated-artifact
    directories is kept and loses the entries that the pattern [*] matches
    and [rmtree] can remove, that is all but the entries whose name starts
    with a dot and the nodes that are neither file nor directory; every
    other entry is left as it was.  Under the boot-tree root only the
    directories [pxelinux.cfg] and [images] change, in the same way. *)
Theorem clean_trees_effect (t : CleanTrees.fs) :
  let t' := CleanTrees.clean_trees t in
  (∀ x,
     CleanTrees.web t' !! x
     = match CleanTrees.web t !! x with
       | Some (CleanTrees.File data) =>
           if PyStr.endswith ".py" x then Some (CleanTrees.File data) else None
       | Some (CleanTrees.Dir entries) =>
           if bool_decide (x ∈ CleanTrees.allowed_dirs)
           then Some (CleanTrees.Dir
                        (if bool_decide (x ∈ CleanTrees.purged_dirs)
                         then CleanTrees.purged entries else entries))
           else None
       | Some CleanTrees.Other => Some CleanTrees.Other
       | None => None
       end)
  ∧ (∀ x,
       CleanTrees.boot t' !! x
       = match CleanTrees.boot t !! x with
         | Some (CleanTrees.Dir entries) =>
             if bool_decide (x ∈ ["pxelinux.cfg"; "images"])
             then Some (CleanTrees.Dir (CleanTrees.purged entries))
             else Some (CleanTrees.Dir entries)
         | other => other
         end)
  ∧ (∀ entries name nd,
       CleanTrees.purged entries !! name = Some nd
       ↔ entries !! name = Some nd
         ∧ (PyStr.startswith "." name = true ∨ nd = CleanTrees.Other)).
Proof.
  intros t'. split; [|split].
  - intros x. subst t'. unfold CleanTrees.clean_trees.
    cbn [CleanTrees.web].
    rewrite clean_web_lookup
      by apply NoDup_fst_map_to_list.
    destruct (decide (x ∈ CleanTrees.listdir (CleanTrees.web t)))
      as [Hin|Hout]; [done|].
    rewrite elem_of_listdir in Hout.
    by destruct (CleanTrees.web t !! x) as [nd|] eqn:Hx;
      [destruct Hout; eauto|].
  - intros x. subst t'. unfold CleanTrees.clean_trees.
    cbn [CleanTrees.boot]. rewrite !rmtree_contents_lookup.
    destruct (CleanTrees.boot t !! x) as [[| |]|]; try done.
    destruct (decide (x = "pxelinux.cfg")) as [->|Hp]; [done|].
    destruct (decide (x = "images")) as [->|Hi]; [done|].
    rewrite bool_decide_eq_false_2; [done|].
    rewrite !elem_of_cons. intros [?|[?|Hnil]]; [done..|by inv Hnil].
  - intros entries name nd. unfold CleanTrees.purged.
    rewrite map_lookup_filter_Some. unfold CleanTrees.survives_purge.
    cbn [fst snd]. rewrite orb_true_iff.
    split; (intros [Hget [Hdot|Hother]]; split; [done| |done|]);
      [by left|right|by left|right].
    + by destruct nd.
    + by subst nd.
Qed.

(** C3 (a defect of the code).  [rmtree_contents] lists a directory with
    the pattern [*], which passes over the names that start with a dot,
    so a purge does not empty the directory: on [dotted_fs] the stale
    [.ks.cfg.swp] is still in [kickstarts] and [.default.swp] still in
    [pxelinux.cfg] after [clean_trees], while the other entries of the two
    directories are gone.  The other two paths of [clean_trees] do take
    such names: [.htaccess], directly under the web root, is deleted, and
    so is [scratch] with the [.keep] in it. *)
Lemma clean_trees_misses_dot_entries :
  let cleaned := CleanTrees.clean_trees dotted_fs in
  CleanTrees.web cleaned !! "kickstarts"
  = Some (CleanTrees.Dir (<[".ks.cfg.swp" := CleanTrees.File "stale"]> ∅))
  ∧ CleanTrees.boot cleaned !! "pxelinux.cfg"
    = Some (CleanTrees.Dir (<[".default.swp" := CleanTrees.File "stale"]> ∅))
  ∧ CleanTrees.web cleaned !! ".htaccess" = None
  ∧ CleanTrees.web cleaned !! "scratch" = None.
Proof. repeat split; vm_compute; reflexivity. Qed.

Example clean_trees_sample :
  let t' := CleanTrees.clean_trees CleanTrees.sample_fs in
  CleanTrees.web t' !! "notes.txt" = None
  ∧ CleanTrees.web t' !! "watcher.py" = Some (CleanTrees.File "import os")
  ∧ CleanTrees.web t' !! "scratch" = None
  ∧ CleanTrees.web t' !! "webui"
    = CleanTrees.web CleanTrees.sample_fs !! "webui"
  ∧ CleanTrees.boot t' !! "pxelinux.cfg" = Some (CleanTrees.Dir ∅)
  ∧ CleanTrees.boot t' !! "pxelinux.0" = Some (CleanTrees.File "loader").
Proof. repeat split; vm_compute; reflexivity. Qed.

(** ** System objects *)

(** C8 (amended).  Blending merges mappings key by key, the more specific
    level winning for a key both levels hold and the general level's
    value passing through otherwise.  A System object does not always
    hold mappings: [clear] stores the empty string in [kernel_options]
    and in [ks_meta], and [from_datastruct] and [to_datastruct] store and
    return the values of the datastruct as they are. *)
Theorem system_fields_and_blending :
  (∀ general specific k,
     blend_mapping general specific !! k
     = match specific !! k with
       | Some v => Some v
       | None => general !! k
       end)
  ∧ (∀ self,
       ItemSystem.kernel_options (ItemSystem.clear self) = PStr ""
       ∧ ItemSystem.ks_meta (ItemSystem.clear self) = PStr "")
  ∧ (∀ self seed_data self',
       ItemSystem.from_datastruct self seed_data = OK self' →
       dict_get "kernel_options" seed_data
       = Some (ItemSystem.kernel_options self')
       ∧ dict_get "ks_meta" seed_data = Some (ItemSystem.ks_meta self')
       ∧ ItemSystem.from_datastruct self (ItemSystem.to_datastruct self')
         = OK self').
Proof.
  split; [|split].
  - intros general specific k. unfold blend_mapping.
    rewrite lookup_union.
    by destruct (specific !! k), (general !! k).
  - done.
  - intros self seed_data self'. unfold ItemSystem.from_datastruct,
      ItemSystem.item.
    destruct (dict_get "name" seed_data); [|done].
    destruct (dict_get "profile" seed_data); [|done].
    destruct (dict_get "kernel_options" seed_data); [|done].
    destruct (dict_get "ks_meta" seed_data); [|done].
    intros [= <-]. done.
Qed.

Lemma system_fields_and_blending_witness :
  let seed : pydict :=
    [ ("name", PStr "web1"); ("profile", PStr "web");
      ("kernel_options", PDict [("ksdevice", "eth0")]);
      ("ks_meta", PStr "tree=nfs://filer:/export/f8") ] in
  let loaded :=
    ItemSystem.Make (PStr "web1") (PStr "web")
      (PDict [("ksdevice", "eth0")]) (PStr "tree=nfs://filer:/export/f8") in
  dict_get "kernel_options" seed = Some (ItemSystem.kernel_options loaded)
  ∧ dict_get "ks_meta" seed = Some (ItemSystem.ks_meta loaded)
  ∧ ItemSystem.from_datastruct ItemSystem.blank
      (ItemSystem.to_datastruct loaded) = OK loaded.
Proof.
  intros seed loaded.
  apply (proj2 (proj2 system_fields_and_blending) ItemSystem.blank seed loaded).
  reflexivity.
Defined.

(** C8, as stated, fails: a System that has just been cleared holds
    strings, not mappings, in both fields. *)
Lemma cleared_system_holds_strings :
  ItemSystem.is_mapping
    (ItemSystem.kernel_options (ItemSystem.clear ItemSystem.blank)) = false
  ∧ ItemSystem.is_mapping
      (ItemSystem.ks_meta (ItemSystem.clear ItemSystem.blank)) = false.
Proof. split; reflexivity. Qed.

(** C9 (amended).  [set_name] succeeds, and stores the name as given,
    exactly when the name is the word [default] or the identifier check
    returns a non-empty identifier for it; in every other case it raises
    [CobblerException] with [bad_sys_name] and stores nothing. *)
Theorem set_name_cases
    (find_system_identifier : string → option string)
    (self : ItemSystem.System) (new : string) :
  ItemSystem.set_name find_system_identifier self new
  = if bool_decide (new = "default"
                    ∨ ItemSystem.falsy (find_system_identifier new) = false)
    then OK (ItemSystem.Make (PStr new) (ItemSystem.profile self)
               (ItemSystem.kernel_options self) (ItemSystem.ks_meta self))
    else Raise (CobblerException "bad_sys_name").
Proof.
  unfold ItemSystem.set_name.
  destruct (String.eqb_spec new "default") as [->|Hne].
  - by rewrite bool_decide_eq_true_2 by (by left).
  - destruct (ItemSystem.falsy (find_system_identifier new)) eqn:Hfalsy.
    + by rewrite bool_decide_eq_false_2 by (by intros [?|?]).
    + by rewrite bool_decide_eq_true_2 by (by right).
Qed.

(** C9, as stated, fails: the name [default] is accepted although the
    identifier check knows no host of that name. *)
Lemma set_name_accepts_default :
  ItemSystem.sample_identifier "default" = None
  ∧ ItemSystem.set_name ItemSystem.sample_identifier ItemSystem.blank "default"
    = OK (ItemSystem.Make (PStr "default") PNone PNone PNone).
Proof. split; reflexivity. Qed.

Example set_name_sample :
  ItemSystem.set_name ItemSystem.sample_identifier ItemSystem.blank
    "web1.example.org"
  = OK (ItemSystem.Make (PStr "web1.example.org") PNone PNone PNone)
  ∧ ItemSystem.set_name ItemSystem.sample_identifier ItemSystem.blank
      "no such host"
    = Raise (CobblerException "bad_sys_name").
Proof. split; reflexivity. Qed.

(** * Further properties of the code *)

(** ** Lines, replacement and containment *)

Section TextFacts.

(** Splitting a text at newlines loses nothing: the first line followed by
    the other lines, each behind a newline, is the text. *)
Lemma split_lines_join s :
  match PyStr.split PyStr.nl_char s with
  | h :: t => h +:+ PyStr.concat_str (map (λ l, PyStr.nl +:+ l) t) = s
  | [] => False
  end.
Proof.
  induction s as [|c s IH]; [done|].
  cbn [PyStr.split].
  destruct (PyStr.split PyStr.nl_char s) as [|h t]; [done|].
  destruct (Ascii.eqb_spec c PyStr.nl_char) as [->|Hc].
  - cbn [map PyStr.concat_str foldr]. rewrite str_app_nil_l.
    fold (PyStr.concat_str (map (λ l, PyStr.nl +:+ l) t)).
    rewrite str_app_assoc, IH. reflexivity.
  - rewrite str_app_cons. by rewrite IH.
Qed.

Lemma lines_behind_newlines s :
  PyStr.concat_str
    (map (λ l, PyStr.nl +:+ l) (PyStr.split PyStr.nl_char s))
  = PyStr.nl +:+ s.
Proof.
  pose proof (split_lines_join s) as Hs.
  destruct (PyStr.split PyStr.nl_char s) as [|h t]; [done|].
  cbn [map PyStr.concat_str foldr].
  fold (PyStr.concat_str (map (λ l, PyStr.nl +:+ l) t)).
  by rewrite str_app_assoc, Hs.
Qed.

Lemma lines_before_newlines s :
  PyStr.concat_str
    (map (λ l, l +:+ PyStr.nl) (PyStr.split PyStr.nl_char s))
  = s +:+ PyStr.nl.
Proof.
  induction s as [|c s IH]; [done|].
  cbn [PyStr.split].
  destruct (Ascii.eqb_spec c PyStr.nl_char) as [->|Hc].
  - cbn [map PyStr.concat_str foldr].
    fold (PyStr.concat_str
            (map (λ l, l +:+ PyStr.nl) (PyStr.split PyStr.nl_char s))).
    rewrite IH. reflexivity.
  - pose proof (split_lines_join s) as Hs.
    destruct (PyStr.split PyStr.nl_char s) as [|h t]; [done|].
    cbn [map PyStr.concat_str foldr] in *.
    rewrite !str_app_cons, IH. reflexivity.
Qed.

(** A text that does not hold [old] is left alone by [replace]. *)
Lemma replace_go_absent old new s :
  PyStr.contains old s = false → PyStr.replace_go old new 0 s = s.
Proof.
  induction s as [|c s IH]; [done|].
  cbn [PyStr.contains PyStr.replace_go]. intros Habsent.
  apply orb_false_iff in Habsent as [-> Hrest]. by rewrite IH.
Qed.

Lemma replace_absent old new s :
  PyStr.contains old s = false → PyStr.replace old new s = s.
Proof.
  intros Habsent. destruct old as [|c old].
  - by destruct s.
  - by apply replace_go_absent.
Qed.

Lemma prefix_app_l a b s :
  String.prefix (a +:+ b) s = true → String.prefix a s = true.
Proof.
  revert s. induction a as [|c a IH]; intros s; [by destruct s|].
  rewrite str_app_cons. destruct s as [|c' s]; [done|].
  cbn [String.prefix]. destruct (ascii_dec c c'); [apply IH | done].
Qed.

Lemma contains_app_l a b s :
  PyStr.contains (a +:+ b) s = true → PyStr.contains a s = true.
Proof.
  induction s as [|c s IH]; cbn [PyStr.contains].
  - apply prefix_app_l.
  - rewrite !orb_true_iff. intros [Hp|Hc]; [left|right; by apply IH].
    by apply (prefix_app_l a b).
Qed.

Lemma lacks_app_l a b s :
  PyStr.contains a s = false → PyStr.contains (a +:+ b) s = false.
Proof.
  intros Ha. destruct (PyStr.contains (a +:+ b) s) eqn:Hab; [|done].
  apply contains_app_l in Hab. congruence.
Qed.

End TextFacts.

(** ** More on the template renderer *)

Section RendererEdges.

Lemma inline_line_comment cache line :
  PyStr.startswith "#" line = true → inline_line cache line = line.
Proof.
  intros Hcomment. induction cache as [|[x body] cache IH]; [done|].
  cbn [inline_line foldl]. rewrite Hcomment. cbn [negb]. apply IH.
Qed.

Lemma inline_line_unresolved cache line :
  Forall (λ entry : string * string,
            PyStr.contains ("SNIPPET::" +:+ entry.1) line = false) cache →
  inline_line cache line = line.
Proof.
  induction 1 as [|[x body] cache Hx Hcache IH]; [done|].
  cbn [inline_line foldl]. cbn [fst] in Hx.
  destruct (negb (PyStr.startswith "#" line)); [|apply IH].
  rewrite replace_absent by done. apply IH.
Qed.

Lemma literal_subst_absent metadata text :
  PyStr.contains "@@" text = false → literal_subst metadata text = text.
Proof.
  intros Habsent. induction metadata as [|[x v] metadata IH]; [done|].
  cbn [literal_subst foldl]. destruct v; try apply IH.
  rewrite replace_absent; [apply IH|].
  by apply (lacks_app_l "@@" (x +:+ "@@")).
Qed.

End RendererEdges.

(** ** Snippets and the order of the passes *)

Section RendererOrder.











End RendererOrder.

Section RendererClaims.

Variable Template : string → pydict → option string.


End RendererClaims.



(** X1.  With an empty snippet cache the snippet pass of [apply_template]
    returns the text behind one newline and changes nothing else; with any
    cache its result starts with a newline. *)
Theorem snippet_pass_leading_newline
    (cache : list (string * string)) (data : string) :
  inline_snippets [] data = PyStr.nl +:+ data
  ∧ ∃ rest, inline_snippets cache data = PyStr.nl +:+ rest.
Proof.
  split.
  - rewrite inline_snippets_lines. apply lines_behind_newlines.
  - rewrite inline_snippets_lines.
    pose proof (split_lines_join data) as Hs.
    destruct (PyStr.split PyStr.nl_char data) as [|h t]; [done|].
    cbn [map PyStr.concat_str foldr]. rewrite str_app_assoc. by eexists.
Qed.

(** X2.  The snippet pass never changes a line that starts with [#],
    whatever markers the line holds and whatever the cache holds. *)
Theorem snippet_pass_skips_comment_lines
    (cache : list (string * string)) (line : string) :
  PyStr.startswith "#" line = true → inline_line cache line = line.
Proof. apply inline_line_comment. Qed.

Lemma snippet_pass_skips_comment_lines_witness :
  inline_line [("partitions", "part /"); ("net", "network --bootproto=dhcp")]
    "# SNIPPET::partitions and SNIPPET::net"
  = "# SNIPPET::partitions and SNIPPET::net".
Proof.
  apply (snippet_pass_skips_comment_lines
           [("partitions", "part /"); ("net", "network --bootproto=dhcp")]
           "# SNIPPET::partitions and SNIPPET::net").
  reflexivity.
Defined.

(** X3.  The snippet pass finds markers as text, not by name.  A line in
    which [SNIPPET::] followed by the name of a cached snippet occurs
    nowhere comes out unchanged.  A marker whose name only begins with
    the name of a cached snippet is rewritten all the same: the text of
    that snippet takes the place of the beginning, and the rest of the
    name stays behind it. *)
Theorem snippet_pass_matches_text
    (cache : list (string * string)) (line : string) :
  (Forall (λ entry : string * string,
             PyStr.contains ("SNIPPET::" +:+ entry.1) line = false) cache →
   inline_line cache line = line)
  ∧ (∀ x body rest,
       inline_line [(x, body)] ("SNIPPET::" +:+ x +:+ rest)
       = body +:+ PyStr.replace ("SNIPPET::" +:+ x) body rest).
Proof.
  split.
  - apply inline_line_unresolved.
  - intros x body rest. apply (inline_line_marker x body rest []).
Qed.

Lemma snippet_pass_matches_text_witness :
  inline_line [("partitions", "part /")] "SNIPPET::packages --nobase"
  = "SNIPPET::packages --nobase"
  ∧ inline_line [("part", "clearpart --all")] "SNIPPET::partitions"
    = "clearpart --allitions".
Proof.
  split.
  - apply (proj1 (snippet_pass_matches_text [("partitions", "part /")]
                    "SNIPPET::packages --nobase")).
    repeat constructor.
  - etrans.
    + apply (proj2 (snippet_pass_matches_text [] "") "part"
               "clearpart --all" "itions").
    + vm_compute. reflexivity.
Defined.

(** X4.  The literal pass at the end of [apply_template] only acts on
    [@@key@@] tokens: a text without [@@] is returned as it is, whatever
    the metadata. *)
Theorem literal_pass_needs_token (metadata : pydict) (text : string) :
  PyStr.contains "@@" text = false → literal_subst metadata text = text.
Proof. apply literal_subst_absent. Qed.

Lemma literal_pass_needs_token_witness :
  literal_subst [("tree", PStr "http://mirror/f8"); ("lang", PStr "en")]
    "url --url=$tree @lang"
  = "url --url=$tree @lang".
Proof.
  apply (literal_pass_needs_token
           [("tree", PStr "http://mirror/f8"); ("lang", PStr "en")]
           "url --url=$tree @lang").
  reflexivity.
Defined.

(** X5.  With an [nfs://] tree and no line that holds both [--url] and
    [url ], the NFS pass of [apply_template] returns the text with one
    newline added at its end, also when the tree has no [server:dir] form:
    the form is only looked at when a line matches. *)
Theorem nfs_pass_without_url_line
    (metadata : pydict) (tree data : string) :
  dict_get "tree" metadata = Some (PStr tree) →
  PyStr.startswith "nfs://" tree = true →
  existsb is_url_line (PyStr.split PyStr.nl_char data) = false →
  transport_rewrite metadata data = OK (data +:+ PyStr.nl).
Proof.
  intros Htree Hnfs Hnone. unfold transport_rewrite.
  rewrite Htree, Hnfs, nfs_loop_plain by done.
  by rewrite str_app_nil_l, lines_before_newlines.
Qed.

Lemma nfs_pass_without_url_line_witness :
  transport_rewrite [("tree", PStr "nfs://filer")]
    ("install" +:+ PyStr.nl +:+ "lang en_US")
  = OK ("install" +:+ PyStr.nl +:+ "lang en_US" +:+ PyStr.nl).
Proof.
  apply (nfs_pass_without_url_line [("tree", PStr "nfs://filer")]
           "nfs://filer" ("install" +:+ PyStr.nl +:+ "lang en_US"));
    reflexivity.
Defined.

(** X6.  The legacy rewrite turns a leading [TEMPLATE::] into [$] and goes
    on behind it, and it returns a text without [TEMPLATE::] as it is. *)
Theorem legacy_rewrite_tokens (data : string) :
  legacy_rewrite ("TEMPLATE::" +:+ data) = "$" +:+ legacy_rewrite data
  ∧ (PyStr.contains "TEMPLATE::" data = false → legacy_rewrite data = data).
Proof.
  split.
  - unfold legacy_rewrite. apply replace_at_start.
  - apply replace_absent.
Qed.

Lemma legacy_rewrite_tokens_witness :
  legacy_rewrite "lang $lang" = "lang $lang".
Proof.
  apply (proj2 (legacy_rewrite_tokens "lang $lang")). reflexivity.
Defined.

(** ** More on the DHCP file *)

Section DhcpEdges.

Variable Template : string → pydict → option string.
Variable snippet_cache : list (string * string).
Variable distros : list Distro.t.
Variable profiles : list Profile.t.
Variable settings : Settings.t.
Variable asctime : string.

(** What a call of [apply_template] does to the file store. *)
Lemma apply_template_effect data metadata out_path w :
  match apply_template Template snippet_cache data metadata out_path w with
  | (Raise _, w') => w' = w
  | (OK out, w') =>
      w' = match out_path with
           | None => w
           | Some path =>
               World (<[path := out]> (files w))
                     (made_dirs w ++ [PyStr.dirname path])
           end
  end.
Proof.
  rewrite apply_template_passes.
  destruct (transport_rewrite _ _); [|done].
  by destruct (Template _ _).
Qed.

Lemma dhcp_interface_step_error mode elilo distro st interface e :
  dhcp_interface_step mode elilo distro st interface = Raise e →
  e = AttributeError.
Proof.
  destruct st as [counter defs]. unfold dhcp_interface_step.
  destruct (negb (populated (Interface.mac_address interface))); [done|].
  unfold reservation_text, arch_of.
  destruct (String.eqb mode "isc").
  - destruct distro; [done|]. by intros [= <-].
  - destruct (populated (Interface.ip_address interface)); [|done].
    destruct distro; [|by intros [= <-]].
    by destruct (String.eqb _ "ia64").
Qed.

Lemma dhcp_interfaces_error mode elilo distro interfaces : ∀ st e,
  dhcp_interfaces mode elilo distro st interfaces = Raise e →
  e = AttributeError.
Proof.
  induction interfaces as [|i rest IH]; intros st e; [done|].
  cbn [dhcp_interfaces].
  destruct (dhcp_interface_step mode elilo distro st i) as [st'|e'] eqn:Hstep.
  - apply IH.
  - intros [= <-]. by apply dhcp_interface_step_error in Hstep.
Qed.

Lemma dhcp_systems_error mode elilo systems : ∀ st e,
  dhcp_systems distros profiles mode elilo st systems = Raise e →
  e = AttributeError.
Proof.
  induction systems as [|s rest IH]; intros st e; [done|].
  cbn [dhcp_systems].
  destruct (find_profile profiles (System.profile s)); [|by intros [= <-]].
  destruct (dhcp_interfaces _ _ _ _ _) as [st'|e'] eqn:Hloop.
  - apply IH.
  - intros [= <-]. by apply dhcp_interfaces_error in Hloop.
Qed.

Lemma dhcp_systems_dangling mode elilo systems s : ∀ st,
  s ∈ systems → find_profile profiles (System.profile s) = None →
  dhcp_systems distros profiles mode elilo st systems = Raise AttributeError.
Proof.
  induction systems as [|s' rest IH]; intros st Hin Hnone; [by inv Hin|].
  cbn [dhcp_systems]. inv Hin.
  - by rewrite Hnone.
  - destruct (find_profile profiles (System.profile s')); [|done].
    destruct (dhcp_interfaces _ _ _ _ _) as [st'|e'] eqn:Hloop.
    + by apply IH.
    + by apply dhcp_interfaces_error in Hloop as ->.
Qed.

Lemma dhcp_interface_step_counter mode elilo distro c defs i c' defs' :
  dhcp_interface_step mode elilo distro (c, defs) i = OK (c', defs') →
  c' = c + (if has_mac i then 1 else 0)
  ∧ ∀ tag old, defs !! tag = Some old →
      ∃ new, defs' !! tag = Some (old +:+ new).
Proof.
  unfold dhcp_interface_step, has_mac.
  destruct (populated (Interface.mac_address i)); cbn [negb].
  - destruct (reservation_text _ _ _ _ _ _) as [systxt|]; [|done].
    intros [= <- <-]. split; [done|]. intros tag old Hold.
    rewrite bucket_append.
    set (t := if String.eqb (Interface.dhcp_tag i) "" then "default"
              else Interface.dhcp_tag i).
    destruct (decide (tag = t)) as [->|Hne].
    + rewrite lookup_insert_eq, Hold. by exists systxt.
    + rewrite lookup_insert_ne by done. exists "".
      by rewrite str_app_nil_r.
  - intros [= <- <-]. split; [lia|]. intros tag old Hold. exists "".
    by rewrite str_app_nil_r.
Qed.

Lemma dhcp_interfaces_counter mode elilo distro interfaces :
  ∀ c defs c' defs',
  dhcp_interfaces mode elilo distro (c, defs) interfaces = OK (c', defs') →
  c' = c + length (List.filter has_mac interfaces)
  ∧ ∀ tag old, defs !! tag = Some old →
      ∃ new, defs' !! tag = Some (old +:+ new).
Proof.
  induction interfaces as [|i rest IH]; intros c defs c' defs'.
  - cbn. intros [= <- <-]. split; [lia|]. intros tag old Hold. exists "".
    by rewrite str_app_nil_r.
  - cbn [dhcp_interfaces List.filter].
    destruct (dhcp_interface_step mode elilo distro (c, defs) i)
      as [[c1 defs1]|] eqn:Hstep; [|done].
    apply dhcp_interface_step_counter in Hstep as [-> Hgrow1].
    intros Hrest. apply IH in Hrest as [-> Hgrow2]. split.
    + destruct (has_mac i); cbn [length]; lia.
    + intros tag old Hold. destruct (Hgrow1 tag old Hold) as [n1 H1].
      destruct (Hgrow2 tag _ H1) as [n2 H2]. exists (n1 +:+ n2).
      by rewrite H2, str_app_assoc.
Qed.

Lemma dhcp_systems_counter mode elilo systems : ∀ c defs c' defs',
  dhcp_systems distros profiles mode elilo (c, defs) systems
  = OK (c', defs') →
  c' = c + length (List.filter has_mac (all_interfaces systems))
  ∧ ∀ tag old, defs !! tag = Some old →
      ∃ new, defs' !! tag = Some (old +:+ new).
Proof.
  induction systems as [|s rest IH]; intros c defs c' defs'.
  - cbn. intros [= <- <-]. split; [lia|]. intros tag old Hold. exists "".
    by rewrite str_app_nil_r.
  - cbn [dhcp_systems all_interfaces flat_map]. fold (all_interfaces rest).
    destruct (find_profile profiles (System.profile s)); [|done].
    destruct (dhcp_interfaces _ _ _ _ _) as [[c1 defs1]|] eqn:Hloop; [|done].
    apply dhcp_interfaces_counter in Hloop as [-> Hgrow1].
    intros Hrest. apply IH in Hrest as [-> Hgrow2]. split.
    + rewrite List.filter_app, length_app. lia.
    + intros tag old Hold. destruct (Hgrow1 tag old Hold) as [n1 H1].
      destruct (Hgrow2 tag _ H1) as [n2 H2]. exists (n1 +:+ n2).
      by rewrite H2, str_app_assoc.
Qed.

End DhcpEdges.

Section DhcpFile.

Variable Template : string → pydict → option string.
Variable snippet_cache : list (string * string).
Variable distros : list Distro.t.
Variable profiles : list Profile.t.
Variable systems : list System.t.
Variable settings : Settings.t.
Variable asctime : string.

(** X7.  [write_dhcp_file] writes at most one file.  When it raises, the
    file store is as before; when it returns, the configuration file of the
    mode (the dnsmasq one when the mode, in any letter case, is dnsmasq,
    the ISC one otherwise) holds the returned text, its directory has been
    asked for, and every other file is as before. *)
Theorem write_dhcp_file_writes_one_file (w : world) :
  match write_dhcp_file Template snippet_cache distros profiles systems
          settings asctime w with
  | (Raise _, w') => w' = w
  | (OK out, w') =>
      w' = World (<[dhcp_conf_file settings := out]> (files w))
                 (made_dirs w ++ [PyStr.dirname (dhcp_conf_file settings)])
  end.
Proof.
  unfold write_dhcp_file, dhcp_conf_file, dhcp_mode.
  destruct (String.eqb (PyStr.lower (Settings.manage_dhcp_mode settings))
              "dnsmasq");
    (unfold bind at 1; unfold read_file;
     destruct (files w !! _) as [template_data|]; [|done];
     unfold bind at 1; unfold lift at 1;
     destruct (dict_get "ia64" (Settings.bootloaders settings)); [|done];
     unfold bind at 1; unfold lift at 1;
     destruct (dhcp_systems _ _ _ _ _ _) as [st|]; [|done];
     apply apply_template_effect).
Qed.

(** X8.  The errors of [write_dhcp_file], in the order in which the code
    meets them, none of them leaving a trace in the file store: a template
    that cannot be opened gives [CX] naming the template of the mode; then
    a boot-loader table without an [ia64] entry gives [KeyError], in every
    mode; then a system whose profile is not loaded gives
    [AttributeError]. *)
Theorem write_dhcp_file_errors (w : world) :
  (files w !! dhcp_template_file settings = None →
   write_dhcp_file Template snippet_cache distros profiles systems settings
     asctime w
   = (Raise (CX ("error writing template to file: "
                 +:+ dhcp_template_file settings)), w))
  ∧ (is_Some (files w !! dhcp_template_file settings) →
     dict_get "ia64" (Settings.bootloaders settings) = None →
     write_dhcp_file Template snippet_cache distros profiles systems settings
       asctime w
     = (Raise (KeyError "ia64"), w))
  ∧ (∀ s,
       is_Some (files w !! dhcp_template_file settings) →
       is_Some (dict_get "ia64" (Settings.bootloaders settings)) →
       s ∈ systems → find_profile profiles (System.profile s) = None →
       write_dhcp_file Template snippet_cache distros profiles systems
         settings asctime w
       = (Raise AttributeError, w)).
Proof.
  unfold write_dhcp_file, dhcp_template_file, dhcp_mode.
  destruct (String.eqb (PyStr.lower (Settings.manage_dhcp_mode settings))
              "dnsmasq");
    (split; [|split];
     [ intros Hnone; unfold bind at 1; unfold read_file; by rewrite Hnone
     | intros [data Hdata] Hloader; unfold bind at 1; unfold read_file;
       rewrite Hdata; unfold bind at 1; unfold lift at 1; by rewrite Hloader
     | intros s [data Hdata] [loader Hloader] Hin Hdangling;
       unfold bind at 1; unfold read_file; rewrite Hdata;
       unfold bind at 1; unfold lift at 1; rewrite Hloader;
       unfold bind at 1; unfold lift at 1;
       by rewrite (dhcp_systems_dangling distros profiles _ _ systems s) ]).
Qed.

(** X9.  The loop of [write_dhcp_file] counts the interfaces that have a
    MAC address: when it ends normally the counter has grown by their
    number over all systems.  Buckets only grow: the text a bucket held
    before the loop is the beginning of the text it holds after. *)
Theorem dhcp_loop_counts_and_appends
    (mode elilo : string) (counter counter' : nat)
    (defs defs' : gmap string string) :
  dhcp_systems distros profiles mode elilo (counter, defs) systems
  = OK (counter', defs') →
  counter' = counter + length (List.filter has_mac (all_interfaces systems))
  ∧ ∀ tag old, defs !! tag = Some old →
      ∃ new, defs' !! tag = Some (old +:+ new).
Proof. apply dhcp_systems_counter. Qed.

End DhcpFile.

Lemma write_dhcp_file_errors_witness :
  write_dhcp_file toy_engine [] [sample_distro] [sample_profile]
    [sample_system] dnsmasq_settings "Thu Nov  1 12:00:00 2007" (World ∅ [])
  = (Raise (CX "error writing template to file: /etc/cobbler/dnsmasq.template"),
     World ∅ []).
Proof.
  apply (proj1 (write_dhcp_file_errors toy_engine [] [sample_distro]
                  [sample_profile] [sample_system] dnsmasq_settings
                  "Thu Nov  1 12:00:00 2007" (World ∅ []))).
  reflexivity.
Defined.

Lemma dhcp_loop_counts_and_appends_witness :
  1 = 0 + length (List.filter has_mac
                    (all_interfaces [sample_system; macless_system])).
Proof.
  refine (proj1 (dhcp_loop_counts_and_appends [sample_distro] [sample_profile]
                   [sample_system; macless_system] "isc" "elilo.efi" 0 1 ∅
                   (<["default" :=
                        isc_host_block "elilo.efi" "x86_64" 1
                          "aa:bb:cc:dd:ee:0f" sample_nic]> ∅) _)).
  vm_compute. reflexivity.
Defined.

(** ** More on the host-database files *)

Section HostFileEdges.

Lemma filter_length_le {A} (p q : A → bool) (l : list A) :
  (∀ x, p x = true → q x = true) →
  (length (List.filter p l) ≤ length (List.filter q l))%nat.
Proof.
  intros Hpq. induction l as [|x l IH]; [done|]. cbn [List.filter].
  destruct (p x) eqn:Hp.
  - rewrite (Hpq x Hp). cbn [length]. lia.
  - destruct (q x); cbn [length]; lia.
Qed.

End HostFileEdges.

(** X10.  [regen_ethers] and [regen_hosts] depend on the systems only:
    running one of them twice gives what running it once gives, and the
    two can be run in either order with the same result. *)
Theorem regen_files_idempotent_and_independent
    (systems : list System.t) (w : world) :
  regen_ethers systems (regen_ethers systems w).2 = regen_ethers systems w
  ∧ regen_hosts systems (regen_hosts systems w).2 = regen_hosts systems w
  ∧ regen_hosts systems (regen_ethers systems w).2
    = regen_ethers systems (regen_hosts systems w).2.
Proof.
  unfold regen_ethers, regen_hosts, write_file. cbn [snd files made_dirs].
  split; [|split].
  - by rewrite insert_insert_eq.
  - by rewrite insert_insert_eq.
  - by rewrite insert_insert_ne.
Qed.

(** X11.  Every interface that gets a line in the hosts file also gets one
    in the ethers file: [regen_hosts] never writes more lines than
    [regen_ethers]. *)
Theorem hosts_lines_within_ethers_lines (systems : list System.t) :
  (length (hosts_writes systems) ≤ length (ethers_writes systems))%nat.
Proof.
  rewrite hosts_writes_spec, ethers_writes_spec, !length_map.
  apply filter_length_le. intros nic. unfold in_hosts, in_ethers.
  destruct (has_mac nic), (populated (Interface.hostname nic)); done.
Qed.

(** ** More on boot files and the boot menu *)

Section PxeEdges.

Variable Template : string → pydict → option string.
Variable snippet_cache : list (string * string).
Variable distros : list Distro.t.
Variable profiles : list Profile.t.
Variable systems : list System.t.
Variable settings : Settings.t.
Variable blender : bool → blend_obj → result Blended.t.
Variable hash_to_string : list (string * string) → string.
Variable get_config_filename : System.t → string → string.
Variable is_pxe_supported : System.t → bool.
Variable yaml_dump : Blended.t → string.

(** What a call of [write_pxe_file] does to the file store. *)
Lemma write_pxe_file_effect filename system profile distro is_ia64 w :
  match write_pxe_file Template snippet_cache blender hash_to_string
          filename system profile distro is_ia64 w with
  | (Raise _, w') => w' = w
  | (OK None, w') =>
      w' = w ∧ ∃ s, system = Some s ∧ System.netboot_enabled s = false
  | (OK (Some buffer), w') =>
      w' = match filename with
           | Some path => World (<[path := buffer]> (files w)) (made_dirs w)
           | None => w
           end
  end.
Proof.
  unfold write_pxe_file.
  destruct system as [s|].
  - destruct (System.netboot_enabled s) eqn:Hboot; cbn [negb];
      [|split; [done|by exists s]].
    unfold bind at 1. unfold lift at 1. destruct distro as [d|]; [|done].
    unfold bind at 1. unfold lift at 1.
    destruct (blender true (BProfile profile)); [|done].
    unfold bind at 1. unfold lift at 1.
    destruct (blender true (BSystem s)); [|done].
    unfold bind at 1. unfold read_file at 1.
    destruct (files w !! _); [|done].
    unfold bind at 1.
    match goal with
    | |- context [apply_template _ _ ?data ?md None w] =>
        pose proof (apply_template_effect Template snippet_cache data md
                      None w) as Hw;
        destruct (apply_template Template snippet_cache data md None w)
          as [[buffer|e] w']
    end; subst w'; [|done].
    unfold bind, ret, write_file. by destruct filename.
  - unfold bind at 1. unfold lift at 1. destruct distro as [d|]; [|done].
    unfold bind at 1. unfold lift at 1.
    destruct (blender true (BProfile profile)); [|done].
    unfold bind at 1. unfold lift at 1.
    unfold bind at 1. unfold read_file at 1.
    destruct (files w !! _); [|done].
    unfold bind at 1.
    match goal with
    | |- context [apply_template _ _ ?data ?md None w] =>
        pose proof (apply_template_effect Template snippet_cache data md
                      None w) as Hw;
        destruct (apply_template Template snippet_cache data md None w)
          as [[buffer|e] w']
    end; subst w'; [|done].
    unfold bind, ret, write_file. by destruct filename.
Qed.

Lemma menu_entries_world profile_list : ∀ pxe_menu_items w,
  (menu_entries Template snippet_cache distros blender hash_to_string
     pxe_menu_items profile_list w).2 = w.
Proof.
  induction profile_list as [|p rest IH]; intros items w; [done|].
  cbn [menu_entries]. unfold bind at 1.
  pose proof (write_pxe_file_effect None None p
                (find_distro distros (Profile.distro p)) false w) as Hw.
  destruct (write_pxe_file _ _ _ _ _ _ _ _ _ _) as [[[c|]|e] w'].
  - subst w'. apply IH.
  - destruct Hw as [-> _]. apply IH.
  - by subst w'.
Qed.

Lemma menu_entries_missing_distro profile_list p : ∀ pxe_menu_items w,
  p ∈ profile_list → find_distro distros (Profile.distro p) = None →
  ∃ e, menu_entries Template snippet_cache distros blender hash_to_string
         pxe_menu_items profile_list w = (Raise e, w).
Proof.
  induction profile_list as [|q rest IH]; intros items w Hin Hnone;
    [by inv Hin|].
  cbn [menu_entries]. unfold bind at 1.
  pose proof (write_pxe_file_effect None None q
                (find_distro distros (Profile.distro q)) false w) as Hw.
  destruct (write_pxe_file _ _ _ _ _ _ _ _ _ _) as [[[c|]|e] w'] eqn:Hq.
  - subst w'. inv Hin; [|by apply IH].
    rewrite Hnone in Hq. by cbv in Hq.
  - destruct Hw as [_ (s & [=] & _)].
  - subst w'. by exists e.
Qed.

End PxeEdges.

Section PxeProperties.

Variable Template : string → pydict → option string.
Variable snippet_cache : list (string * string).
Variable distros : list Distro.t.
Variable profiles : list Profile.t.
Variable systems : list System.t.
Variable settings : Settings.t.
Variable blender : bool → blend_obj → result Blended.t.
Variable hash_to_string : list (string * string) → string.
Variable get_config_filename : System.t → string → string.
Variable is_pxe_supported : System.t → bool.
Variable yaml_dump : Blended.t → string.

(** X12.  [write_pxe_file] writes at most the file it is given, and
    only when it has a text to return: when it raises, and when it answers
    [None] (which it does only for a system with network boot switched
    off), the file store is as before; otherwise the file, if one was
    named, holds exactly the returned text.  No directory is asked for. *)
Theorem write_pxe_file_stores_returned_text
    (filename : option string) (system : option System.t)
    (profile : Profile.t) (distro : option Distro.t) (is_ia64 : bool)
    (w : world) :
  match write_pxe_file Template snippet_cache blender hash_to_string
          filename system profile distro is_ia64 w with
  | (Raise _, w') => w' = w
  | (OK None, w') =>
      w' = w ∧ ∃ s, system = Some s ∧ System.netboot_enabled s = false
  | (OK (Some buffer), w') =>
      w' = match filename with
           | Some path => World (<[path := buffer]> (files w)) (made_dirs w)
           | None => w
           end
  end.
Proof. apply write_pxe_file_effect. Qed.

(** X13.  [make_pxe_menu] writes at most the menu file.  When it raises,
    the file store is as before.  When it returns, either a system named
    [default] exists and the file store is as before, or the file
    [default] under [pxelinux.cfg] of the boot tree was written, its
    directory was asked for, and nothing else changed. *)
Theorem make_pxe_menu_writes_one_file (w : world) :
  let outfile :=
    PyStr.path_join3 (Settings.tftpboot settings) "pxelinux.cfg" "default" in
  match make_pxe_menu Template snippet_cache distros profiles systems
          settings blender hash_to_string w with
  | (Raise _, w') => w' = w
  | (OK _, w') =>
      match find_system systems "default" with
      | Some _ => w' = w
      | None =>
          ∃ text,
            w' = World (<[outfile := text]> (files w))
                       (made_dirs w ++ [PyStr.dirname outfile])
      end
  end.
Proof.
  intros outfile. unfold make_pxe_menu.
  destruct (find_system systems "default"); [done|].
  unfold bind at 1. unfold read_file.
  destruct (files w !! _) as [template_data|]; [|done].
  unfold bind at 1.
  pose proof (menu_entries_world Template snippet_cache distros blender
                hash_to_string (sort_by_name profiles) "" w) as Hw.
  destruct (menu_entries _ _ _ _ _ _ _ _) as [[items|e] w1];
    cbn [snd] in Hw; subst w1; [|done].
  unfold bind at 1.
  match goal with
  | |- context [apply_template _ _ ?data ?md ?out w] =>
      pose proof (apply_template_effect Template snippet_cache data md out w)
        as Heffect;
      destruct (apply_template Template snippet_cache data md out w)
        as [[text|e] w']
  end; [|done].
  unfold ret. by exists text.
Qed.

(** X14.  A profile whose distro is not loaded makes the whole boot menu
    fail: without a system named [default], [make_pxe_menu] raises and
    writes nothing, whatever the other profiles are. *)
Theorem make_pxe_menu_needs_every_distro (p : Profile.t) (w : world) :
  find_system systems "default" = None →
  p ∈ profiles → find_distro distros (Profile.distro p) = None →
  ∃ e, make_pxe_menu Template snippet_cache distros profiles systems
         settings blender hash_to_string w = (Raise e, w).
Proof.
  intros Hdefault Hin Hnone. unfold make_pxe_menu. rewrite Hdefault.
  unfold bind at 1. unfold read_file.
  destruct (files w !! _) as [template_data|]; [|by eexists].
  unfold bind at 1.
  destruct (menu_entries_missing_distro Template snippet_cache distros
              blender hash_to_string (sort_by_name profiles) p "" w)
    as [e ->]; [by rewrite sort_by_name_perm|done|].
  by exists e.
Qed.

(** X15.  When the profile of a system is loaded but the distro of that
    profile is not, [write_all_system_files] raises [CX] with a message
    that names the profile and the missing distro, and writes nothing. *)
Theorem write_all_system_files_missing_distro
    (s : System.t) (p : Profile.t) (w : world) :
  find_profile profiles (System.profile s) = Some p →
  find_distro distros (Profile.distro p) = None →
  write_all_system_files Template snippet_cache distros profiles settings
    blender hash_to_string get_config_filename is_pxe_supported yaml_dump s w
  = (Raise (CX ("profile " +:+ System.profile s
                +:+ " references a missing distro " +:+ Profile.distro p)),
     w).
Proof.
  intros Hp Hd. unfold write_all_system_files. by rewrite Hp, Hd.
Qed.

(** X16.  For a distro whose architecture is none of x86, x86_64,
    standard and ia64, the path of the boot file is never set; a system on
    it that is not to be network-booted, and has an interface, makes
    [write_all_system_files] raise [UnboundLocalError] when it goes to
    remove that file, before anything is written. *)
Theorem write_all_system_files_unknown_arch
    (s : System.t) (p : Profile.t) (d : Distro.t)
    (name : string) (interface : Interface.t)
    (rest : list (string * Interface.t)) (w : world) :
  find_profile profiles (System.profile s) = Some p →
  find_distro distros (Profile.distro p) = Some d →
  pxelinux_arch (Distro.arch d) = false →
  String.eqb (Distro.arch d) "ia64" = false →
  System.netboot_enabled s && is_pxe_supported s = false →
  System.interfaces s = (name, interface) :: rest →
  write_all_system_files Template snippet_cache distros profiles settings
    blender hash_to_string get_config_filename is_pxe_supported yaml_dump s w
  = (Raise UnboundLocalError, w).
Proof.
  intros Hp Hd Hpxe Hia64 Hboot Hnics. unfold write_all_system_files.
  rewrite Hp, Hd, Hnics. cbn [for_each]. rewrite Hpxe, Hia64, Hboot.
  reflexivity.
Qed.

End PxeProperties.

Lemma make_pxe_menu_needs_every_distro_witness :
  ∃ e, make_pxe_menu toy_engine [] [sample_distro]
         [web_profile; orphan_profile; app_profile] [sample_system]
         sample_settings sample_blender sample_hash_to_string menu_world
       = (Raise e, menu_world).
Proof.
  apply (make_pxe_menu_needs_every_distro toy_engine [] [sample_distro]
           [web_profile; orphan_profile; app_profile] [sample_system]
           sample_settings sample_blender sample_hash_to_string
           orphan_profile menu_world).
  - reflexivity.
  - right. left.
  - reflexivity.
Defined.

Lemma write_all_system_files_missing_distro_witness :
  write_all_system_files toy_engine [] [sample_distro]
    [web_profile; orphan_profile] sample_settings sample_blender
    sample_hash_to_string sample_config_filename (λ _, true)
    sample_yaml_dump orphan_system pxe_world
  = (Raise (CX "profile legacy references a missing distro rhel3-i386"),
     pxe_world).
Proof.
  apply (write_all_system_files_missing_distro toy_engine [] [sample_distro]
           [web_profile; orphan_profile] sample_settings sample_blender
           sample_hash_to_string sample_config_filename (λ _, true)
           sample_yaml_dump orphan_system orphan_profile pxe_world);
    reflexivity.
Defined.

Lemma write_all_system_files_unknown_arch_witness :
  write_all_system_files toy_engine [] [sample_distro; ppc_distro]
    [web_profile; ppc_profile] sample_settings sample_blender
    sample_hash_to_string sample_config_filename (λ _, true)
    sample_yaml_dump ppc_system pxe_world
  = (Raise UnboundLocalError, pxe_world).
Proof.
  apply (write_all_system_files_unknown_arch toy_engine [] 
           [sample_distro; ppc_distro] [web_profile; ppc_profile]
           sample_settings sample_blender sample_hash_to_string
           sample_config_filename (λ _, true) sample_yaml_dump ppc_system
           ppc_profile ppc_distro "intf0" sample_nic [] pxe_world);
    reflexivity.
Defined.

Section SystemFile.

Variable Template : string → pydict → option string.
Variable snippet_cache : list (string * string).
Variable distros : list Distro.t.
Variable profiles : list Profile.t.
Variable settings : Settings.t.
Variable blender : bool → blend_obj → result Blended.t.
Variable hash_to_string : list (string * string) → string.
Variable get_config_filename : System.t → string → string.
Variable is_pxe_supported : System.t → bool.
Variable yaml_dump : Blended.t → string.

(** A loop over a list that is not empty ends with the body of one of
    its elements. *)
Lemma for_each_ends_with_body {X} (xs : list X) (body : X → M unit) :
  ∀ w w', xs ≠ [] → for_each xs body w = (OK tt, w') →
          ∃ x w1, x ∈ xs ∧ body x w1 = (OK tt, w').
Proof.
  induction xs as [|x xs IH]; intros w w' Hne; [done|].
  cbn [for_each]. unfold bind.
  destruct (body x w) as [[[]|e] w1] eqn:Hx; [|done].
  destruct xs as [|y xs].
  - cbn. intros [= <-]. exists x, w. split; [by left|done].
  - intros Hrest. destruct (IH w1 w') as (z & w2 & Hz & Hbody); [done..|].
    exists z, w2. split; [by right|done].
Qed.

(** X17.  [write_all_system_files] names the file of a system after the
    system, not after its interfaces: when it returns for a system with at
    least one interface, the file [systems/<name>] under the web root
    holds the dump of the blended system.  A system without interfaces
    gets no file at all: the file store is left as it was. *)
Theorem write_all_system_files_system_file
    (s : System.t) (w w' : world) :
  write_all_system_files Template snippet_cache distros profiles settings
    blender hash_to_string get_config_filename is_pxe_supported yaml_dump s w
  = (OK tt, w') →
  match System.interfaces s with
  | [] => w' = w
  | _ :: _ =>
      ∃ blended,
        blender true (BSystem s) = OK blended
        ∧ files w' !! PyStr.path_join3 (Settings.webdir settings) "systems"
                        (System.name s)
          = Some (yaml_dump blended)
  end.
Proof.
  unfold write_all_system_files.
  destruct (find_profile profiles (System.profile s)) as [p|]; [|done].
  destruct (find_distro distros (Profile.distro p)) as [d|]; [|done].
  destruct (System.interfaces s) as [|nic nics]; [by intros [= <-]|].
  intros Hloop.
  apply for_each_ends_with_body in Hloop as ([name i] & w1 & _ & Hbody);
    [|done].
  unfold bind at 1 in Hbody.
  match type of Hbody with
  | match ?m w1 with _ => _ end = _ =>
      destruct (m w1) as [[[]|e] w2]; [|done]
  end.
  unfold write_system_file, bind, lift, write_file in Hbody.
  destruct (blender true (BSystem s)) as [blended|]; [|done].
  injection Hbody as <-. exists blended. split; [done|].
  cbn [files]. apply lookup_insert_eq.
Qed.

End SystemFile.

Lemma write_all_system_files_system_file_witness :
  let run :=
    write_all_system_files toy_engine [] [sample_distro] [web_profile]
      sample_settings sample_blender sample_hash_to_string
      sample_config_filename (λ _, true) sample_yaml_dump
      (System.Make "web1" "web" [("intf0", sample_nic)] true) pxe_world in
  ∃ blended,
    sample_blender true
      (BSystem (System.Make "web1" "web" [("intf0", sample_nic)] true))
    = OK blended
    ∧ files run.2 !! "/var/www/cobbler/systems/web1"
      = Some (sample_yaml_dump blended).
Proof.
  intros run.
  refine (write_all_system_files_system_file toy_engine [] [sample_distro]
            [web_profile] sample_settings sample_blender
            sample_hash_to_string sample_config_filename (λ _, true)
            sample_yaml_dump
            (System.Make "web1" "web" [("intf0", sample_nic)] true)
            pxe_world run.2 _).
  vm_compute. reflexivity.
Defined.

(** ** More on the tree reconciler *)

Section CleanTreesEdges.

Import CleanTrees.

Lemma clean_trees_web_lookup (t : fs) x :
  web (clean_trees t) !! x = cleaned_web_entry x (web t !! x).
Proof.
  unfold clean_trees. cbn [web].
  rewrite clean_web_lookup by apply NoDup_fst_map_to_list.
  destruct (decide (x ∈ listdir (web t))) as [Hin|Hout]; [done|].
  rewrite elem_of_listdir in Hout.
  by destruct (web t !! x) as [nd|] eqn:Hx; [destruct Hout; eauto|].
Qed.

(** What becomes of one entry of the boot-tree root. *)
Lemma clean_trees_boot_lookup (t : fs) x :
  boot (clean_trees t) !! x
  = match boot t !! x with
    | Some (Dir entries) =>
        if bool_decide (x ∈ ["pxelinux.cfg"; "images"])
        then Some (Dir (purged entries)) else Some (Dir entries)
    | other => other
    end.
Proof.
  unfold clean_trees. cbn [boot]. rewrite !rmtree_contents_lookup.
  destruct (boot t !! x) as [[| |]|]; try done.
  destruct (decide (x = "pxelinux.cfg")) as [->|Hp]; [done|].
  destruct (decide (x = "images")) as [->|Hi]; [done|].
  rewrite bool_decide_eq_false_2; [done|].
  rewrite !elem_of_cons. intros [?|[?|Hnil]]; [done..|by inv Hnil].
Qed.

(** Purging twice removes no more than purging once. *)
Lemma purged_twice (entries : dir) : purged (purged entries) = purged entries.
Proof.
  apply map_eq. intros y. unfold purged. rewrite !map_lookup_filter.
  destruct (entries !! y) as [nd|]; [|done]. cbn [mbind option_bind].
  destruct (decide (survives_purge (y, nd) = true)) as [Hs|Hs].
  - rewrite option_guard_True by done. cbn [mbind option_bind].
    by rewrite option_guard_True.
  - by rewrite option_guard_False.
Qed.

Lemma cleaned_web_entry_twice x o :
  cleaned_web_entry x (cleaned_web_entry x o) = cleaned_web_entry x o.
Proof.
  destruct o as [[data|entries|]|]; cbn [cleaned_web_entry]; try done.
  - destruct (PyStr.endswith ".py" x) eqn:Hpy; [|done].
    cbn [cleaned_web_entry]. by rewrite Hpy.
  - destruct (bool_decide (x ∈ allowed_dirs)) eqn:Hallowed; [|done].
    cbn [cleaned_web_entry]. rewrite Hallowed.
    destruct (bool_decide (x ∈ purged_dirs)); [|done].
    by rewrite purged_twice.
Qed.

Lemma fs_eq (t1 t2 : fs) : web t1 = web t2 → boot t1 = boot t2 → t1 = t2.
Proof. destruct t1, t2. cbn. by intros -> ->. Qed.

End CleanTreesEdges.

(** X18.  [clean_trees] is idempotent: run on a tree it has just cleaned,
    it changes nothing. *)
Theorem clean_trees_idempotent (t : CleanTrees.fs) :
  CleanTrees.clean_trees (CleanTrees.clean_trees t) = CleanTrees.clean_trees t.
Proof.
  apply fs_eq; apply map_eq; intros x.
  - rewrite !clean_trees_web_lookup. apply cleaned_web_entry_twice.
  - rewrite !clean_trees_boot_lookup.
    destruct (CleanTrees.boot t !! x) as [[data|entries|]|]; try done.
    destruct (bool_decide (x ∈ ["pxelinux.cfg"; "images"])) eqn:Hx;
      [|done].
    by rewrite purged_twice.
Qed.

(** X19.  What [clean_trees] leaves under the web root was there before,
    and is in order: a regular file that is left has a name ending in
    [.py] and is unchanged, a directory that is left is named in the
    allow-list and was a directory, and a node that is neither was left
    untouched.  Nothing is created. *)
Theorem clean_trees_leaves_only_allowed (t : CleanTrees.fs) (x : string) :
  match CleanTrees.web (CleanTrees.clean_trees t) !! x with
  | Some (CleanTrees.File data) =>
      PyStr.endswith ".py" x = true
      ∧ CleanTrees.web t !! x = Some (CleanTrees.File data)
  | Some (CleanTrees.Dir _) =>
      x ∈ CleanTrees.allowed_dirs ∧ CleanTrees.isdir (CleanTrees.web t) x = true
  | Some CleanTrees.Other => CleanTrees.web t !! x = Some CleanTrees.Other
  | None => True
  end.
Proof.
  rewrite clean_trees_web_lookup. unfold CleanTrees.isdir.
  destruct (CleanTrees.web t !! x) as [[data|entries|]|];
    cbn [CleanTrees.cleaned_web_entry]; try done.
  - by destruct (PyStr.endswith ".py" x) eqn:Hpy.
  - destruct (bool_decide (x ∈ CleanTrees.allowed_dirs)) eqn:Hallowed;
      [|done].
    by apply bool_decide_eq_true in Hallowed.
Qed.

(** X20.  The directories [get_repo_segname] names, [repos_profile] and
    [repos_system], into which the repository files of profiles and
    systems are written, are not in the allow-list of [clean_trees] (it
    has [repo_profile] and [repo_system]): whatever is under the web root
    by one of these two names, file or directory, is deleted by
    [clean_trees], unless it is neither. *)
Theorem clean_trees_deletes_repo_segments
    (t : CleanTrees.fs) (is_profile : bool) :
  (get_repo_segname is_profile ∉ CleanTrees.allowed_dirs)
  ∧ (CleanTrees.web t !! get_repo_segname is_profile ≠ Some CleanTrees.Other →
     CleanTrees.web (CleanTrees.clean_trees t) !! get_repo_segname is_profile
     = None).
Proof.
  assert (bool_decide (get_repo_segname is_profile ∈ CleanTrees.allowed_dirs)
          = false) as Hout by (by destruct is_profile; vm_compute).
  split; [by apply bool_decide_eq_false in Hout|].
  intros Hother. rewrite clean_trees_web_lookup.
  destruct (CleanTrees.web t !! get_repo_segname is_profile)
    as [[data|entries|]|]; cbn [CleanTrees.cleaned_web_entry]; try done.
  - by destruct is_profile.
  - by rewrite Hout.
Qed.

Lemma clean_trees_deletes_repo_segments_witness :
  let t :=
    CleanTrees.Fs
      (<["repos_profile" :=
           CleanTrees.Dir
             (<["web" := CleanTrees.Dir
                           (<["updates.repo" := CleanTrees.File "[updates]"]>
                              ∅)]> ∅)]> ∅)
      ∅ in
  CleanTrees.web (CleanTrees.clean_trees t) !! get_repo_segname true = None.
Proof.
  intros t.
  apply (proj2 (clean_trees_deletes_repo_segments t true)).
  vm_compute. discriminate.
Defined.

(** ** Repository files *)

Section RepoConfigFacts.

Import RepoConfig.

Lemma scan_lines_spec lines : ∀ ret baseurl,
  scan_lines (ret, baseurl) lines
  = if forallb two_parts (baseurl_lines lines)
    then Some (ret || existsb (PyStr.contains "ks_mirror") lines,
               match last (map second_part (baseurl_lines lines)) with
               | Some value => Some value
               | None => baseurl
               end)
    else None.
Proof.
  induction lines as [|line rest IH]; intros ret baseurl.
  - cbn. by rewrite orb_false_r.
  - cbn [scan_lines scan_line baseurl_lines List.filter existsb].
    fold (baseurl_lines rest).
    destruct (PyStr.contains "baseurl" line).
    + cbn [forallb map]. unfold two_parts at 1, second_part at 1.
      destruct (PyStr.split "=" line) as [|a [|b [|c l]]]; try done.
      rewrite IH. destruct (forallb two_parts (baseurl_lines rest)); [|done].
      cbn [andb]. f_equal. f_equal.
      * by destruct (PyStr.contains "ks_mirror" line), ret.
      * destruct (map second_part (baseurl_lines rest)) as [|v vs] eqn:Hvs;
          [done|].
        rewrite !last_cons. by destruct (last vs).
    + rewrite IH. destruct (forallb two_parts (baseurl_lines rest)); [|done].
      f_equal. f_equal.
      by destruct (PyStr.contains "ks_mirror" line), ret.
Qed.

(** A text without the separator is one part. *)
Lemma split_absent (c : ascii) s :
  PyStr.contains (String c "") s = false → PyStr.split c s = [s].
Proof.
  induction s as [|a s IH]; [done|].
  cbn [PyStr.contains String.prefix PyStr.split].
  intros Habsent. apply orb_false_iff in Habsent as [Ha Hs].
  destruct (Ascii.eqb_spec a c) as [->|Hne].
  - destruct (ascii_dec c c); [by destruct s|done].
  - by rewrite IH.
Qed.

Lemma split_nonempty (c : ascii) s : PyStr.split c s ≠ [].
Proof.
  destruct s as [|a s]; [done|]. cbn [PyStr.split].
  destruct (Ascii.eqb a c); [done|]. by destruct (PyStr.split c s).
Qed.

(** A text with the separator is at least two parts. *)
Lemma split_present (c : ascii) s :
  PyStr.contains (String c "") s = true →
  ∃ a b rest, PyStr.split c s = a :: b :: rest.
Proof.
  induction s as [|a s IH]; [done|].
  cbn [PyStr.contains String.prefix PyStr.split].
  destruct (Ascii.eqb_spec a c) as [->|Hne].
  - intros _. destruct (PyStr.split c s) as [|h t] eqn:Hs.
    + by destruct (split_nonempty c s).
    + by exists "", h, t.
  - destruct (ascii_dec c a) as [->|_]; [done|].
    cbn [orb]. intros Hs. destruct (IH Hs) as (h & b & rest & ->).
    by exists (String a h), b, rest.
Qed.

Lemma split_baseurl_line url :
  PyStr.split "=" ("baseurl=" +:+ url) = "baseurl" :: PyStr.split "=" url.
Proof. reflexivity. Qed.

Lemma contains_baseurl_line url :
  PyStr.contains "baseurl" ("baseurl=" +:+ url) = true.
Proof. reflexivity. Qed.

Lemma baseurl_lines_app l1 l2 :
  baseurl_lines (l1 ++ l2) = (baseurl_lines l1 ++ baseurl_lines l2)%list.
Proof. apply List.filter_app. Qed.

Lemma baseurl_lines_cons l lines :
  PyStr.contains "baseurl" l = true →
  baseurl_lines (l :: lines) = l :: baseurl_lines lines.
Proof. intros Hl. cbn [baseurl_lines List.filter]. by rewrite Hl. Qed.

Lemma baseurl_lines_none lines :
  Forall (λ l, PyStr.contains "baseurl" l = false) lines →
  baseurl_lines lines = [].
Proof.
  induction 1 as [|l lines Hl _ IH]; [done|].
  cbn [baseurl_lines List.filter]. by rewrite Hl.
Qed.


End RepoConfigFacts.

(** X21.  [analyze_repo_config] on a file that exists: the lines that
    hold the word [baseurl] are each unpacked at [=] into two parts, and
    one that has no [=] or more than one makes the call raise
    [ValueError]; otherwise the base URL is the second part of the last
    such line, as it stands, and [None] when there is no such line, and
    the flag tells whether some line holds [ks_mirror]. *)
Theorem analyze_repo_config_result
    (filename data : string) (w : world) :
  files w !! filename = Some data →
  let lines := PyStr.split PyStr.nl_char data in
  RepoConfig.analyze_repo_config filename w
  = if forallb RepoConfig.two_parts (RepoConfig.baseurl_lines lines)
    then RepoConfig.Returned
           (existsb (PyStr.contains "ks_mirror") lines,
            last (map RepoConfig.second_part (RepoConfig.baseurl_lines lines)))
    else RepoConfig.RaisedValueError.
Proof.
  intros Hdata lines. unfold RepoConfig.analyze_repo_config.
  rewrite Hdata. fold lines. rewrite scan_lines_spec.
  destruct (forallb _ _); [|done]. cbn [orb].
  by destruct (last _).
Qed.

Lemma analyze_repo_config_result_witness :
  let w :=
    World (<["/var/www/cobbler/repos_profile/web/updates.repo" :=
               "[updates]" +:+ PyStr.nl +:+ "name=updates" +:+ PyStr.nl
               +:+ "baseurl=http://cobbler.example.org/cobbler/repo_mirror/updates"
               +:+ PyStr.nl +:+ "enabled=1"]> ∅) [] in
  RepoConfig.analyze_repo_config
    "/var/www/cobbler/repos_profile/web/updates.repo" w
  = RepoConfig.Returned
      (false, Some "http://cobbler.example.org/cobbler/repo_mirror/updates").
Proof.
  intros w.
  etrans.
  - apply (analyze_repo_config_result
             "/var/www/cobbler/repos_profile/web/updates.repo"
             ("[updates]" +:+ PyStr.nl +:+ "name=updates" +:+ PyStr.nl
              +:+ "baseurl=http://cobbler.example.org/cobbler/repo_mirror/updates"
              +:+ PyStr.nl +:+ "enabled=1") w).
    vm_compute. reflexivity.
  - vm_compute. reflexivity.
Defined.

(** X22.  A base URL that itself holds [=], such as one with a query
    string, cannot be read: a line [baseurl=] followed by such a URL makes
    [analyze_repo_config] raise [ValueError], wherever the line stands in
    the file.  A URL without [=] on the last line that holds [baseurl] is
    returned whole. *)
Theorem analyze_repo_config_equals_sign
    (filename data : string) (before after : list string) (url : string)
    (w : world) :
  let line := "baseurl=" +:+ url in
  files w !! filename = Some data →
  PyStr.split PyStr.nl_char data = (before ++ line :: after)%list →
  (PyStr.contains "=" url = true →
   RepoConfig.analyze_repo_config filename w = RepoConfig.RaisedValueError)
  ∧ (PyStr.contains "=" url = false →
     Forall (λ l, PyStr.contains "baseurl" l = false) after →
     forallb RepoConfig.two_parts (RepoConfig.baseurl_lines before) = true →
     ∃ is_core,
       RepoConfig.analyze_repo_config filename w
       = RepoConfig.Returned (is_core, Some url)).
Proof.
  intros line Hdata Hlines.
  unfold RepoConfig.analyze_repo_config. rewrite Hdata, Hlines.
  rewrite scan_lines_spec, baseurl_lines_app.
  unfold line.
  rewrite (baseurl_lines_cons _ after (contains_baseurl_line url)).
  rewrite forallb_app. cbn [forallb].
  split.
  - intros Hurl.
    destruct (split_present "=" url Hurl) as (a & b & rest & Hsplit).
    replace (RepoConfig.two_parts ("baseurl=" +:+ url)) with false.
    + by rewrite andb_false_r.
    + unfold RepoConfig.two_parts.
      by rewrite split_baseurl_line, Hsplit.
  - intros Hurl Hafter Hbefore.
    rewrite (baseurl_lines_none after Hafter), Hbefore.
    assert (PyStr.split "=" ("baseurl=" +:+ url) = ["baseurl"; url]) as Hsplit.
    { by rewrite split_baseurl_line, (split_absent "=" url Hurl). }
    unfold RepoConfig.two_parts. rewrite Hsplit. cbn [andb forallb].
    rewrite map_app. cbn [map]. rewrite last_snoc.
    unfold RepoConfig.second_part. rewrite Hsplit. by eexists.
Qed.

Lemma analyze_repo_config_equals_sign_witness :
  let data := "[updates]" +:+ PyStr.nl
              +:+ "baseurl=http://mirror.example.org/?repo=updates&arch=i386"
              +:+ PyStr.nl +:+ "enabled=1" in
  let w := World (<["/var/www/cobbler/repos_system/node1/updates.repo" :=
                      data]> ∅) [] in
  RepoConfig.analyze_repo_config
    "/var/www/cobbler/repos_system/node1/updates.repo" w
  = RepoConfig.RaisedValueError.
Proof.
  intros data w.
  refine (proj1 (analyze_repo_config_equals_sign
                   "/var/www/cobbler/repos_system/node1/updates.repo" data
                   ["[updates]"] ["enabled=1"]
                   "http://mirror.example.org/?repo=updates&arch=i386" w
                   _ _) _); vm_compute; reflexivity.
Defined.

(** ** More on the DHCP file: distros that are not loaded *)

Section DhcpDistroFacts.

Variable distros : list Distro.t.
Variable profiles : list Profile.t.

Lemma existsb_false_Forall {A} (f : A → bool) (l : list A) :
  existsb f l = false → Forall (λ x, f x = false) l.
Proof.
  induction l as [|x l IH]; [done|]. cbn [existsb].
  intros [Hx Hl]%orb_false_iff. constructor; [done|by apply IH].
Qed.

Lemma dhcp_interfaces_macless mode elilo distro interfaces st :
  Forall (λ i, has_mac i = false) interfaces →
  dhcp_interfaces mode elilo distro st interfaces = OK st.
Proof.
  induction 1 as [|i rest Hi _ IH]; [done|].
  cbn [dhcp_interfaces]. by rewrite dhcp_interface_step_macless.
Qed.

(** The systems that have an interface with a MAC address. *)
Lemma dhcp_systems_skip mode elilo systems : ∀ st,
  Forall (λ s, is_Some (find_profile profiles (System.profile s))) systems →
  dhcp_systems distros profiles mode elilo st
    (List.filter (λ s, existsb has_mac (map snd (System.interfaces s)))
       systems)
  = dhcp_systems distros profiles mode elilo st systems.
Proof.
  induction systems as [|s rest IH]; intros st Hfound; [done|].
  apply Forall_cons in Hfound as [[p Hp] Hrest].
  cbn [List.filter].
  destruct (existsb has_mac (map snd (System.interfaces s))) eqn:Hmac.
  - cbn [dhcp_systems]. rewrite Hp.
    destruct (dhcp_interfaces _ _ _ _ _); [by apply IH|done].
  - cbn [dhcp_systems]. rewrite Hp.
    rewrite dhcp_interfaces_macless by (by apply existsb_false_Forall).
    by apply IH.
Qed.

Lemma dhcp_interface_step_no_distro mode elilo st i :
  has_mac i = true → asks_for_arch mode i = true →
  dhcp_interface_step mode elilo None st i = Raise AttributeError.
Proof.
  destruct st as [counter defs].
  unfold dhcp_interface_step, has_mac, asks_for_arch, reservation_text.
  intros -> Hasks. cbn [negb].
  destruct (String.eqb mode "isc"); [done|].
  cbn [orb] in Hasks. by rewrite Hasks.
Qed.

Lemma dhcp_interfaces_no_distro mode elilo interfaces i : ∀ st,
  i ∈ interfaces → has_mac i = true → asks_for_arch mode i = true →
  dhcp_interfaces mode elilo None st interfaces = Raise AttributeError.
Proof.
  induction interfaces as [|i' rest IH]; intros st Hin Hmac Hasks;
    [by inv Hin|].
  cbn [dhcp_interfaces]. inv Hin.
  - by rewrite dhcp_interface_step_no_distro.
  - destruct (dhcp_interface_step mode elilo None st i') as [st'|e] eqn:Hstep.
    + by apply IH.
    + by apply dhcp_interface_step_error in Hstep as ->.
Qed.

Lemma dhcp_systems_no_distro mode elilo systems s p i : ∀ st,
  s ∈ systems →
  find_profile profiles (System.profile s) = Some p →
  find_distro distros (Profile.distro p) = None →
  i ∈ map snd (System.interfaces s) →
  has_mac i = true → asks_for_arch mode i = true →
  dhcp_systems distros profiles mode elilo st systems = Raise AttributeError.
Proof.
  induction systems as [|s' rest IH]; intros st Hin Hp Hd Hi Hmac Hasks;
    [by inv Hin|].
  cbn [dhcp_systems]. inv Hin.
  - rewrite Hp, Hd.
    by rewrite (dhcp_interfaces_no_distro mode elilo _ i).
  - destruct (find_profile profiles (System.profile s')); [|done].
    destruct (dhcp_interfaces _ _ _ _ _) as [st'|e] eqn:Hloop.
    + by apply IH.
    + by apply dhcp_interfaces_error in Hloop as ->.
Qed.

End DhcpDistroFacts.

Section DhcpDistro.

Variable Template : string → pydict → option string.
Variable snippet_cache : list (string * string).
Variable distros : list Distro.t.
Variable profiles : list Profile.t.
Variable systems : list System.t.
Variable settings : Settings.t.
Variable asctime : string.

(** X23.  A distro that is not loaded is an error of [write_dhcp_file]
    only where the architecture is asked for: a system with a loaded
    profile, an interface with a MAC address and no distro makes the call
    raise [AttributeError], leaving the file store as it was, in ISC mode,
    and in the other modes when that interface has an IP address. *)
Theorem write_dhcp_file_missing_distro
    (s : System.t) (p : Profile.t) (i : Interface.t) (w : world) :
  is_Some (files w !! dhcp_template_file settings) →
  is_Some (dict_get "ia64" (Settings.bootloaders settings)) →
  s ∈ systems →
  find_profile profiles (System.profile s) = Some p →
  find_distro distros (Profile.distro p) = None →
  i ∈ map snd (System.interfaces s) →
  has_mac i = true →
  asks_for_arch (dhcp_mode settings) i = true →
  write_dhcp_file Template snippet_cache distros profiles systems settings
    asctime w
  = (Raise AttributeError, w).
Proof.
  intros [data Hdata] [loader Hloader] Hin Hp Hd Hi Hmac Hasks.
  revert Hdata. unfold write_dhcp_file, dhcp_template_file.
  fold (dhcp_mode settings).
  destruct (String.eqb (dhcp_mode settings) "dnsmasq");
    (intros Hdata; unfold bind at 1; unfold read_file; rewrite Hdata;
     unfold bind at 1; unfold lift at 1; rewrite Hloader;
     unfold bind at 1; unfold lift at 1;
     by rewrite (dhcp_systems_no_distro distros profiles _ _ systems s p i)).
Qed.

(** X24.  A system none of whose interfaces has a MAC address, and whose
    profile is loaded, leaves no trace in the DHCP file, whether its
    distro is loaded or not: [write_dhcp_file] gives the same text, file
    store and error as it gives without such systems. *)
Theorem write_dhcp_file_drops_macless_systems (w : world) :
  Forall (λ s, is_Some (find_profile profiles (System.profile s))) systems →
  write_dhcp_file Template snippet_cache distros profiles systems settings
    asctime w
  = write_dhcp_file Template snippet_cache distros profiles
      (List.filter (λ s, existsb has_mac (map snd (System.interfaces s)))
         systems)
      settings asctime w.
Proof.
  intros Hfound. unfold write_dhcp_file.
  destruct (String.eqb (PyStr.lower (Settings.manage_dhcp_mode settings))
              "dnsmasq");
    (unfold bind, lift, read_file;
     destruct (files w !! _); [|done];
     destruct (dict_get "ia64" (Settings.bootloaders settings)); [|done];
     by rewrite dhcp_systems_skip).
Qed.

End DhcpDistro.

Lemma write_dhcp_file_missing_distro_witness :
  write_dhcp_file toy_engine [] [sample_distro]
    [sample_profile; orphan_profile] [sample_system; orphan_system]
    sample_settings "Thu Nov  1 12:00:00 2007" dhcp_world
  = (Raise AttributeError, dhcp_world).
Proof.
  apply (write_dhcp_file_missing_distro toy_engine [] [sample_distro]
           [sample_profile; orphan_profile] [sample_system; orphan_system]
           sample_settings "Thu Nov  1 12:00:00 2007"
           orphan_system orphan_profile sample_nic dhcp_world).
  - by eexists.
  - by eexists.
  - right. left.
  - reflexivity.
  - reflexivity.
  - left.
  - reflexivity.
  - reflexivity.
Defined.

Lemma write_dhcp_file_drops_macless_systems_witness :
  write_dhcp_file toy_engine [] [] [sample_profile]
    [macless_system; macless_system] sample_settings
    "Thu Nov  1 12:00:00 2007" dhcp_world
  = write_dhcp_file toy_engine [] [] [sample_profile] [] sample_settings
      "Thu Nov  1 12:00:00 2007" dhcp_world.
Proof.
  apply (write_dhcp_file_drops_macless_systems toy_engine [] []
           [sample_profile] [macless_system; macless_system] sample_settings
           "Thu Nov  1 12:00:00 2007" dhcp_world).
  repeat constructor; by eexists.
Defined.

(** ** Kernels and initrds *)

Section CopyDistroFacts.

Variable settings : Settings.t.
Variable find_kernel : string → option string.
Variable find_initrd : string → option string.
Variable linkfile : string → string → M unit.
Variable copyfile : string → string → M unit.

(** Whether a path is a file does not depend on the directories asked
    for. *)
Lemma not_a_file_dirs path w dirs :
  not_a_file path (World (files w) dirs) = not_a_file path w.
Proof. by destruct path. Qed.

(** X25.  [copy_single_distro_files] looks for the kernel before the
    initrd, and before anything is linked or copied: a distro whose kernel
    is not a file raises [CX] with [kernel not found], one whose kernel is
    a file and whose initrd is not raises [CX] with [initrd not found];
    both messages name the path as the distro gives it.  Either way the
    directory of the distro under the boot-tree root has been asked for
    and nothing else has happened, and [copy_distros] stops at that
    distro. *)
Theorem copy_single_distro_files_missing_file
    (d : Distro.t) (rest : list Distro.t) (w : world) (msg : string) :
  (not_a_file (find_kernel (Distro.kernel d)) w = true
   ∧ msg = "kernel not found: " +:+ Distro.kernel d
           +:+ ", distro: " +:+ Distro.name d)
  ∨ (not_a_file (find_kernel (Distro.kernel d)) w = false
     ∧ not_a_file (find_initrd (Distro.initrd d)) w = true
     ∧ msg = "initrd not found: " +:+ Distro.initrd d
             +:+ ", distro: " +:+ Distro.name d) →
  let distro_dir :=
    PyStr.path_join (PyStr.path_join (Settings.tftpboot settings) "images")
      (Distro.name d) in
  let w' := World (files w) (made_dirs w ++ [distro_dir]) in
  copy_single_distro_files settings find_kernel find_initrd linkfile
    copyfile d w
  = (Raise (CX msg), w')
  ∧ copy_distros settings find_kernel find_initrd linkfile copyfile
      (d :: rest) w
    = (Raise (CX msg), w').
Proof.
  intros Hmissing distro_dir w'.
  assert (copy_single_distro_files settings find_kernel find_initrd linkfile
            copyfile d w = (Raise (CX msg), w')) as Hfirst.
  { unfold copy_single_distro_files. cbn [for_each].
    unfold bind at 1. unfold copy_distro_into at 1.
    unfold bind at 1. unfold mkdir at 1.
    rewrite !not_a_file_dirs.
    destruct Hmissing as [[-> ->]|(-> & -> & ->)]; done. }
  split; [done|].
  unfold copy_distros. cbn [for_each]. unfold bind at 1. by rewrite Hfirst.
Qed.

End CopyDistroFacts.

Lemma copy_single_distro_files_missing_file_witness :
  let w := World (<["/mnt/f8/ppc/vmlinuz" := "kernel"]> ∅) [] in
  copy_distros sample_settings Some Some (λ _ _, ret tt) (λ _ _, ret tt)
    [ppc_distro; sample_distro] w
  = (Raise (CX "initrd not found: /mnt/f8/ppc/ramdisk.image.gz, distro: f8-ppc"),
     World (files w) ["/tftpboot/images/f8-ppc"]).
Proof.
  intros w.
  refine (proj2 (copy_single_distro_files_missing_file sample_settings
                   Some Some (λ _ _, ret tt) (λ _ _, ret tt)
                   ppc_distro [sample_distro] w _ _)).
  right. repeat split; vm_compute; reflexivity.
Defined.

(** ** More on System objects *)

(** X26.  A System object is valid once both setters have succeeded, in
    either order, and not before: starting from a cleared object,
    [set_name] alone and [set_profile] alone leave it invalid, the two
    together make it valid, and both orders end in the same object, whose
    other fields are still the empty string. *)
Theorem system_valid_after_both_setters
    (find_system_identifier : string → option string)
    (loaded : list string) (self : ItemSystem.System) (n p : string) :
  n = "default" ∨ ItemSystem.falsy (find_system_identifier n) = false →
  p ∈ loaded →
  let named := ItemSystem.Make (PStr n) PNone (PStr "") (PStr "") in
  let profiled := ItemSystem.Make PNone (PStr p) (PStr "") (PStr "") in
  let both := ItemSystem.Make (PStr n) (PStr p) (PStr "") (PStr "") in
  ItemSystem.is_valid (ItemSystem.clear self) = false
  ∧ ItemSystem.set_name find_system_identifier (ItemSystem.clear self) n
    = OK named
  ∧ ItemSystem.is_valid named = false
  ∧ ItemSystem.set_profile loaded (ItemSystem.clear self) p = OK profiled
  ∧ ItemSystem.is_valid profiled = false
  ∧ ItemSystem.set_profile loaded named p = OK both
  ∧ ItemSystem.set_name find_system_identifier profiled n = OK both
  ∧ ItemSystem.is_valid both = true.
Proof.
  intros Hname Hprofile named profiled both.
  assert (∀ s, ItemSystem.set_name find_system_identifier s n
               = OK (ItemSystem.Make (PStr n) (ItemSystem.profile s)
                       (ItemSystem.kernel_options s) (ItemSystem.ks_meta s)))
    as Hset.
  { intros s. unfold ItemSystem.set_name.
    destruct (String.eqb_spec n "default") as [->|Hne]; [done|].
    destruct Hname as [?| ->]; done. }
  unfold ItemSystem.set_profile.
  rewrite !bool_decide_eq_true_2 by done. rewrite !Hset.
  repeat split.
Qed.

Lemma system_valid_after_both_setters_witness :
  ItemSystem.set_profile ["webserver"; "db"]
    (ItemSystem.Make (PStr "web1.example.org") PNone (PStr "") (PStr ""))
    "webserver"
  = OK (ItemSystem.Make (PStr "web1.example.org") (PStr "webserver")
          (PStr "") (PStr "")).
Proof.
  refine (proj1 (proj2 (proj2 (proj2 (proj2 (proj2
            (system_valid_after_both_setters ItemSystem.sample_identifier
               ["webserver"; "db"] ItemSystem.blank "web1.example.org"
               "webserver" _ _))))))).
  - right. reflexivity.
  - left.
Defined.

(** X27.  [from_datastruct] needs all four keys and nothing of the
    object it is called on: it returns an object exactly when the
    datastruct holds [name], [profile], [kernel_options] and [ks_meta];
    otherwise the exception is [KeyError] for the first of these, in this
    order, that is missing.  The object returned is the same whatever the
    object held before. *)
Theorem from_datastruct_needs_every_key
    (self other : ItemSystem.System) (seed_data : pydict) :
  let keys := ["name"; "profile"; "kernel_options"; "ks_meta"] in
  ItemSystem.from_datastruct self seed_data
  = ItemSystem.from_datastruct other seed_data
  ∧ match List.find (λ k, bool_decide (dict_get k seed_data = None)) keys with
    | Some k => ItemSystem.from_datastruct self seed_data = Raise (KeyError k)
    | None => ∃ loaded, ItemSystem.from_datastruct self seed_data = OK loaded
    end.
Proof.
  intros keys. split; [done|].
  unfold ItemSystem.from_datastruct, ItemSystem.item. subst keys.
  cbn [List.find].
  destruct (dict_get "name" seed_data); cbn [bool_decide decide_rel]; [|done].
  rewrite bool_decide_eq_false_2 by done.
  destruct (dict_get "profile" seed_data); [|done].
  rewrite bool_decide_eq_false_2 by done.
  destruct (dict_get "kernel_options" seed_data); [|done].
  rewrite bool_decide_eq_false_2 by done.
  destruct (dict_get "ks_meta" seed_data); [|done].
  rewrite bool_decide_eq_false_2 by done.
  by eexists.
Qed.

(** ** The repository stanza of a kickstart file *)

Section RepoStanzaFacts.

Import RepoConfig.

Lemma split_app_sep (c : ascii) a b :
  PyStr.split c (a +:+ String c b)
  = (PyStr.split c a ++ PyStr.split c b)%list.
Proof.
  induction a as [|x a IH].
  - rewrite str_app_nil_l. cbn [PyStr.split]. by rewrite Ascii.eqb_refl.
  - rewrite str_app_cons. cbn [PyStr.split]. rewrite IH.
    destruct (Ascii.eqb x c); [done|].
    pose proof (split_nonempty c a) as Hne.
    by destruct (PyStr.split c a).
Qed.

Lemma prefix_nil s : String.prefix "" s = true.
Proof. by destruct s. Qed.

Lemma contains_char_app (c : ascii) a b :
  PyStr.contains (String c "") (a +:+ b)
  = PyStr.contains (String c "") a || PyStr.contains (String c "") b.
Proof.
  induction a as [|x a IH].
  - by rewrite str_app_nil_l.
  - rewrite str_app_cons. cbn [PyStr.contains String.prefix]. rewrite IH.
    rewrite !prefix_nil. by rewrite orb_assoc.
Qed.

(** The suffix [.repo] of a name without a dot is all that is taken
    out. *)
Lemma replace_repo_suffix x :
  PyStr.contains "." x = false → PyStr.replace ".repo" "" (x +:+ ".repo") = x.
Proof.
  unfold PyStr.replace. induction x as [|a x IH]; [done|].
  cbn [PyStr.contains String.prefix]. intros [Ha Hx]%orb_false_iff.
  rewrite str_app_cons. cbn [PyStr.replace_go String.prefix].
  destruct (ascii_dec "." a); [by destruct x|].
  by rewrite IH.
Qed.

Lemma repo_display_name_plain dir x :
  PyStr.contains "/" x = false → PyStr.contains "." x = false →
  repo_display_name (dir +:+ "/" +:+ x +:+ ".repo") = x.
Proof.
  intros Hslash Hdot. unfold repo_display_name.
  change (dir +:+ "/" +:+ x +:+ ".repo")
    with (dir +:+ String "/" (x +:+ ".repo")).
  rewrite split_app_sep, last_app.
  rewrite (split_absent "/" (x +:+ ".repo")).
  - cbn [last default from_option id]. by apply replace_repo_suffix.
  - by rewrite contains_char_app, Hslash.
Qed.

(** A line of a text holds nothing the text does not hold. *)
Lemma first_line_prefix (c : ascii) s :
  ∃ tail, s = default "" (head (PyStr.split c s)) +:+ tail.
Proof.
  induction s as [|a s [tail IH]]; [by exists ""|].
  cbn [PyStr.split]. destruct (Ascii.eqb a c).
  - by exists (String a s).
  - pose proof (split_nonempty c s) as Hne.
    destruct (PyStr.split c s) as [|h t]; [done|].
    cbn [head default from_option id] in *. exists tail.
    by rewrite str_app_cons, <- IH.
Qed.

Lemma prefix_app_r p s tail :
  String.prefix p s = true → String.prefix p (s +:+ tail) = true.
Proof.
  revert s. induction p as [|a p IH]; intros s;
    [intros _; apply prefix_nil|].
  destruct s as [|b s]; [done|]. rewrite str_app_cons.
  cbn [String.prefix]. destruct (ascii_dec a b); [apply IH|done].
Qed.

Lemma line_contains (c : ascii) sub s l :
  l ∈ PyStr.split c s → PyStr.contains sub l = true →
  PyStr.contains sub s = true.
Proof.
  revert l. induction s as [|a s IH]; intros l.
  - cbn [PyStr.split]. by intros ->%list_elem_of_singleton.
  - cbn [PyStr.split PyStr.contains].
    destruct (first_line_prefix c s) as [tail Htail].
    pose proof (split_nonempty c s) as Hne.
    destruct (Ascii.eqb a c).
    + intros [->|Hin]%elem_of_cons Hl.
      * destruct sub; [by destruct s|done].
      * rewrite (IH l Hin Hl). by rewrite orb_true_r.
    + destruct (PyStr.split c s) as [|h t] eqn:Hsplit; [done|].
      cbn [head default from_option id] in Htail.
      intros [->|Hin]%elem_of_cons.
      * cbn [PyStr.contains]. intros [Hp|Hc]%orb_true_iff.
        -- rewrite Htail, <- str_app_cons.
           by rewrite (prefix_app_r sub (String a h) tail).
        -- rewrite (IH h) by (done || by left). by rewrite orb_true_r.
      * intros Hl. rewrite (IH l) by (done || by right).
        by rewrite orb_true_r.
Qed.

Lemma baseurl_lines_absent (c : ascii) data :
  PyStr.contains "baseurl" data = false →
  baseurl_lines (PyStr.split c data) = [].
Proof.
  intros Habsent. apply baseurl_lines_none, Forall_forall.
  intros l Hin. destruct (PyStr.contains "baseurl" l) eqn:Hl; [|done].
  by rewrite (line_contains c "baseurl" data l Hin Hl) in Habsent.
Qed.

Lemma analyze_repo_config_spec filename data w :
  files w !! filename = Some data →
  analyze_repo_config filename w
  = let lines := PyStr.split PyStr.nl_char data in
    if forallb two_parts (baseurl_lines lines)
    then Returned (existsb (PyStr.contains "ks_mirror") lines,
                   last (map second_part (baseurl_lines lines)))
    else RaisedValueError.
Proof.
  intros Hdata. unfold analyze_repo_config. rewrite Hdata, scan_lines_spec.
  cbn zeta. destruct (forallb _ _); [|done]. cbn [orb].
  by destruct (last _).
Qed.

End RepoStanzaFacts.

(** X28.  For a repository file [dir/x.repo], where [x] holds neither a
    slash nor a dot, [generate_repo_stanza] adds one line to the stanza,
    [repo --name=x --baseurl=] followed by the base URL that
    [analyze_repo_config] read from the file, and goes on with the next
    file. *)
Theorem generate_repo_stanza_line
    (dir x data buf : string) (rest : list string) (w : world) :
  let c := dir +:+ "/" +:+ x +:+ ".repo" in
  let lines := PyStr.split PyStr.nl_char data in
  PyStr.contains "/" x = false → PyStr.contains "." x = false →
  files w !! c = Some data →
  forallb RepoConfig.two_parts (RepoConfig.baseurl_lines lines) = true →
  RepoConfig.repo_display_name c = x
  ∧ RepoConfig.repo_stanza buf (c :: rest) w
    = RepoConfig.repo_stanza
        (buf +:+ "repo --name=" +:+ x +:+ " --baseurl="
         +:+ RepoConfig.show_baseurl
               (last (map RepoConfig.second_part
                        (RepoConfig.baseurl_lines lines)))
         +:+ PyStr.nl)
        rest w.
Proof.
  intros c lines Hslash Hdot Hdata Hparts.
  pose proof (repo_display_name_plain dir x Hslash Hdot) as Hname.
  split; [done|].
  cbn [RepoConfig.repo_stanza]. fold c.
  rewrite (analyze_repo_config_spec c data w Hdata). cbn zeta.
  fold lines. rewrite Hparts. unfold c at 1. by rewrite Hname.
Qed.

Lemma generate_repo_stanza_line_witness :
  let data := "[updates]" +:+ PyStr.nl
              +:+ "baseurl=http://cobbler.example.org/cobbler/repo_mirror/updates"
              +:+ PyStr.nl +:+ "enabled=1" in
  let w := World (<["/var/www/cobbler/repos_profile/web/updates.repo" :=
                      data]> ∅) [] in
  RepoConfig.generate_repo_stanza
    ["/var/www/cobbler/repos_profile/web/updates.repo"] w
  = RepoConfig.Returned
      ("repo --name=updates --baseurl="
       +:+ "http://cobbler.example.org/cobbler/repo_mirror/updates"
       +:+ PyStr.nl).
Proof.
  intros data w. unfold RepoConfig.generate_repo_stanza.
  etrans.
  - refine (proj2 (generate_repo_stanza_line
                     "/var/www/cobbler/repos_profile/web" "updates" data ""
                     [] w _ _ _ _)); vm_compute; reflexivity.
  - vm_compute. reflexivity.
Defined.

(** X29.  A repository file without a line that holds [baseurl] still
    gets its line in the stanza, and the base URL on it is the word
    [None]. *)
Theorem generate_repo_stanza_without_baseurl
    (c data : string) (w : world) :
  files w !! c = Some data →
  PyStr.contains "baseurl" data = false →
  RepoConfig.generate_repo_stanza [c] w
  = RepoConfig.Returned
      ("repo --name=" +:+ RepoConfig.repo_display_name c
       +:+ " --baseurl=None" +:+ PyStr.nl).
Proof.
  intros Hdata Habsent.
  unfold RepoConfig.generate_repo_stanza. cbn [RepoConfig.repo_stanza].
  rewrite (analyze_repo_config_spec c data w Hdata). cbn zeta.
  by rewrite (baseurl_lines_absent PyStr.nl_char data Habsent).
Qed.

Lemma generate_repo_stanza_without_baseurl_witness :
  let data := "[local]" +:+ PyStr.nl
              +:+ "mirrorlist=http://mirrors.example.org/local"
              +:+ PyStr.nl +:+ "enabled=1" in
  let w := World (<["/var/www/cobbler/repos_system/node1/local.repo" :=
                      data]> ∅) [] in
  RepoConfig.generate_repo_stanza
    ["/var/www/cobbler/repos_system/node1/local.repo"] w
  = RepoConfig.Returned ("repo --name=local --baseurl=None" +:+ PyStr.nl).
Proof.
  intros data w.
  etrans.
  - apply (generate_repo_stanza_without_baseurl
             "/var/www/cobbler/repos_system/node1/local.repo" data w);
      vm_compute; reflexivity.
  - vm_compute. reflexivity.
Defined.

(** X30.  One repository file with a line that holds [baseurl] and does
    not unpack into two parts loses the whole stanza: when every file can
    be opened, [generate_repo_stanza] raises [ValueError] and returns no
    line, wherever that file stands in the list. *)
Theorem generate_repo_stanza_bad_line
    (configs : list string) (c data buf : string) (w : world) :
  Forall (λ c, is_Some (files w !! c)) configs →
  c ∈ configs →
  files w !! c = Some data →
  forallb RepoConfig.two_parts
    (RepoConfig.baseurl_lines (PyStr.split PyStr.nl_char data)) = false →
  RepoConfig.repo_stanza buf configs w = RepoConfig.RaisedValueError.
Proof.
  intros Hfiles Hin Hdata Hbad. revert buf.
  induction configs as [|c' rest IH]; intros buf; [by inv Hin|].
  cbn [RepoConfig.repo_stanza].
  apply Forall_cons in Hfiles as [[data' Hdata'] Hrest].
  rewrite (analyze_repo_config_spec c' data' w Hdata'). cbn zeta.
  destruct (forallb RepoConfig.two_parts
              (RepoConfig.baseurl_lines (PyStr.split PyStr.nl_char data')))
    eqn:Hparts; [|done].
  apply elem_of_cons in Hin as [->|Hin].
  - rewrite Hdata in Hdata'. injection Hdata' as <-. congruence.
  - by apply IH.
Qed.

Lemma generate_repo_stanza_bad_line_witness :
  let good := "baseurl=http://cobbler.example.org/cobbler/repo_mirror/updates" in
  let bad := "baseurl = http://mirror.example.org/?repo=extras" in
  let w := World (<["/repos/web/updates.repo" := good]>
                    (<["/repos/web/extras.repo" := bad]> ∅)) [] in
  RepoConfig.repo_stanza ""
    ["/repos/web/updates.repo"; "/repos/web/extras.repo"] w
  = RepoConfig.RaisedValueError.
Proof.
  intros good bad w.
  apply (generate_repo_stanza_bad_line
           ["/repos/web/updates.repo"; "/repos/web/extras.repo"]
           "/repos/web/extras.repo" bad "" w).
  - repeat constructor; by eexists.
  - right. left.
  - vm_compute. reflexivity.
  - vm_compute. reflexivity.
Defined.
